(** * Edge AI pipeline: preprocessor and incremental learner

    A shallow embedding of [src/edge_ai/sensor_preprocessor.py] and
    [src/edge_ai/incremental_learner.py].

    Conventions of the embedding.
    - A Python [float] (and a NumPy [float64]) is a real number of [R]:
      arithmetic is exact, there is no NaN and no infinity. Where a
      statement depends on how binary64 rounds, the rounded value is a
      parameter of it ([mean_of], [std_of], [blend], [rnd]), and the
      module [F64] evaluates the learner's expressions on binary64 floats.
      Where Python raises because a number leaves the range of the floats
      the embedding raises too ([float_of_int], [axis_number]).
    - A Python [dict] with string keys is an association list in
      insertion order, its keys pairwise distinct.
    - A method of a class is a computation in the monad [M S] over the
      attributes [S] of the object: it returns a value or raises, and in
      both cases hands back the attributes as the method left them.
    - What NumPy, OpenCV and the clock do is not this repository's code:
      the clock reading is an argument, the other entry points are Section
      variables. *)

From Stdlib Require Import Reals Lra Lia List String ZArith Bool Arith.
From Stdlib Require Floats.
Import ListNotations.
Open Scope string_scope.
Open Scope list_scope.
Open Scope R_scope.

Set Implicit Arguments.
Set Warnings "-register-all".

(** ** Exceptions and results *)

Inductive exn : Type :=
| KeyError
| TypeError
| ValueError
| IndexError
| AttributeError
| OSError
| OverflowError.

Inductive result (A : Type) : Type :=
| Ok (a : A)
| Raise (e : exn).

Arguments Ok {A} a.
Arguments Raise {A} e.

Definition rbind {A B : Type} (r : result A) (k : A -> result B) : result B :=
  match r with
  | Ok a => k a
  | Raise e => Raise e
  end.

Fixpoint rmap_list {A B : Type} (f : A -> result B) (l : list A) : result (list B) :=
  match l with
  | [] => Ok []
  | x :: t => rbind (f x) (fun y => rbind (rmap_list f t) (fun ys => Ok (y :: ys)))
  end.

(** ** The state-and-exception monad of a method body *)

Definition M (S A : Type) : Type := S -> result A * S.

Definition ret {S A : Type} (a : A) : M S A := fun s => (Ok a, s).

Definition bind {S A B : Type} (m : M S A) (k : A -> M S B) : M S B :=
  fun s => match m s with
           | (Ok a, s') => k a s'
           | (Raise e, s') => (Raise e, s')
           end.

Definition raise {S A : Type} (e : exn) : M S A := fun s => (Raise e, s).

Definition gets {S A : Type} (f : S -> A) : M S A := fun s => (Ok (f s), s).

Definition modify {S : Type} (f : S -> S) : M S unit := fun s => (Ok tt, f s).

Definition lift {S A : Type} (r : result A) : M S A := fun s => (r, s).

(** [try: m except Exception: h] *)
Definition try_except {S A : Type} (m : M S A) (h : exn -> M S A) : M S A :=
  fun s => match m s with
           | (Ok a, s') => (Ok a, s')
           | (Raise e, s') => h e s'
           end.

Declare Scope monad_scope.
Delimit Scope monad_scope with monad.
Notation "x <- c1 ;; c2" := (bind c1 (fun x => c2))
  (at level 61, c1 at next level, right associativity) : monad_scope.
Notation "c1 ;; c2" := (bind c1 (fun _ => c2))
  (at level 61, right associativity) : monad_scope.
Open Scope monad_scope.

(** [for x in l: body x] *)
Fixpoint for_each {S A : Type} (l : list A) (body : A -> M S unit) : M S unit :=
  match l with
  | [] => ret tt
  | x :: t => body x ;; for_each t body
  end.

(** [enumerate(l)] *)
Definition enumerate {A : Type} (l : list A) : list (nat * A) :=
  combine (seq 0 (List.length l)) l.

(** ** Dictionaries with string keys *)

Definition dict (A : Type) : Type := list (string * A).

Fixpoint dict_get {A : Type} (k : string) (d : dict A) : option A :=
  match d with
  | [] => None
  | (k', v) :: t => if String.eqb k k' then Some v else dict_get k t
  end.

Definition dict_mem {A : Type} (k : string) (d : dict A) : bool :=
  match dict_get k d with Some _ => true | None => false end.

(** [d[k] = v]: an existing key keeps its place, a new key goes last. *)
Fixpoint dict_set {A : Type} (k : string) (v : A) (d : dict A) : dict A :=
  match d with
  | [] => [(k, v)]
  | (k', v') :: t =>
      if String.eqb k k' then (k, v) :: t else (k', v') :: dict_set k v t
  end.

Definition dict_remove {A : Type} (k : string) (d : dict A) : dict A :=
  filter (fun kv => negb (String.eqb k (fst kv))) d.

(** [{k: f(v) for k, v in d.items()}], where [f] may raise. *)
Definition dict_comprehension {A B : Type} (f : A -> result B) (d : dict A)
  : result (dict B) :=
  rmap_list (fun kv => rbind (f (snd kv)) (fun b => Ok (fst kv, b))) d.

(** ** Values read back by [json.load] *)

Inductive json : Type :=
| JNull
| JBool (b : bool)
| JInt (z : Z)
| JFloat (x : R)
| JStr (s : string)
| JList (l : list json)
| JDict (d : list (string * json)).

(** [obj[k]] for a string key [k]. *)
Definition py_subscript (obj : json) (k : string) : result json :=
  match obj with
  | JDict d => match dict_get k d with
               | Some v => Ok v
               | None => Raise KeyError
               end
  | _ => Raise TypeError
  end.

(** [obj.items()] *)
Definition py_items (obj : json) : result (dict json) :=
  match obj with
  | JDict d => Ok d
  | _ => Raise AttributeError
  end.

Fixpoint chars (s : string) : list string :=
  match s with
  | EmptyString => []
  | String c t => String c EmptyString :: chars t
  end.

(** The elements [for x in obj] visits: those of a list, the characters
    of a string, the keys of a dict; anything else is not iterable. *)
Definition py_iter (obj : json) : result (list json) :=
  match obj with
  | JList l => Ok l
  | JStr s => Ok (map JStr (chars s))
  | JDict d => Ok (map (fun kv => JStr (fst kv)) d)
  | _ => Raise TypeError
  end.

(** ** NumPy reductions over exact reals *)

Definition vec : Type := list R.

(** [a[i]] on a Python list or a one-dimensional array, [i >= 0]. *)
Definition index {A : Type} (a : list A) (i : nat) : result A :=
  match nth_error a i with
  | Some x => Ok x
  | None => Raise IndexError
  end.

Definition np_sum (l : list R) : R := fold_right Rplus 0 l.

Definition np_mean (l : list R) : R := np_sum l / INR (List.length l).

(** [np.var]: the population variance (ddof = 0). *)
Definition np_var (l : list R) : R :=
  np_mean (map (fun x => (x - np_mean l) * (x - np_mean l)) l).

Definition np_std (l : list R) : R := sqrt (np_var l).

Definition column (i : nat) (m : list vec) : list R :=
  map (fun row => nth i row 0) m.

(** Number of columns of a matrix whose rows have one length. *)
Definition ncols (m : list vec) : nat := List.length (hd [] m).

(** [f(m, axis=0)] for a reduction [f]. *)
Definition axis0 (f : list R -> R) (m : list vec) : vec :=
  map (fun i => f (column i m)) (seq 0 (ncols m)).

(** Elementwise [op] of two one-dimensional arrays under NumPy's
    broadcasting: equal lengths, or one of them of length one. *)
Definition broadcast2 (op : R -> R -> R) (a b : vec) : result vec :=
  if Nat.eqb (List.length a) (List.length b) then
    Ok (map (fun xy => op (fst xy) (snd xy)) (combine a b))
  else match b, a with
       | [y], _ => Ok (map (fun x => op x y) a)
       | _, [x] => Ok (map (fun y => op x y) b)
       | _, _ => Raise ValueError
       end.

(** [np.linalg.norm] of one row. *)
Definition np_norm (v : vec) : R := sqrt (np_sum (map (fun x => x * x) v)).

Fixpoint insert_sorted (x : R) (l : list R) : list R :=
  match l with
  | [] => [x]
  | y :: t => if Rle_dec x y then x :: y :: t else y :: insert_sorted x t
  end.

Definition np_sort (l : list R) : list R := fold_right insert_sorted [] l.

(** [np.median]: the middle of the sorted values, or the mean of the
    two middle ones. *)
Definition np_median (l : list R) : R :=
  let s := np_sort l in
  let n := List.length s in
  if Nat.even n
  then (nth (n / 2 - 1) s 0 + nth (n / 2) s 0) / 2
  else nth (n / 2) s 0.

(** [np.argmin]: the first position of the least value. *)
Fixpoint argmin_from (best : nat) (bestv : R) (i : nat) (l : list R) : nat :=
  match l with
  | [] => best
  | x :: t => if Rlt_dec x bestv then argmin_from i x (S i) t
              else argmin_from best bestv (S i) t
  end.

Definition np_argmin (l : list R) : nat :=
  match l with
  | [] => 0%nat
  | x :: t => argmin_from 0 x 1 t
  end.

(** ** Data model *)

(** [SensorType] of sensor_manager.py, and the [.value] of each member. *)
Inductive SensorType : Type :=
| TEMPERATURE
| MOTION
| CAMERA
| HUMIDITY
| LIGHT
| PRESSURE
| ACCELEROMETER
| GPS.

Definition sensor_type_value (t : SensorType) : string :=
  match t with
  | TEMPERATURE => "temperature"
  | MOTION => "motion"
  | CAMERA => "camera"
  | HUMIDITY => "humidity"
  | LIGHT => "light"
  | PRESSURE => "pressure"
  | ACCELEROMETER => "accelerometer"
  | GPS => "gps"
  end.

(** A camera frame: an [np.ndarray] with its shape and its entries. *)
Record Frame : Type := mkFrame {
  frame_shape : list nat;
  frame_data : list R
}.

(** The [value] of a reading: plain data or a frame. *)
Inductive raw_value : Type :=
| Plain (j : json)
| Image (frame : Frame).

(** [SensorReading] of sensor_manager.py; [metadata] defaults to None. *)
Record SensorReading : Type := mkReading {
  reading_sensor_id : string;
  reading_sensor_type : SensorType;
  reading_timestamp : R;
  reading_value : raw_value;
  reading_unit : string;
  reading_confidence : R;
  reading_metadata : option (dict json)
}.

(** [ProcessedFeatures] of sensor_preprocessor.py. *)
Record ProcessedFeatures : Type := mkFeatures {
  features : vec;
  feature_names : list string;
  timestamp : R;
  sensor_id : string;
  context : dict raw_value
}.

(** One entry of the experience buffer (a dict in the source). *)
Record Experience : Type := mkExperience {
  exp_timestamp : R;
  exp_sensor_id : string;
  exp_features : vec;
  exp_feature_names : list string;
  exp_label : option string;
  exp_reward : option R;
  exp_context : dict raw_value
}.

(** The attributes of an [IncrementalLearner]. *)
Record IncrementalLearner : Type := mkLearner {
  learning_rate : R;
  memory_size : nat;
  update_threshold : Z;
  experience_buffer : list Experience;
  feature_weights : dict R;
  anomaly_thresholds : dict (R * R);
  pattern_clusters : dict (list vec);
  update_count : Z;
  total_samples : Z
}.

(** [IncrementalLearner.__init__] *)
Definition new_learner (lr : R) (mem : nat) (thr : Z) : IncrementalLearner :=
  mkLearner lr mem thr [] [] [] [] 0 0.

Definition with_experience_buffer (b : list Experience) (l : IncrementalLearner) :=
  mkLearner (learning_rate l) (memory_size l) (update_threshold l) b
    (feature_weights l) (anomaly_thresholds l) (pattern_clusters l)
    (update_count l) (total_samples l).

Definition with_feature_weights (w : dict R) (l : IncrementalLearner) :=
  mkLearner (learning_rate l) (memory_size l) (update_threshold l)
    (experience_buffer l) w (anomaly_thresholds l) (pattern_clusters l)
    (update_count l) (total_samples l).

Definition with_anomaly_thresholds (t : dict (R * R)) (l : IncrementalLearner) :=
  mkLearner (learning_rate l) (memory_size l) (update_threshold l)
    (experience_buffer l) (feature_weights l) t (pattern_clusters l)
    (update_count l) (total_samples l).

Definition with_pattern_clusters (c : dict (list vec)) (l : IncrementalLearner) :=
  mkLearner (learning_rate l) (memory_size l) (update_threshold l)
    (experience_buffer l) (feature_weights l) (anomaly_thresholds l) c
    (update_count l) (total_samples l).

Definition with_update_count (n : Z) (l : IncrementalLearner) :=
  mkLearner (learning_rate l) (memory_size l) (update_threshold l)
    (experience_buffer l) (feature_weights l) (anomaly_thresholds l)
    (pattern_clusters l) n (total_samples l).

Definition with_total_samples (n : Z) (l : IncrementalLearner) :=
  mkLearner (learning_rate l) (memory_size l) (update_threshold l)
    (experience_buffer l) (feature_weights l) (anomaly_thresholds l)
    (pattern_clusters l) (update_count l) n.

(** [deque(maxlen=n).append(x)]: the oldest entry leaves a full buffer. *)
Definition deque_append {A : Type} (maxlen : nat) (x : A) (q : list A) : list A :=
  if Nat.eqb maxlen 0 then []
  else if Nat.ltb (List.length q) maxlen then q ++ [x]
  else tl q ++ [x].

(** The [sensor_groups] dict each update step builds from the buffer. *)
Definition add_to_group (groups : dict (list Experience)) (e : Experience)
  : dict (list Experience) :=
  let sid := exp_sensor_id e in
  let groups := if dict_mem sid groups then groups else dict_set sid [] groups in
  match dict_get sid groups with
  | Some g => dict_set sid (g ++ [e]) groups
  | None => groups
  end.

Definition group_by_sensor (buf : list Experience) : dict (list Experience) :=
  fold_left add_to_group buf [].

(** [len(set(feature_lengths)) > 1] *)
Definition mixed_lengths (exps : list Experience) : bool :=
  Nat.ltb 1 (List.length
    (nodup Nat.eq_dec (map (fun e => List.length (exp_features e)) exps))).

(** The key [f"{sensor_id}_{name}"]. *)
Definition feature_key (sid name : string) : string :=
  (sid ++ "_" ++ name)%string.

(** The two exponential moving averages of the update steps. *)
Definition ema_weight (old sample : R) : R := 0.7 * old + 0.3 * sample.

Definition ema_threshold (old new : R) : R := 0.8 * old + 0.2 * new.

(** Python's comparisons on floats, as booleans. *)
Definition Rltb (x y : R) : bool := if Rlt_dec x y then true else false.

Definition Rgtb (x y : R) : bool := Rltb y x.

(** The score of one feature outside its band (detect_anomaly). *)
Definition feature_score (lower upper value : R) : R :=
  if Rltb value lower then
    if Req_dec_T lower 0 then 1 else (lower - value) / Rabs lower
  else
    if Req_dec_T upper 0 then 1 else (value - upper) / Rabs upper.

(** A loop that threads a local variable [acc] through its body. *)
Fixpoint for_fold {S A B : Type} (l : list A) (acc : B) (body : B -> A -> M S B)
  : M S B :=
  match l with
  | [] => ret acc
  | x :: t => acc' <- body acc x ;; for_fold t acc' body
  end.

(** [c.tolist()] of a one-dimensional float array. *)
Definition tolist (c : vec) : json := JList (map JFloat c).

(** The entries of a list that holds floats and nothing else. *)
Fixpoint float_entries (l : list json) : option vec :=
  match l with
  | [] => Some []
  | JFloat x :: t => option_map (cons x) (float_entries t)
  | _ :: _ => None
  end.

(** The record [save_learned_parameters] hands to [json.dump]; [now] is
    the reading of [time.time()]. *)
Definition save_learned_parameters (now : R) (l : IncrementalLearner) : json :=
  JDict
    [ ("feature_weights",
        JDict (map (fun kv => (fst kv, JFloat (snd kv))) (feature_weights l)));
      ("anomaly_thresholds",
        JDict (map (fun kv => (fst kv,
                                JList [JFloat (fst (snd kv)); JFloat (snd (snd kv))]))
                   (anomaly_thresholds l)));
      ("pattern_clusters",
        JDict (map (fun kv => (fst kv, JList (map tolist (snd kv))))
                   (pattern_clusters l)));
      ("metadata",
        JDict [ ("update_count", JInt (update_count l));
                ("total_samples", JInt (total_samples l));
                ("learning_rate", JFloat (learning_rate l));
                ("timestamp", JFloat now) ]) ].

(** ** The same arithmetic in binary64

    The learner's arithmetic as the hardware rounds it, on Rocq's
    primitive binary64 floats: the column reductions of the thresholds
    step (NumPy reduces a column of fewer than eight entries by adding
    its entries in order), the band at three standard deviations, the
    band test of [detect_anomaly] and the blend of a weight. *)

Module F64.
Import PrimFloat.

(** The literals [0.1], [0.7] and [0.3] of Python: the binary64 values
    nearest to the decimals. *)
Definition tenth : float := 0x1.999999999999ap-4%float.
Definition seven_tenths : float := 0x1.6666666666666p-1%float.
Definition three_tenths : float := 0x1.3333333333333p-2%float.

(** A count as a float, exact for the counts of a buffer. *)
Fixpoint count (n : nat) : float :=
  match n with
  | O => zero
  | S k => add (count k) one
  end.

Definition sum (l : list float) : float := fold_left add l zero.

(** [np.mean]: the sum divided by the count. *)
Definition mean (l : list float) : float := div (sum l) (count (List.length l)).

(** [np.var] and [np.std]: the mean of the squared deviations from the
    mean, and its square root. *)
Definition var (l : list float) : float :=
  let m := mean l in
  mean (map (fun x => mul (sub x m) (sub x m)) l).

Definition std (l : list float) : float := sqrt (var l).

(** [(means[i] - 3 * stds[i], means[i] + 3 * stds[i])] *)
Definition band (column : list float) : float * float :=
  (sub (mean column) (mul (count 3) (std column)),
   add (mean column) (mul (count 3) (std column))).


(** [0.7 * old + 0.3 * sample] *)
Definition blend (old sample : float) : float :=
  add (mul seven_tenths old) (mul three_tenths sample).

(** [min(a, b)] and [max(a, b)] *)
Definition smaller (a b : float) : float := if ltb b a then b else a.
Definition larger (a b : float) : float := if ltb a b then b else a.

End F64.

(** ** Sample data and a plain instance of the library entry points *)

(** A generator without state whose choice is the first [k] indices. *)
Definition first_indices (n k : nat) (g : unit) : list nat * unit := (seq 0 k, g).

(** The arrays of values other than lists of floats, taken as the values
    they are built from. *)
Definition array_as_list (j : json) : result json := Ok j.

(** An experience of sensor "s" with the one feature "a" at 1, and one of
    the same sensor with two features. *)
Definition short_experience : Experience :=
  mkExperience 0 "s" [1] ["a"] None None [].

Definition long_experience : Experience :=
  mkExperience 0 "s" [1; 2] ["a"; "b"] None None [].

Definition five_short : list Experience :=
  [short_experience; short_experience; short_experience; short_experience;
   short_experience].

(** A learner that holds the five, and knows sensor "s" without a
    centroid yet. *)
Definition constant_learner : IncrementalLearner :=
  mkLearner 0.01 1000 10 five_short [] [] [("s", [])] 0 0.

(** A learner whose group for "s" mixes two lengths. *)
Definition mixed_learner : IncrementalLearner :=
  mkLearner 0.01 1000 10 (five_short ++ [long_experience]) [] [] [] 0 0.

(** A learner with [update_threshold] 2 that already holds two
    experiences, and a record of a third sensor. *)
Definition bare_experience (sid : string) : Experience :=
  mkExperience 0 sid [] [] None None [].

Definition reached_learner : IncrementalLearner :=
  mkLearner 0.01 1000 2 [bare_experience "a"; bare_experience "b"] [] [] [] 0 0.

Definition bare_features : ProcessedFeatures := mkFeatures [] [] 0 "c" [].

(** A record of sensor "s" whose feature "a" is at 3. *)
Definition deviating_features : ProcessedFeatures :=
  mkFeatures [3] ["a"] 0 "s" [].

(** A learner with one weight and one band. *)
Definition trained_learner : IncrementalLearner :=
  mkLearner 0.01 1000 10 [] [("s_a", 1)] [("s_a", (1, 2))] [("s", [[1]])] 4 40.

(** A learner with [update_threshold] 2 that holds the five, a weight
    and a band for their feature, and no centroid of their sensor. *)
Definition ready_learner : IncrementalLearner :=
  mkLearner 0.01 1000 2 five_short [("s_a", 1)] [("s_a", (1, 2))]
    [("t", [[0]])] 5 5.

(** A stored record that holds the weights and nothing else, and one
    that holds every field, a string where the weights belong. *)
Definition weights_only_record : json :=
  JDict [("feature_weights", JDict [("s_a", JFloat 1)])].

Definition junk_weights_record : json :=
  JDict [("feature_weights", JStr "junk");
         ("anomaly_thresholds", JDict []);
         ("pattern_clusters", JDict []);
         ("metadata", JDict [("update_count", JInt 0); ("total_samples", JInt 0)])].

Section Pipeline.

Set Default Proof Using "Type".

(** *** What the libraries provide *)

(** The state of NumPy's global generator, and
    [np.random.choice(n, k, replace=False)]. *)
Variable Gen : Type.
Variable np_random_choice : nat -> nat -> Gen -> list nat * Gen.

(** The arrays [np.array] builds from values read by [json.load]. Of a
    list of floats it builds the one-dimensional float array with these
    entries; what it builds of any other value, or that it refuses it, is
    the library's. *)
Variable other_array : Type.
Variable np_array_other : json -> result other_array.

Inductive ndarray : Type :=
| FloatArray (entries : vec)
| OtherArray (a : other_array).

Definition np_array (j : json) : result ndarray :=
  match j with
  | JList l =>
      match float_entries l with
      | Some entries => Ok (FloatArray entries)
      | None => rbind (np_array_other j) (fun a => Ok (OtherArray a))
      end
  | _ => rbind (np_array_other j) (fun a => Ok (OtherArray a))
  end.

(** ** The incremental learner *)

(** A learner together with the generator its clustering step draws from. *)
Record World : Type := mkWorld {
  self : IncrementalLearner;
  np_random : Gen
}.

Definition reads {A : Type} (f : IncrementalLearner -> A) : M World A :=
  gets (fun w => f (self w)).

Definition update (f : IncrementalLearner -> IncrementalLearner) : M World unit :=
  modify (fun w => mkWorld (f (self w)) (np_random w)).

Definition random_choice (n k : nat) : M World (list nat) :=
  fun w => let (ix, g) := np_random_choice n k (np_random w) in
           (Ok ix, mkWorld (self w) g).

(** *** _update_feature_weights *)

Definition store_weight (key : string) (w : R) : M World unit :=
  fw <- reads feature_weights ;;
  match dict_get key fw with
  | Some old => update (with_feature_weights (dict_set key (ema_weight old w) fw))
  | None => update (with_feature_weights (dict_set key w fw))
  end.

(** One round of the loop over the named features of a group. *)
Definition weight_of_feature (sid : string) (weights : vec) (ix : nat * string)
  : M World unit :=
  w <- lift (index weights (fst ix)) ;;
  store_weight (feature_key sid (snd ix)) w.

Definition weights_of_group (g : string * list Experience) : M World unit :=
  let (sid, experiences) := g in
  if Nat.ltb (List.length experiences) 2 then ret tt
  else if mixed_lengths experiences then ret tt
  else match experiences with
       | [] => ret tt
       | first :: _ =>
           let features_matrix := map exp_features experiences in
           let names := exp_feature_names first in
           let variances := axis0 np_var features_matrix in
           if Rgtb (np_sum variances) 0 then
             let weights := map (fun v => v / np_sum variances) variances in
             for_each (enumerate names) (weight_of_feature sid weights)
           else ret tt
       end.

Definition _update_feature_weights : M World unit :=
  buf <- reads experience_buffer ;;
  for_each (group_by_sensor buf) weights_of_group.

(** *** _update_anomaly_thresholds *)

Definition store_threshold (key : string) (lower upper : R) : M World unit :=
  th <- reads anomaly_thresholds ;;
  match dict_get key th with
  | Some (old_lower, old_upper) =>
      update (with_anomaly_thresholds
                (dict_set key (ema_threshold old_lower lower,
                               ema_threshold old_upper upper) th))
  | None => update (with_anomaly_thresholds (dict_set key (lower, upper) th))
  end.

(** One round of the loop over the named features of a group: the band
    at three standard deviations around the mean. *)
Definition threshold_of_feature (sid : string) (means stds : vec)
  (ix : nat * string) : M World unit :=
  m <- lift (index means (fst ix)) ;;
  s <- lift (index stds (fst ix)) ;;
  store_threshold (feature_key sid (snd ix)) (m - 3 * s) (m + 3 * s).

Definition thresholds_of_group (g : string * list Experience) : M World unit :=
  let (sid, experiences) := g in
  if Nat.ltb (List.length experiences) 5 then ret tt
  else if mixed_lengths experiences then ret tt
  else match experiences with
       | [] => ret tt
       | first :: _ =>
           let features_matrix := map exp_features experiences in
           let means := axis0 np_mean features_matrix in
           let stds := axis0 np_std features_matrix in
           for_each (enumerate (exp_feature_names first))
             (threshold_of_feature sid means stds)
       end.

Definition _update_anomaly_thresholds : M World unit :=
  buf <- reads experience_buffer ;;
  for_each (group_by_sensor buf) thresholds_of_group.

(** *** _update_pattern_clusters *)

(** The rows of the matrix nearer to [center] than the median distance. *)
Definition close_points (features_matrix : list vec) (distances : list R) : list vec :=
  map fst (filter (fun rd => Rltb (snd rd) (np_median distances))
                  (combine features_matrix distances)).

(** One round of the loop over the cluster centres. *)
Definition recenter (features_matrix : list vec) (cluster_center : vec) : result vec :=
  rbind (rmap_list (fun row => broadcast2 Rminus row cluster_center) features_matrix)
    (fun diffs =>
       let distances := map np_norm diffs in
       let close := close_points features_matrix distances in
       if Nat.ltb 0 (List.length close) then
         broadcast2 Rplus (map (Rmult 0.7) cluster_center)
                          (map (Rmult 0.3) (axis0 np_mean close))
       else Ok cluster_center).

Definition clusters_of_group (max_clusters : nat) (g : string * list Experience)
  : M World unit :=
  let (sid, experiences) := g in
  if Nat.ltb (List.length experiences) max_clusters then ret tt
  else if mixed_lengths experiences then ret tt
  else
    let features_matrix := map exp_features experiences in
    known <- reads pattern_clusters ;;
    (if dict_mem sid known then ret tt
     else
       indices <- random_choice (List.length features_matrix)
                    (Nat.min max_clusters (List.length features_matrix)) ;;
       seeds <- lift (rmap_list (index features_matrix) indices) ;;
       update (with_pattern_clusters (dict_set sid seeds known))) ;;
    current <- reads pattern_clusters ;;
    match dict_get sid current with
    | None => raise KeyError
    | Some clusters =>
        new_clusters <- lift (rmap_list (recenter features_matrix) clusters) ;;
        update (with_pattern_clusters (dict_set sid new_clusters current))
    end.

Definition _update_pattern_clusters (max_clusters : nat) : M World unit :=
  buf <- reads experience_buffer ;;
  for_each (group_by_sensor buf) (clusters_of_group max_clusters).

(** *** _incremental_update and add_experience *)

(** The three steps and the counter: the body of [_incremental_update]
    below its guard. *)
Definition update_pass : M World unit :=
  _update_feature_weights ;;
  _update_anomaly_thresholds ;;
  _update_pattern_clusters 5 ;;
  update (fun l => with_update_count (update_count l + 1)%Z l).

Definition _incremental_update : M World unit :=
  buf <- reads experience_buffer ;;
  if Nat.ltb (List.length buf) 2 then ret tt else update_pass.

Definition experience_of (now : R) (f : ProcessedFeatures)
  (label : option string) (reward : option R) : Experience :=
  mkExperience now (sensor_id f) (features f) (feature_names f) label reward
    (context f).

Definition add_experience (now : R) (f : ProcessedFeatures)
  (label : option string) (reward : option R) : M World unit :=
  update (fun l => with_experience_buffer
            (deque_append (memory_size l) (experience_of now f label reward)
               (experience_buffer l)) l) ;;
  update (fun l => with_total_samples (total_samples l + 1)%Z l) ;;
  buf <- reads experience_buffer ;;
  threshold <- reads update_threshold ;;
  if Z.leb threshold (Z.of_nat (List.length buf)) then _incremental_update
  else ret tt.

(** *** detect_anomaly and predict_pattern *)

(** One round of the loop over the named features. *)
Definition score_feature (f : ProcessedFeatures) (scores : list R)
  (ix : nat * string) : M World (list R) :=
  th <- reads anomaly_thresholds ;;
  match dict_get (feature_key (sensor_id f) (snd ix)) th with
  | Some (lower, upper) =>
      value <- lift (index (features f) (fst ix)) ;;
      if Rltb value lower || Rgtb value upper
      then ret (scores ++ [feature_score lower upper value])
      else ret scores
  | None => ret scores
  end.

Definition detect_anomaly (f : ProcessedFeatures) : M World (bool * R) :=
  anomaly_scores <- for_fold (enumerate (feature_names f)) [] (score_feature f) ;;
  match anomaly_scores with
  | [] => ret (false, 0)
  | _ :: _ => ret (Nat.ltb 0 (List.length anomaly_scores), np_mean anomaly_scores)
  end.

Definition predict_pattern (f : ProcessedFeatures) : M World (option nat) :=
  known <- reads pattern_clusters ;;
  match dict_get (sensor_id f) known with
  | None => ret None
  | Some clusters =>
      distances <- lift (rmap_list
                           (fun c => rbind (broadcast2 Rminus (features f) c)
                                       (fun d => Ok (np_norm d)))
                           clusters) ;;
      match distances with
      | [] => ret None
      | _ :: _ => ret (Some (np_argmin distances))
      end
  end.

(** *** load_learned_parameters *)

(** The five attributes [load_learned_parameters] assigns, each with the
    objects the assignment can leave in it: [params["feature_weights"]]
    and the two counters are stored as read, the thresholds become a dict
    of tuples and the clusters a dict of lists of arrays. *)
Record LearnedAttrs : Type := mkAttrs {
  attr_feature_weights : json;
  attr_anomaly_thresholds : dict (list json);
  attr_pattern_clusters : dict (list ndarray);
  attr_update_count : json;
  attr_total_samples : json
}.

(** The attributes of a learner, as such objects. *)
Definition attrs_of (l : IncrementalLearner) : LearnedAttrs :=
  mkAttrs
    (JDict (map (fun kv => (fst kv, JFloat (snd kv))) (feature_weights l)))
    (map (fun kv => (fst kv, [JFloat (fst (snd kv)); JFloat (snd (snd kv))]))
         (anomaly_thresholds l))
    (map (fun kv => (fst kv, map FloatArray (snd kv))) (pattern_clusters l))
    (JInt (update_count l))
    (JInt (total_samples l)).

Definition read_feature_weights (params : json) : result json :=
  py_subscript params "feature_weights".

Definition read_anomaly_thresholds (params : json) : result (dict (list json)) :=
  rbind (py_subscript params "anomaly_thresholds") (fun o =>
  rbind (py_items o) (dict_comprehension py_iter)).

Definition read_pattern_clusters (params : json) : result (dict (list ndarray)) :=
  rbind (py_subscript params "pattern_clusters") (fun o =>
  rbind (py_items o)
    (dict_comprehension (fun v => rbind (py_iter v) (rmap_list np_array)))).

(** [file] is what [open] and [json.load] yield: the parsed record, or
    the exception of a file that is absent or is not JSON. *)
Definition load_learned_parameters (file : result json) : M LearnedAttrs bool :=
  try_except
    (params <- lift file ;;
     fw <- lift (read_feature_weights params) ;;
     modify (fun a => mkAttrs fw (attr_anomaly_thresholds a)
                        (attr_pattern_clusters a) (attr_update_count a)
                        (attr_total_samples a)) ;;
     th <- lift (read_anomaly_thresholds params) ;;
     modify (fun a => mkAttrs (attr_feature_weights a) th
                        (attr_pattern_clusters a) (attr_update_count a)
                        (attr_total_samples a)) ;;
     pc <- lift (read_pattern_clusters params) ;;
     modify (fun a => mkAttrs (attr_feature_weights a)
                        (attr_anomaly_thresholds a) pc (attr_update_count a)
                        (attr_total_samples a)) ;;
     metadata <- lift (py_subscript params "metadata") ;;
     uc <- lift (py_subscript metadata "update_count") ;;
     modify (fun a => mkAttrs (attr_feature_weights a)
                        (attr_anomaly_thresholds a) (attr_pattern_clusters a)
                        uc (attr_total_samples a)) ;;
     ts <- lift (py_subscript metadata "total_samples") ;;
     modify (fun a => mkAttrs (attr_feature_weights a)
                        (attr_anomaly_thresholds a) (attr_pattern_clusters a)
                        (attr_update_count a) ts) ;;
     ret true)
    (fun _ => ret false).


(** ** The sensor preprocessor *)

(** [float(s)] on a string, None where Python raises ValueError; the
    statistics [_process_camera] computes with OpenCV from a frame, from
    the resize down to the edge density. *)
Variable parse_float : string -> option R.
Variable camera_statistics : Frame -> result vec.

(** An entry of a temporal window: a number, or the row
    [[x, y, z, magnitude]] of an accelerometer. *)
Inductive sample : Type :=
| Scalar (x : R)
| Row (v : vec).

Record SensorPreprocessor : Type := mkPreprocessor {
  window_size : nat;
  normalize : bool;
  feature_windows : dict (list sample)
}.

(** [SensorPreprocessor.__init__] *)
Definition new_preprocessor (size : nat) (norm : bool) : SensorPreprocessor :=
  mkPreprocessor size norm [].

Definition with_feature_windows (w : dict (list sample)) (p : SensorPreprocessor) :=
  mkPreprocessor (window_size p) (normalize p) w.

(** [float(n)] for an int [n]: the binary64 nearest to [n], a tie going
    to the even significand, and OverflowError from [2^1024 - 2^970] on,
    where the nearest would be [2^1024]. *)
Definition nearest_binary64 (n : Z) : Z :=
  let m := Z.abs n in
  let dropped := (Z.log2 m - 52)%Z in
  if Z.leb dropped 0 then n
  else
    let kept := Z.shiftr m dropped in
    let rest := Z.land m (Z.ones dropped) in
    let half := Z.shiftl 1 (dropped - 1) in
    let rounded :=
      if Z.ltb half rest || (Z.eqb rest half && Z.odd kept)
      then (kept + 1)%Z else kept in
    (Z.sgn n * Z.shiftl rounded dropped)%Z.

Definition float_of_int (n : Z) : result R :=
  if Z.leb (2 ^ 1024 - 2 ^ 970) (Z.abs n) then Raise OverflowError
  else Ok (IZR (nearest_binary64 n)).

(** [float(value)]; of the arrays only one without dimensions is
    converted. *)
Definition py_float (value : raw_value) : result R :=
  match value with
  | Plain (JFloat x) => Ok x
  | Plain (JInt n) => float_of_int n
  | Plain (JBool b) => Ok (if b then 1 else 0)
  | Plain (JStr s) => match parse_float s with
                      | Some x => Ok x
                      | None => Raise ValueError
                      end
  | Plain _ => Raise TypeError
  | Image frame => match frame_shape frame, frame_data frame with
                   | [], [x] => Ok x
                   | _, _ => Raise TypeError
                   end
  end.

(** The truth value of [value]; that of an array with other than one
    entry is an error. *)
Definition py_truth (value : raw_value) : result bool :=
  match value with
  | Plain JNull => Ok false
  | Plain (JBool b) => Ok b
  | Plain (JInt z) => Ok (negb (Z.eqb z 0))
  | Plain (JFloat x) => Ok (if Req_dec_T x 0 then false else true)
  | Plain (JStr s) => Ok (negb (String.eqb s ""))
  | Plain (JList l) => Ok (negb (Nat.eqb (List.length l) 0))
  | Plain (JDict d) => Ok (negb (Nat.eqb (List.length d) 0))
  | Image frame => match frame_data frame with
                   | [x] => Ok (if Req_dec_T x 0 then false else true)
                   | _ => Raise ValueError
                   end
  end.

(** A number as an operand of arithmetic. *)
Definition as_number (j : json) : result R :=
  match j with
  | JFloat x => Ok x
  | JInt z => Ok (IZR z)
  | JBool b => Ok (if b then 1 else 0)
  | _ => Raise TypeError
  end.

(** An axis of an accelerometer as the operand of [** 2]: squaring a
    float of size [2^512] or more raises OverflowError, squaring what is
    no number TypeError. *)
Definition axis_number (j : json) : result R :=
  match j with
  | JFloat x => if Rle_dec (2 ^ 512) (Rabs x) then Raise OverflowError else Ok x
  | _ => as_number j
  end.

(** [d.get(k, default)] *)
Definition dict_get_default {A : Type} (k : string) (default : A) (d : dict A) : A :=
  match dict_get k d with
  | Some v => v
  | None => default
  end.

(** [np.array(list(window))] for a window of numbers, and for a window
    of rows; a window that mixes the two is ragged and is refused. *)
Definition as_vector (w : list sample) : result vec :=
  rmap_list (fun s => match s with
                      | Scalar x => Ok x
                      | Row _ => Raise ValueError
                      end) w.

Definition as_matrix (w : list sample) : result (list vec) :=
  rmap_list (fun s => match s with
                      | Row v => Ok v
                      | Scalar _ => Raise ValueError
                      end) w.

(** [np.min] and [np.max]; an empty array has neither. *)
Definition np_min (l : list R) : result R :=
  match l with
  | [] => Raise ValueError
  | x :: t => Ok (fold_left Rmin t x)
  end.

Definition np_max (l : list R) : result R :=
  match l with
  | [] => Raise ValueError
  | x :: t => Ok (fold_left Rmax t x)
  end.

(** [np.diff(m, axis=0)] *)
Fixpoint np_diff (m : list vec) : list vec :=
  match m with
  | a :: ((b :: _) as t) =>
      map (fun xy => snd xy - fst xy) (combine a b) :: np_diff t
  | _ => []
  end.

(** [window = self.feature_windows[sid]; window.append(item)]; gives the
    window after the append. *)
Definition append_to_window (sid : string) (item : sample)
  : M SensorPreprocessor (list sample) :=
  windows <- gets feature_windows ;;
  size <- gets window_size ;;
  match dict_get sid windows with
  | None => raise KeyError
  | Some window =>
      let window' := deque_append size item window in
      modify (with_feature_windows (dict_set sid window' windows)) ;;
      ret window'
  end.

Definition _process_temperature (reading : SensorReading)
  : M SensorPreprocessor (option ProcessedFeatures) :=
  value <- lift (py_float (reading_value reading)) ;;
  window <- append_to_window (reading_sensor_id reading) (Scalar value) ;;
  window_array <- lift (as_vector window) ;;
  norm <- gets normalize ;;
  size <- gets window_size ;;
  let n := List.length window in
  let current := if norm then (value - 22) / 5 else value in
  let delta :=
    if Nat.leb 2 n
    then [(nth (n - 1) window_array 0 - nth (n - 2) window_array 0,
           "temperature_delta")]
    else [] in
  stats <- lift (if Nat.leb size n
                 then rbind (np_min window_array) (fun lo =>
                      rbind (np_max window_array) (fun hi =>
                      Ok [(np_mean window_array, "temperature_mean");
                          (np_std window_array, "temperature_std");
                          (lo, "temperature_min");
                          (hi, "temperature_max")]))
                 else Ok []) ;;
  let columns := (current, "temperature_current") :: delta ++ stats in
  ret (Some (mkFeatures (map fst columns) (map snd columns)
               (reading_timestamp reading) (reading_sensor_id reading)
               [("raw_value", Plain (JFloat value));
                ("unit", Plain (JStr (reading_unit reading)))])).

Definition _process_motion (reading : SensorReading)
  : M SensorPreprocessor (option ProcessedFeatures) :=
  moving <- lift (py_truth (reading_value reading)) ;;
  let motion_detected := if moving then 1 else 0 in
  window <- append_to_window (reading_sensor_id reading) (Scalar motion_detected) ;;
  window_array <- lift (as_vector window) ;;
  size <- gets window_size ;;
  rolling <- lift (if Nat.leb size (List.length window) then
                     let motion_rate :=
                       np_sum window_array / INR (List.length window_array) in
                     rbind (if moving then Ok 0
                            else match reading_metadata reading with
                                 | None => Raise AttributeError
                                 | Some md =>
                                     rbind (as_number
                                              (dict_get_default "last_motion"
                                                 (JFloat (reading_timestamp reading)) md))
                                       (fun last_motion =>
                                          Ok (reading_timestamp reading - last_motion))
                                 end)
                       (fun time_since =>
                          Ok [(motion_rate, "motion_frequency");
                              (Rmin (time_since / 60) 10, "time_since_motion")])
                   else Ok []) ;;
  let columns := (motion_detected, "motion_current") :: rolling in
  ret (Some (mkFeatures (map fst columns) (map snd columns)
               (reading_timestamp reading) (reading_sensor_id reading)
               [("motion_detected", Plain (JBool moving))])).

Definition _process_camera (reading : SensorReading)
  : M SensorPreprocessor (option ProcessedFeatures) :=
  match reading_value reading with
  | Plain _ => ret None
  | Image frame =>
      stats <- lift (camera_statistics frame) ;;
      match reading_metadata reading with
      | None => raise AttributeError
      | Some md =>
          ret (Some (mkFeatures stats
                       ["brightness_r"; "brightness_g"; "brightness_b";
                        "brightness_overall"; "contrast"; "edge_density"]
                       (reading_timestamp reading) (reading_sensor_id reading)
                       [("resolution", Plain (dict_get_default "resolution" JNull md));
                        ("frame_shape",
                          Plain (JList (map (fun n => JInt (Z.of_nat n))
                                            (frame_shape frame))));
                        ("objects_detected",
                          Plain (dict_get_default "objects_detected" (JInt 0) md))]))
      end
  end.

Definition _process_accelerometer (reading : SensorReading)
  : M SensorPreprocessor (option ProcessedFeatures) :=
  match reading_value reading with
  | Plain (JDict accel_data) =>
      x <- lift (axis_number (dict_get_default "x" (JInt 0) accel_data)) ;;
      y <- lift (axis_number (dict_get_default "y" (JInt 0) accel_data)) ;;
      z <- lift (axis_number (dict_get_default "z" (JInt 0) accel_data)) ;;
      let magnitude := sqrt (x * x + y * y + z * z) in
      window <- append_to_window (reading_sensor_id reading)
                  (Row [x; y; z; magnitude]) ;;
      temporal <- lift (if Nat.leb 3 (List.length window) then
                          rbind (as_matrix window) (fun window_array =>
                            let jerk := np_diff (map (firstn 3) window_array) in
                            Ok [(np_mean (map np_norm jerk), "jerk_magnitude");
                                (np_var (column 0 window_array), "accel_x_variance");
                                (np_var (column 1 window_array), "accel_y_variance");
                                (np_var (column 2 window_array), "accel_z_variance")])
                        else Ok []) ;;
      let columns := (x, "accel_x") :: (y, "accel_y") :: (z, "accel_z")
                     :: (magnitude, "accel_magnitude") :: temporal in
      ret (Some (mkFeatures (map fst columns) (map snd columns)
                   (reading_timestamp reading) (reading_sensor_id reading)
                   [("raw_accel", Plain (JDict accel_data))]))
  | _ => ret None
  end.

Definition _process_generic (reading : SensorReading)
  : M SensorPreprocessor (option ProcessedFeatures) :=
  let value := reading_value reading in
  let numeric := match value with
                 | Plain (JInt _) | Plain (JFloat _) | Plain (JBool _) => true
                 | _ => false
                 end in
  columns <- lift (if numeric
                   then rbind (py_float value) (fun x =>
                          Ok (x, (sensor_type_value (reading_sensor_type reading)
                                  ++ "_value")%string))
                   else Ok (0, "unknown")) ;;
  ret (Some (mkFeatures [fst columns] [snd columns]
               (reading_timestamp reading) (reading_sensor_id reading)
               [("raw_value", value)])).

Definition process_reading (reading : SensorReading)
  : M SensorPreprocessor (option ProcessedFeatures) :=
  windows <- gets feature_windows ;;
  (if dict_mem (reading_sensor_id reading) windows then ret tt
   else modify (with_feature_windows
                  (dict_set (reading_sensor_id reading) [] windows))) ;;
  match reading_sensor_type reading with
  | TEMPERATURE => _process_temperature reading
  | MOTION => _process_motion reading
  | CAMERA => _process_camera reading
  | ACCELEROMETER => _process_accelerometer reading
  | _ => _process_generic reading
  end.

(** [[self.process_reading(r) for r in readings if self.process_reading(r)]]:
    the condition calls the method, and the element expression calls it
    again. *)
Fixpoint process_batch (readings : list SensorReading)
  : M SensorPreprocessor (list (option ProcessedFeatures)) :=
  match readings with
  | [] => ret []
  | r :: rest =>
      condition <- process_reading r ;;
      match condition with
      | Some _ =>
          element <- process_reading r ;;
          others <- process_batch rest ;;
          ret (element :: others)
      | None => process_batch rest
      end
  end.

(** The batch as the specification words it: the single-reading
    operation once per item, the empty results dropped. *)
Fixpoint process_each_once (readings : list SensorReading)
  : M SensorPreprocessor (list (option ProcessedFeatures)) :=
  match readings with
  | [] => ret []
  | r :: rest =>
      element <- process_reading r ;;
      others <- process_each_once rest ;;
      match element with
      | Some _ => ret (element :: others)
      | None => ret others
      end
  end.

(** ** Vocabulary of the statements *)


(** The specification's wording for a group of mixed lengths: the
    length most experiences of the group have (the earliest such), and the
    group without the experiences of another length. *)
Definition count_length (n : nat) (exps : list Experience) : nat :=
  List.length (filter (fun e => Nat.eqb (List.length (exp_features e)) n) exps).

Definition majority_length (exps : list Experience) : nat :=
  fold_left (fun best e =>
               let n := List.length (exp_features e) in
               if Nat.ltb (count_length best exps) (count_length n exps)
               then n else best)
            exps
            (match exps with
             | [] => 0%nat
             | e :: _ => List.length (exp_features e)
             end).

Definition discard_minority (exps : list Experience) : list Experience :=
  filter (fun e => Nat.eqb (List.length (exp_features e)) (majority_length exps))
         exps.

(** [m] hands back a state with the same [p] as the one it was given,
    whether it returns or raises. *)
Definition preserves {S X A : Type} (p : S -> X) (m : M S A) : Prop :=
  forall s, p (snd (m s)) = p s.

(** [k in obj], for a dict [obj]. *)
Definition has_key (k : string) (obj : json) : bool :=
  match obj with
  | JDict d => dict_mem k d
  | _ => false
  end.

(** The record holds every field [load_learned_parameters] reads. *)
Definition structurally_complete (params : json) : bool :=
  has_key "feature_weights" params
  && has_key "anomaly_thresholds" params
  && has_key "pattern_clusters" params
  && match py_subscript params "metadata" with
     | Ok metadata =>
         has_key "update_count" metadata && has_key "total_samples" metadata
     | Raise _ => false
     end.

(** The learned state an attribute record stands for: weights that are
    floats, bands that are pairs of floats, centroids that are float
    arrays and counters that are ints; None when an attribute holds
    anything else. *)
Record Learned : Type := mkLearned {
  learned_weights : dict R;
  learned_thresholds : dict (R * R);
  learned_clusters : dict (list vec);
  learned_update_count : Z;
  learned_total_samples : Z
}.

Definition learned_state (l : IncrementalLearner) : Learned :=
  mkLearned (feature_weights l) (anomaly_thresholds l) (pattern_clusters l)
    (update_count l) (total_samples l).

Fixpoint all_some {A : Type} (l : list (option A)) : option (list A) :=
  match l with
  | [] => Some []
  | Some a :: t => option_map (cons a) (all_some t)
  | None :: _ => None
  end.

Definition decode_dict {A B : Type} (f : A -> option B) (d : dict A)
  : option (dict B) :=
  all_some (map (fun kv => option_map (pair (fst kv)) (f (snd kv))) d).

Definition float_of_json (j : json) : option R :=
  match j with JFloat x => Some x | _ => None end.

Definition int_of_json (j : json) : option Z :=
  match j with JInt z => Some z | _ => None end.

Definition band_of_tuple (t : list json) : option (R * R) :=
  match t with
  | [JFloat lower; JFloat upper] => Some (lower, upper)
  | _ => None
  end.

Definition vec_of_array (a : ndarray) : option vec :=
  match a with
  | FloatArray entries => Some entries
  | OtherArray _ => None
  end.

Definition learned_of (a : LearnedAttrs) : option Learned :=
  match attr_feature_weights a with
  | JDict d =>
      match decode_dict float_of_json d,
            decode_dict band_of_tuple (attr_anomaly_thresholds a),
            decode_dict (fun cs => all_some (map vec_of_array cs))
              (attr_pattern_clusters a),
            int_of_json (attr_update_count a),
            int_of_json (attr_total_samples a) with
      | Some fw, Some th, Some pc, Some uc, Some ts =>
          Some (mkLearned fw th pc uc ts)
      | _, _, _, _, _ => None
      end
  | _ => None
  end.

(** What makes a stored record fail to load. The loader takes the
    weights and the two counters as they stand; it needs the thresholds to
    be a dict of values it can iterate over, and the clusters a dict of
    values it can iterate over whose elements [np.array] accepts. *)
Definition is_ok {A : Type} (r : result A) : bool :=
  match r with Ok _ => true | Raise _ => false end.

Definition iterable (j : json) : bool :=
  match j with
  | JList _ | JStr _ | JDict _ => true
  | _ => false
  end.

Definition thresholds_readable (params : json) : bool :=
  match py_subscript params "anomaly_thresholds" with
  | Ok (JDict d) => forallb (fun kv => iterable (snd kv)) d
  | _ => false
  end.

Definition centroids_readable (j : json) : bool :=
  match j with
  | JList l => forallb (fun c => is_ok (np_array c)) l
  | JStr s => forallb (fun c => is_ok (np_array c)) (map JStr (chars s))
  | JDict d => forallb (fun c => is_ok (np_array c))
                       (map (fun kv => JStr (fst kv)) d)
  | _ => false
  end.

Definition clusters_readable (params : json) : bool :=
  match py_subscript params "pattern_clusters" with
  | Ok (JDict d) => forallb (fun kv => centroids_readable (snd kv)) d
  | _ => false
  end.

Definition update_count_present (params : json) : bool :=
  match py_subscript params "metadata" with
  | Ok metadata => has_key "update_count" metadata
  | Raise _ => false
  end.

Definition counters_present (params : json) : bool :=
  match py_subscript params "metadata" with
  | Ok metadata =>
      has_key "update_count" metadata && has_key "total_samples" metadata
  | Raise _ => false
  end.

Definition loadable (params : json) : bool :=
  has_key "feature_weights" params
  && thresholds_readable params
  && clusters_readable params
  && counters_present params.

(** The record has every field, each of the type [save_learned_parameters]
    writes. *)
Definition is_float (j : json) : bool :=
  match j with JFloat _ => true | _ => false end.

Definition is_int (j : json) : bool :=
  match j with JInt _ => true | _ => false end.

Definition field_is (check : json -> bool) (obj : json) (k : string) : bool :=
  match py_subscript obj k with
  | Ok v => check v
  | Raise _ => false
  end.

Definition dict_of (check : json -> bool) (j : json) : bool :=
  match j with
  | JDict d => forallb (fun kv => check (snd kv)) d
  | _ => false
  end.

Definition list_of (check : json -> bool) (j : json) : bool :=
  match j with
  | JList l => forallb check l
  | _ => false
  end.

Definition pair_of_floats (j : json) : bool :=
  match j with
  | JList [JFloat _; JFloat _] => true
  | _ => false
  end.

Definition record_wellformed (params : json) : bool :=
  field_is (dict_of is_float) params "feature_weights"
  && field_is (dict_of pair_of_floats) params "anomaly_thresholds"
  && field_is (dict_of (list_of (list_of is_float))) params "pattern_clusters"
  && field_is (fun metadata =>
                 field_is is_int metadata "update_count"
                 && field_is is_int metadata "total_samples")
       params "metadata".

Definition ignores_weights {X : Type} (p : World -> X) : Prop :=
  forall w v, p (mkWorld (with_feature_weights v (self w)) (np_random w)) = p w.

Definition ignores_thresholds {X : Type} (p : World -> X) : Prop :=
  forall w v, p (mkWorld (with_anomaly_thresholds v (self w)) (np_random w)) = p w.

Definition ignores_clusters {X : Type} (p : World -> X) : Prop :=
  forall w v, p (mkWorld (with_pattern_clusters v (self w)) (np_random w)) = p w.

Definition ignores_generator {X : Type} (p : World -> X) : Prop :=
  forall w g, p (mkWorld (self w) g) = p w.

(** The learner once [add_experience] has appended the experience and
    counted it, before the threshold is looked at. *)
Definition recorded (now : R) (f : ProcessedFeatures) (label : option string)
  (reward : option R) (w : World) : World :=
  mkWorld
    (with_total_samples (total_samples (self w) + 1)%Z
       (with_experience_buffer
          (deque_append (memory_size (self w)) (experience_of now f label reward)
             (experience_buffer (self w)))
          (self w)))
    (np_random w).

(** The experiences of one sensor, and the buffer without them. *)
Definition of_sensor (sid : string) (buf : list Experience) : list Experience :=
  filter (fun e => String.eqb sid (exp_sensor_id e)) buf.

Definition without_sensor (sid : string) (buf : list Experience) : list Experience :=
  filter (fun e => negb (String.eqb sid (exp_sensor_id e))) buf.

(** Every group holds the buffered experiences of its sensor, in order,
    a sensor without a group has none buffered, and no sensor has two
    groups. *)
Definition groups_of (buf : list Experience) (groups : dict (list Experience))
  : Prop :=
  NoDup (map fst groups) /\
  forall k, match dict_get k groups with
            | Some g => g = of_sensor k buf
            | None => of_sensor k buf = []
            end.

Definition set_buffer (b : list Experience) (w : World) : World :=
  mkWorld (with_experience_buffer b (self w)) (np_random w).

(** [m] does not look at the experience buffer, and leaves it alone. *)
Definition buffer_blind {A : Type} (m : M World A) : Prop :=
  forall b w, m (set_buffer b w) = (fst (m w), set_buffer b (snd (m w))).

(** [value] lies outside the band. *)
Definition triggers (lower upper value : R) : bool :=
  Rltb value lower || Rgtb value upper.

(** The score of a triggering feature as the specification words it: the
    distance beyond the nearer bound, over the magnitude of that bound,
    and 1 for a bound that is zero. *)
Definition nearer_bound (lower upper value : R) : R :=
  if Rle_dec (Rabs (value - lower)) (Rabs (value - upper)) then lower else upper.

Definition out_of_band_score (lower upper value : R) : R :=
  let bound := nearer_bound lower upper value in
  if Req_dec_T bound 0 then 1 else Rabs (value - bound) / Rabs bound.

(** The scores, by the rule [score], of the features at the listed
    positions that have a learned band and lie outside it. *)
Definition scores_by (score : R -> R -> R -> R) (th : dict (R * R))
  (sid : string) (feats : vec) (items : list (nat * string)) : list R :=
  flat_map (fun ix =>
              match dict_get (feature_key sid (snd ix)) th,
                    nth_error feats (fst ix) with
              | Some (lower, upper), Some value =>
                  if triggers lower upper value then [score lower upper value]
                  else []
              | _, _ => []
              end) items.

Definition triggered_scores (th : dict (R * R)) (f : ProcessedFeatures) : list R :=
  scores_by out_of_band_score th (sensor_id f) (features f)
    (enumerate (feature_names f)).





(** ** The weight blend as the machine evaluates it *)

(** [store_weight] with the value of [0.7 * old + 0.3 * sample] as a
    parameter: [blend old sample] is what the expression evaluates to. *)
Definition store_weight_with (blend : R -> R -> R) (key : string) (w : R)
  : M World unit :=
  fw <- reads feature_weights ;;
  match dict_get key fw with
  | Some old => update (with_feature_weights (dict_set key (blend old w) fw))
  | None => update (with_feature_weights (dict_set key w fw))
  end.

(** The binary64 values of the literals [0.7] and [0.3]. *)
Definition seven_tenths : R := 6305039478318694 / 2 ^ 53.
Definition three_tenths : R := 5404319552844595 / 2 ^ 54.

(** The blend with its two products and its sum each rounded by [rnd]. *)
Definition ema_weight_rounded (rnd : R -> R) (old sample : R) : R :=
  rnd (rnd (seven_tenths * old) + rnd (three_tenths * sample)).

(** [rnd] is off at [x] by no more than the share [u] of [x]. *)
Definition accurate (u : R) (rnd : R -> R) (x : R) : Prop :=
  Rabs (rnd x - x) <= u * Rabs x.




(** A temperature reading of 22.0 degrees from sensor "t1". *)
Definition reading_22 : SensorReading :=
  mkReading "t1" TEMPERATURE 0 (Plain (JFloat 22)) "C" 1 None.

(** ** The rest of the two modules, and what reads their data *)


(** The dict [get_learning_summary] returns. *)
Record LearningSummary : Type := mkSummary {
  summary_total_samples : Z;
  summary_update_count : Z;
  features_tracked : nat;
  anomaly_thresholds_learned : nat;
  clusters_per_sensor : dict nat;
  buffer_utilization : R
}.

(** The one exception of the arithmetic of [get_learning_summary]. *)
Inductive arith_exn : Type :=
| ZeroDivisionError.

(** [get_learning_summary]: it reads the learner and divides the length
    of the buffer by [memory_size]. *)
Definition get_learning_summary (l : IncrementalLearner)
  : arith_exn + LearningSummary :=
  if Nat.eqb (memory_size l) 0 then inl ZeroDivisionError
  else inr (mkSummary (total_samples l) (update_count l)
              (List.length (feature_weights l))
              (List.length (anomaly_thresholds l))
              (map (fun kv => (fst kv, List.length (snd kv))) (pattern_clusters l))
              (INR (List.length (experience_buffer l)) / INR (memory_size l))).

(** The Euclidean distance of two vectors of one length. *)
Definition euclidean (a b : vec) : R :=
  np_norm (map (fun xy => fst xy - snd xy) (combine a b)).

(** [l[-n:]]: a negative start counts from the end and stops at the
    front, a start at or above zero stops at the end. *)
Definition py_suffix {A : Type} (n : Z) (l : list A) : list A :=
  let len := Z.of_nat (List.length l) in
  let start := if Z.ltb (- n) 0 then Z.max 0 (len - n) else Z.min len (- n) in
  skipn (Z.to_nat start) l.

(** What [np.array] makes of a list of window entries: a vector of
    numbers, a matrix of rows, or nothing for a list that mixes them. *)
Inductive window_array : Type :=
| Vector (values : vec)
| Matrix (rows : list vec).

Definition np_array_samples (l : list sample) : result window_array :=
  match l with
  | [] => Ok (Vector [])
  | Scalar _ :: _ => rbind (as_vector l) (fun values => Ok (Vector values))
  | Row _ :: _ => rbind (as_matrix l) (fun rows => Ok (Matrix rows))
  end.

(** [create_temporal_embedding] *)
Definition create_temporal_embedding (sid : string) (sequence_length : Z)
  : M SensorPreprocessor (option window_array) :=
  windows <- gets feature_windows ;;
  match dict_get sid windows with
  | None => ret None
  | Some window =>
      let len := Z.of_nat (List.length window) in
      let sequence :=
        if Z.ltb len sequence_length
        then repeat (Scalar 0) (Z.to_nat (sequence_length - len)) ++ window
        else py_suffix sequence_length window in
      embedding <- lift (np_array_samples sequence) ;;
      ret (Some embedding)
  end.

(** [fuse_multi_sensor_features] *)
Definition fuse_multi_sensor_features (processed_list : list ProcessedFeatures)
  : vec :=
  flat_map features processed_list.

(** [SensorManager.get_recent_data], on the manager's [data_buffers]. *)
Definition get_recent_data (data_buffers : dict (list SensorReading))
  (sid : string) (n : Z) : list SensorReading :=
  match dict_get sid data_buffers with
  | None => []
  | Some buffer => py_suffix n buffer
  end.




(** [np.mean], [np.std], [np.min] and [np.max] of a list of numbers that
    holds an int of size above [2^53], where the type of the array NumPy
    builds and what it raises depend on the sizes of all the ints; the
    exception is that of the first of the four to raise. *)
Variable np_statistics_wide : list raw_value -> result (R * R * R * R).


(** The two components [EdgeAISystem._on_sensor_data] works on. *)
Record EdgeAISystem : Type := mkSystem {
  preprocessor : SensorPreprocessor;
  learner : World
}.

(** A method of the preprocessor, and one of the learner, run inside the
    system. *)
Definition on_preprocessor {A : Type} (m : M SensorPreprocessor A)
  : M EdgeAISystem A :=
  fun s => let (r, p) := m (preprocessor s) in (r, mkSystem p (learner s)).

Definition on_learner {A : Type} (m : M World A) : M EdgeAISystem A :=
  fun s => let (r, w) := m (learner s) in (r, mkSystem (preprocessor s) w).

(** [EdgeAISystem._on_sensor_data]; [anomaly_detection] is
    [config["anomaly_detection"]] and [now] the clock of
    [add_experience]. *)
Definition _on_sensor_data (anomaly_detection : bool) (now : R)
  (reading : SensorReading) : M EdgeAISystem unit :=
  found <- on_preprocessor (process_reading reading) ;;
  match found with
  | Some f =>
      (if anomaly_detection
       then verdict <- on_learner (detect_anomaly f) ;; ret tt
       else ret tt) ;;
      on_learner (add_experience now f None None)
  | None => ret tt
  end.

(** ** Vocabulary of the further statements *)

(** [m] hands back a state that satisfies [P] when it was given one. *)
Definition keeps {S A : Type} (P : S -> Prop) (m : M S A) : Prop :=
  forall s, P s -> P (snd (m s)).



(** No sensor has more than [k] centroids. *)
Definition clusters_at_most (k : nat) (w : World) : Prop :=
  forall sid cs,
    dict_get sid (pattern_clusters (self w)) = Some cs ->
    (List.length cs <= k)%nat.

(** The buffer holds no more than [memory_size] experiences. *)
Definition buffer_within_capacity (w : World) : Prop :=
  (List.length (experience_buffer (self w)) <= memory_size (self w))%nat.

(** No temporal window holds more than [window_size] entries. *)
Definition windows_within_capacity (p : SensorPreprocessor) : Prop :=
  forall sid window,
    dict_get sid (feature_windows p) = Some window ->
    (List.length window <= window_size p)%nat.

(** The same, for a preprocessor built with windows of [n] entries. *)
Definition windows_sized (n : nat) (p : SensorPreprocessor) : Prop :=
  window_size p = n /\ windows_within_capacity p.

(** The name list and the vector of a record have one length. *)
Definition parallel (f : ProcessedFeatures) : Prop :=
  List.length (features f) = List.length (feature_names f).

(** The axis value [j] is the number [x], small enough for binary64 to
    hold its square and the sum of three such squares, and, for an int,
    for the sum of three squares to stay below [2^63]. *)
Definition narrow_axis (j : json) (x : R) : Prop :=
  match j with
  | JFloat v => x = v /\ Rabs v <= 2 ^ 511
  | JInt n => x = IZR n /\ (Z.abs n <= 2 ^ 30)%Z
  | JBool b => x = (if b then 1 else 0)
  | _ => False
  end.

(** The readings [process_reading] gives no result for. *)
Definition unprocessable (reading : SensorReading) : bool :=
  match reading_sensor_type reading, reading_value reading with
  | CAMERA, Plain _ => true
  | ACCELEROMETER, Plain (JDict _) => false
  | ACCELEROMETER, _ => true
  | _, _ => false
  end.

(** ** Sample data of the further statements *)

(** No string reads as a number, and every frame has the same six
    statistics. *)
Definition no_float (s : string) : option R := None.

Definition flat_statistics (frame : Frame) : result vec :=
  Ok [0; 0; 0; 0; 0; 0].

(** A preprocessor with windows of two entries whose window of "t1"
    holds one reading of 21 degrees. *)
Definition warm_preprocessor : SensorPreprocessor :=
  mkPreprocessor 2 true [("t1", [Scalar 21])].

(** A camera reading without a frame. *)
Definition blind_reading : SensorReading :=
  mkReading "c1" CAMERA 0 (Plain JNull) "" 1 None.



(** An accelerometer reading without a z axis, a humidity reading, and a
    camera reading with a frame and no metadata. *)
Definition accel_reading : SensorReading :=
  mkReading "a1" ACCELEROMETER 0
    (Plain (JDict [("x", JFloat 3); ("y", JFloat 4)])) "g" 1 None.

Definition humidity_reading : SensorReading :=
  mkReading "h1" HUMIDITY 0 (Plain (JFloat 40)) "%" 1 None.

Definition frame_reading : SensorReading :=
  mkReading "c1" CAMERA 0 (Image (mkFrame [64; 64; 3]%nat [])) "" 1 None.

(** ** What one update pass makes of the buffer of a single sensor *)

(** The blend of a weight with a new sample, and of a band with a new
    band, where there is a previous value. *)
Definition blended_weight (old : option R) (sample : R) : R :=
  match old with
  | Some previous => 0.7 * previous + 0.3 * sample
  | None => sample
  end.

Definition blended_band (old : option (R * R)) (lower upper : R) : R * R :=
  match old with
  | Some (old_lower, old_upper) =>
      (0.8 * old_lower + 0.2 * lower, 0.8 * old_upper + 0.2 * upper)
  | None => (lower, upper)
  end.

(** The sum of the variances of the first [k] columns. *)
Definition total_variance (matrix : list vec) (k : nat) : R :=
  np_sum (map (fun j => np_var (column j matrix)) (seq 0 k)).

(** A centre moved towards the mean of the rows that lie nearer to it
    than the median distance; a centre with no such row stays. *)
Definition recentred (matrix : list vec) (center : vec) : vec :=
  let distances := map (fun row => euclidean row center) matrix in
  let close :=
    map fst (filter (fun rd => Rltb (snd rd) (np_median distances))
               (combine matrix distances)) in
  match close with
  | [] => center
  | _ :: _ =>
      map (fun cm => 0.7 * fst cm + 0.3 * snd cm)
        (combine center
           (map (fun j => np_mean (column j close))
              (seq 0 (List.length center))))
  end.

(** Every buffered experience is of sensor [sid] and has as many
    features as [names] has names, the names of the first experience, none
    of them twice. *)
Definition one_sensor (sid : string) (names : list string)
  (buf : list Experience) : Prop :=
  (forall e, In e buf ->
     exp_sensor_id e = sid /\
     List.length (exp_features e) = List.length names) /\
  NoDup names /\
  match buf with
  | first :: _ => exp_feature_names first = names
  | [] => False
  end.

(** The thresholds step with the library's [np.mean] and [np.std] as
    parameters: [mean_of] and [std_of] are the mean and the standard
    deviation of a column as the library computes them. *)
Definition thresholds_of_group_with (mean_of std_of : list R -> R)
  (g : string * list Experience) : M World unit :=
  let (sid, experiences) := g in
  if Nat.ltb (List.length experiences) 5 then ret tt
  else if mixed_lengths experiences then ret tt
  else match experiences with
       | [] => ret tt
       | first :: _ =>
           let features_matrix := map exp_features experiences in
           let means := axis0 mean_of features_matrix in
           let stds := axis0 std_of features_matrix in
           for_each (enumerate (exp_feature_names first))
             (threshold_of_feature sid means stds)
       end.

Definition _update_anomaly_thresholds_with (mean_of std_of : list R -> R)
  : M World unit :=
  buf <- reads experience_buffer ;;
  for_each (group_by_sensor buf) (thresholds_of_group_with mean_of std_of).

Definition update_pass_with (mean_of std_of : list R -> R) : M World unit :=
  _update_feature_weights ;;
  _update_anomaly_thresholds_with mean_of std_of ;;
  _update_pattern_clusters 5 ;;
  update (fun l => with_update_count (update_count l + 1)%Z l).

Definition _incremental_update_with (mean_of std_of : list R -> R)
  : M World unit :=
  buf <- reads experience_buffer ;;
  if Nat.ltb (List.length buf) 2 then ret tt
  else update_pass_with mean_of std_of.

(** One write of the weights step and one of the thresholds step, on the
    dict they write to: the entry under the key of the feature at a
    position becomes the blend of what it held with the new value. *)
Definition write_weight (sid : string) (share : nat -> R) (d : dict R)
  (ix : nat * string) : dict R :=
  dict_set (feature_key sid (snd ix))
    (blended_weight (dict_get (feature_key sid (snd ix)) d) (share (fst ix))) d.

Definition write_band (sid : string) (lower upper : nat -> R) (d : dict (R * R))
  (ix : nat * string) : dict (R * R) :=
  dict_set (feature_key sid (snd ix))
    (blended_band (dict_get (feature_key sid (snd ix)) d)
       (lower (fst ix)) (upper (fst ix))) d.

(** * Properties *)

(** Drops from a goal the library entry points it does not mention. *)
Ltac clear_unused :=
  try clear parse_float; try clear camera_statistics;
  try clear np_statistics_wide;
  try clear np_array_other; try clear other_array;
  try clear np_random_choice.

(** ** The monad: what a computation leaves untouched *)

Lemma preserves_ret {S X A : Type} (p : S -> X) (a : A) : preserves p (ret a).
Proof. intro s. reflexivity. Qed.

Lemma preserves_raise {S X A : Type} (p : S -> X) (e : exn) :
  preserves p (@raise S A e).
Proof. intro s. reflexivity. Qed.

Lemma preserves_lift {S X A : Type} (p : S -> X) (r : result A) :
  preserves p (@lift S A r).
Proof. intro s. reflexivity. Qed.

Lemma preserves_gets {S X A : Type} (p : S -> X) (f : S -> A) :
  preserves p (gets f).
Proof. intro s. reflexivity. Qed.

Lemma preserves_bind {S X A B : Type} (p : S -> X) (m : M S A) (k : A -> M S B) :
  preserves p m -> (forall a, preserves p (k a)) -> preserves p (bind m k).
Proof.
  intros Hm Hk s. unfold bind.
  specialize (Hm s). destruct (m s) as [[a | e] s']; simpl in *.
  - rewrite Hk. exact Hm.
  - exact Hm.
Qed.

Lemma preserves_for_each {S X A : Type} (p : S -> X) (l : list A)
  (body : A -> M S unit) :
  (forall x, In x l -> preserves p (body x)) -> preserves p (for_each l body).
Proof.
  induction l as [| x t IH]; intros Hbody; simpl.
  - apply preserves_ret.
  - apply preserves_bind.
    + apply Hbody. now left.
    + intros _. apply IH. intros y Hy. apply Hbody. now right.
Qed.

Lemma preserves_for_fold {S X A B : Type} (p : S -> X) (l : list A)
  (body : B -> A -> M S B) :
  (forall acc x, preserves p (body acc x)) ->
  forall acc, preserves p (for_fold l acc body).
Proof.
  intros Hbody. induction l as [| x t IH]; intros acc; simpl.
  - apply preserves_ret.
  - apply preserves_bind; [apply Hbody | intros acc'; apply IH].
Qed.

Lemma preserves_reads {X A : Type} (p : World -> X) (f : IncrementalLearner -> A) :
  preserves p (reads f).
Proof. intro w. reflexivity. Qed.

Create HintDb frame.

#[local] Hint Resolve preserves_ret preserves_raise preserves_lift
  preserves_gets preserves_reads : frame.

(** ** The weight blend stays between its arguments *)

Lemma ema_weight_between (old sample : R) :
  Rmin old sample <= ema_weight old sample <= Rmax old sample.
Proof.
  unfold ema_weight, Rmin, Rmax.
  destruct (Rle_dec old sample); lra.
Qed.

Lemma dict_get_set_same {A : Type} (k : string) (v : A) (d : dict A) :
  dict_get k (dict_set k v d) = Some v.
Proof.
  induction d as [| [k' v'] t IH]; simpl.
  - now rewrite String.eqb_refl.
  - destruct (String.eqb k k') eqn:E; simpl; rewrite ?E, ?String.eqb_refl; auto.
Qed.

Lemma dict_get_set_other {A : Type} (k k' : string) (v : A) (d : dict A) :
  k <> k' -> dict_get k (dict_set k' v d) = dict_get k d.
Proof.
  intros Hne. induction d as [| [k2 v2] t IH]; simpl.
  - destruct (String.eqb_spec k k'); [contradiction | reflexivity].
  - destruct (String.eqb_spec k' k2) as [-> | Hk2]; simpl.
    + destruct (String.eqb_spec k k2); [contradiction | reflexivity].
    + destruct (String.eqb_spec k k2); [reflexivity | exact IH].
Qed.

Lemma accurate_nonneg (u : R) (rnd : R -> R) (x : R) :
  0 <= x -> accurate u rnd x -> (1 - u) * x <= rnd x <= (1 + u) * x.
Proof.
  unfold accurate. intros Hx H. rewrite (Rabs_right x) in H by lra.
  unfold Rabs in H. destruct (Rcase_abs (rnd x - x)); lra.
Qed.

Lemma literals_sum : seven_tenths + three_tenths = 1 - / 2 ^ 54.
Proof. unfold seven_tenths, three_tenths. field. Qed.

Lemma literals_positive : 0 < seven_tenths /\ 0 < three_tenths.
Proof.
  unfold seven_tenths, three_tenths.
  split; apply Rdiv_lt_0_compat; try lra; apply pow_lt; lra.
Qed.

(** C9. For all reals [old] and [sample] the exact blend
    [0.7 old + 0.3 sample] lies in the closed interval between them. The
    weights step stores, under a key already present, the blend of the
    previous weight and the sample as the machine evaluates it, and under
    a new key the sample itself; the store of the exact pipeline is the
    one with the exact blend. Where the two products and the sum are each
    rounded with a relative error of at most [u], the blend of two
    weights that are not negative lies between [(1 - u)^2 (1 - 2^-54)]
    times the lesser and [(1 + u)^2] times the greater of them. *)
Theorem weight_blend_between (old sample : R) :
  Rmin old sample <= ema_weight old sample <= Rmax old sample /\
  (forall (blend : R -> R -> R) (w : World) (key : string),
     store_weight_with blend key sample w
     = (Ok tt,
        mkWorld
          (with_feature_weights
             (dict_set key
                (match dict_get key (feature_weights (self w)) with
                 | Some previous => blend previous sample
                 | None => sample
                 end)
                (feature_weights (self w)))
             (self w))
          (np_random w))) /\
  store_weight = store_weight_with ema_weight /\
  (forall (rnd : R -> R) (u : R),
     0 <= old -> 0 <= sample -> 0 <= u <= 1 ->
     accurate u rnd (seven_tenths * old) ->
     accurate u rnd (three_tenths * sample) ->
     accurate u rnd (rnd (seven_tenths * old) + rnd (three_tenths * sample)) ->
     (1 - u) ^ 2 * (1 - / 2 ^ 54) * Rmin old sample
     <= ema_weight_rounded rnd old sample
     <= (1 + u) ^ 2 * Rmax old sample).
Proof.
  split; [apply ema_weight_between |]. split; [| split; [reflexivity |]].
  - intros blend w key.
    unfold store_weight_with, bind, reads, gets, update, modify. cbn [fst snd].
    destruct (dict_get key (feature_weights (self w))); reflexivity.
  - intros rnd u Hold Hsample Hu Ha Hb Hs.
    destruct literals_positive as [H7 H3].
    pose proof literals_sum as Hsum.
    assert (Hhalf : 0 < / 2 ^ 54) by (apply Rinv_0_lt_compat, pow_lt; lra).
    set (a := seven_tenths * old) in *. set (b := three_tenths * sample) in *.
    assert (Ha0 : 0 <= a) by (unfold a; apply Rmult_le_pos; lra).
    assert (Hb0 : 0 <= b) by (unfold b; apply Rmult_le_pos; lra).
    apply (@accurate_nonneg _ _ _ Ha0) in Ha.
    apply (@accurate_nonneg _ _ _ Hb0) in Hb.
    assert (Hs0 : 0 <= rnd a + rnd b).
    { assert (0 <= (1 - u) * a) by (apply Rmult_le_pos; lra).
      assert (0 <= (1 - u) * b) by (apply Rmult_le_pos; lra). lra. }
    apply (@accurate_nonneg _ _ _ Hs0) in Hs.
    unfold ema_weight_rounded. fold a b.
    set (lo := Rmin old sample). set (hi := Rmax old sample).
    assert (Hlo : lo <= old /\ lo <= sample /\ 0 <= lo).
    { unfold lo, Rmin. destruct (Rle_dec old sample); lra. }
    assert (Hhi : old <= hi /\ sample <= hi).
    { unfold hi, Rmax. destruct (Rle_dec old sample); lra. }
    assert (Hab_lo : (1 - / 2 ^ 54) * lo <= a + b).
    { unfold a, b. rewrite <- Hsum.
      assert (seven_tenths * lo <= seven_tenths * old)
        by (apply Rmult_le_compat_l; lra).
      assert (three_tenths * lo <= three_tenths * sample)
        by (apply Rmult_le_compat_l; lra).
      lra. }
    assert (Hab_hi : a + b <= hi).
    { unfold a, b.
      assert (seven_tenths * old <= seven_tenths * hi)
        by (apply Rmult_le_compat_l; lra).
      assert (three_tenths * sample <= three_tenths * hi)
        by (apply Rmult_le_compat_l; lra).
      assert (0 <= hi) by lra.
      assert ((seven_tenths + three_tenths) * hi <= hi).
      { rewrite Hsum. assert (0 <= / 2 ^ 54 * hi) by (apply Rmult_le_pos; lra).
        lra. }
      lra. }
    assert (Hsum_lo : (1 - u) * (a + b) <= rnd a + rnd b) by lra.
    assert (Hsum_hi : rnd a + rnd b <= (1 + u) * (a + b)) by lra.
    split.
    + apply Rle_trans with ((1 - u) * (rnd a + rnd b)); [| lra].
      apply Rle_trans with ((1 - u) * ((1 - u) * (a + b))).
      * replace ((1 - u) ^ 2 * (1 - / 2 ^ 54) * lo)
          with ((1 - u) * ((1 - u) * ((1 - / 2 ^ 54) * lo))) by ring.
        apply Rmult_le_compat_l; [lra |].
        apply Rmult_le_compat_l; [lra | exact Hab_lo].
      * apply Rmult_le_compat_l; [lra | exact Hsum_lo].
    + apply Rle_trans with ((1 + u) * (rnd a + rnd b)); [lra |].
      apply Rle_trans with ((1 + u) * ((1 + u) * (a + b))).
      * apply Rmult_le_compat_l; [lra | exact Hsum_hi].
      * replace ((1 + u) ^ 2 * hi) with ((1 + u) * ((1 + u) * hi)) by ring.
        apply Rmult_le_compat_l; [lra |].
        apply Rmult_le_compat_l; [lra | exact Hab_hi].
Qed.

(** ** The two queries leave the learner as it is *)

Lemma detect_anomaly_preserves {X : Type} (p : World -> X) (f : ProcessedFeatures) :
  preserves p (detect_anomaly f).
Proof.
  unfold detect_anomaly. apply preserves_bind.
  - apply preserves_for_fold. intros acc [i name]. unfold score_feature.
    apply preserves_bind; auto with frame.
    intros th. destruct (dict_get _ th) as [[lower upper] |]; auto with frame.
    apply preserves_bind; auto with frame.
    intros value. destruct (_ || _); auto with frame.
  - intros [| s scores]; auto with frame.
Qed.

Lemma predict_pattern_preserves {X : Type} (p : World -> X) (f : ProcessedFeatures) :
  preserves p (predict_pattern f).
Proof.
  unfold predict_pattern. apply preserves_bind; auto with frame.
  intros known. destruct (dict_get _ known); auto with frame.
  apply preserves_bind; auto with frame.
  intros [| d ds]; auto with frame.
Qed.

(** C10. [detect_anomaly] and [predict_pattern] are queries: whatever the
    learner and the feature record, and whether they return or raise, the
    experience buffer, the weights, the thresholds, the clusters, the two
    counters (and the generator) are afterwards what they were. *)
Theorem queries_leave_state (f : ProcessedFeatures) (w : World) :
  snd (detect_anomaly f w) = w /\ snd (predict_pattern f w) = w.
Proof.
  split.
  - apply (detect_anomaly_preserves (fun w => w)).
  - apply (predict_pattern_preserves (fun w => w)).
Qed.

(** ** Persistence: save, then load *)

Lemma rmap_list_map {A B C : Type} (g : A -> B) (f : B -> result C) (h : A -> C)
  (l : list A) :
  (forall a, f (g a) = Ok (h a)) -> rmap_list f (map g l) = Ok (map h l).
Proof.
  intros Hfg. induction l as [| a t IH]; simpl.
  - reflexivity.
  - rewrite Hfg, IH. reflexivity.
Qed.

Lemma dict_comprehension_map {A B C : Type} (g : A -> B) (f : B -> result C)
  (h : A -> C) (d : dict A) :
  (forall a, f (g a) = Ok (h a)) ->
  dict_comprehension f (map (fun kv => (fst kv, g (snd kv))) d)
  = Ok (map (fun kv => (fst kv, h (snd kv))) d).
Proof.
  intros Hfg. unfold dict_comprehension.
  induction d as [| [k a] t IH]; simpl.
  - reflexivity.
  - rewrite Hfg. simpl. rewrite IH. reflexivity.
Qed.

Lemma float_entries_floats (v : vec) : float_entries (map JFloat v) = Some v.
Proof.
  induction v as [| x t IH]; cbn; [reflexivity |]. now rewrite IH.
Qed.

Lemma np_array_tolist (v : vec) : np_array (tolist v) = Ok (FloatArray v).
Proof. unfold np_array, tolist. now rewrite float_entries_floats. Qed.

Lemma all_some_map {A B : Type} (f : A -> option B) (g : B -> A) (l : list B) :
  (forall b, f (g b) = Some b) -> all_some (map f (map g l)) = Some l.
Proof.
  intros Hfg. induction l as [| b t IH]; cbn; [reflexivity |].
  rewrite Hfg, IH. reflexivity.
Qed.

Lemma decode_dict_map {A B : Type} (f : A -> option B) (g : B -> A) (d : dict B) :
  (forall b, f (g b) = Some b) ->
  decode_dict f (map (fun kv => (fst kv, g (snd kv))) d) = Some d.
Proof.
  intros Hfg. unfold decode_dict. induction d as [| [k b] t IH]; cbn;
    [reflexivity |].
  rewrite Hfg. cbn. now rewrite IH.
Qed.

Lemma learned_of_attrs (l : IncrementalLearner) :
  learned_of (attrs_of l) = Some (learned_state l).
Proof.
  unfold learned_of, attrs_of, learned_state.
  cbn [attr_feature_weights attr_anomaly_thresholds attr_pattern_clusters
       attr_update_count attr_total_samples int_of_json].
  rewrite (decode_dict_map float_of_json JFloat) by reflexivity.
  rewrite (decode_dict_map band_of_tuple
             (fun v : R * R => [JFloat (fst v); JFloat (snd v)]))
    by (intros [lower upper]; reflexivity).
  rewrite (decode_dict_map (fun cs => all_some (map vec_of_array cs))
             (map FloatArray))
    by (intros cs; now apply all_some_map).
  reflexivity.
Qed.

(** C1. Whatever the learner, loading the record that
    [save_learned_parameters] produced for it returns True and leaves in
    the five attributes the saved weights, threshold bands and cluster
    centroids and the saved [update_count] and [total_samples], whatever
    these attributes held before: read back as floats, pairs of floats,
    float arrays and ints, the attributes are the learner's own. A float
    is written and read without change. *)
Theorem save_then_load_restores (now : R) (l : IncrementalLearner)
  (before : LearnedAttrs) :
  let loaded := load_learned_parameters (Ok (save_learned_parameters now l)) before in
  fst loaded = Ok true /\
  learned_of (snd loaded) = Some (learned_state l) /\
  snd loaded = attrs_of l.
Proof.
  cbv zeta.
  assert (Hth : read_anomaly_thresholds (save_learned_parameters now l)
                = Ok (attr_anomaly_thresholds (attrs_of l))).
  { unfold read_anomaly_thresholds, save_learned_parameters. simpl.
    apply (dict_comprehension_map
             (fun v : R * R => JList [JFloat (fst v); JFloat (snd v)])
             py_iter
             (fun v : R * R => [JFloat (fst v); JFloat (snd v)])).
    reflexivity. }
  assert (Hpc : read_pattern_clusters (save_learned_parameters now l)
                = Ok (attr_pattern_clusters (attrs_of l))).
  { unfold read_pattern_clusters, save_learned_parameters. simpl.
    apply (dict_comprehension_map
             (fun v : list vec => JList (map tolist v))
             (fun v => rbind (py_iter v) (rmap_list np_array))
             (fun v : list vec => map FloatArray v)).
    intros v. simpl. apply rmap_list_map. exact np_array_tolist. }
  assert (Hload : load_learned_parameters (Ok (save_learned_parameters now l)) before
                  = (Ok true, attrs_of l)).
  { unfold load_learned_parameters, try_except, bind, lift, modify, ret.
    rewrite Hth, Hpc. reflexivity. }
  rewrite Hload. cbn [fst snd].
  split; [reflexivity | split; [apply learned_of_attrs | reflexivity]].
Qed.

(** *** A record with a field missing *)

Lemma py_subscript_has_key (obj : json) (k : string) :
  has_key k obj = false -> exists e, py_subscript obj k = Raise e.
Proof.
  destruct obj; simpl; try (intros _; eexists; reflexivity).
  unfold dict_mem. destruct (dict_get k d); [discriminate |].
  intros _. eexists; reflexivity.
Qed.

Lemma py_subscript_raises_has_key (obj : json) (k : string) (v : json) :
  py_subscript obj k = Ok v -> has_key k obj = true.
Proof.
  destruct obj; simpl; try discriminate.
  unfold dict_mem. destruct (dict_get k d); [reflexivity | discriminate].
Qed.

Ltac run_load :=
  unfold load_learned_parameters, try_except, bind, lift, modify, ret,
    read_feature_weights, read_anomaly_thresholds, read_pattern_clusters.

Lemma forallb_pointwise {A : Type} (f g : A -> bool) (l : list A) :
  (forall x, f x = g x) -> forallb f l = forallb g l.
Proof.
  intros Hfg. induction l as [| x t IH]; cbn; [reflexivity |].
  now rewrite Hfg, IH.
Qed.

Lemma is_ok_rmap_list {A B : Type} (f : A -> result B) (l : list A) :
  is_ok (rmap_list f l) = forallb (fun x => is_ok (f x)) l.
Proof.
  induction l as [| x t IH]; cbn; [reflexivity |].
  destruct (f x); cbn; [| reflexivity].
  rewrite <- IH. now destruct (rmap_list f t).
Qed.

Lemma is_ok_dict_comprehension {A B : Type} (f : A -> result B) (d : dict A) :
  is_ok (dict_comprehension f d) = forallb (fun kv => is_ok (f (snd kv))) d.
Proof.
  unfold dict_comprehension, dict in *. rewrite is_ok_rmap_list.
  apply forallb_pointwise. intros kv. now destruct (f (snd kv)).
Qed.

Lemma thresholds_readable_spec (params : json) :
  is_ok (read_anomaly_thresholds params) = thresholds_readable params.
Proof.
  unfold read_anomaly_thresholds, thresholds_readable.
  destruct (py_subscript params "anomaly_thresholds") as [o |]; [| reflexivity].
  destruct o; try reflexivity. cbn [rbind py_items].
  rewrite is_ok_dict_comprehension. apply forallb_pointwise.
  intros [k v]. now destruct v.
Qed.

Lemma clusters_readable_spec (params : json) :
  is_ok (read_pattern_clusters params) = clusters_readable params.
Proof.
  unfold read_pattern_clusters, clusters_readable.
  destruct (py_subscript params "pattern_clusters") as [o |]; [| reflexivity].
  destruct o; try reflexivity. cbn [rbind py_items].
  rewrite is_ok_dict_comprehension. apply forallb_pointwise.
  intros [k v]. cbn [snd].
  destruct v; cbn [py_iter rbind centroids_readable]; try reflexivity;
    rewrite is_ok_rmap_list; reflexivity.
Qed.

Lemma has_key_subscript (obj : json) (k : string) :
  has_key k obj = is_ok (py_subscript obj k).
Proof.
  destruct obj; try reflexivity. cbn. unfold dict_mem.
  now destruct (dict_get k d).
Qed.

Lemma loadable_complete (params : json) :
  loadable params = true -> structurally_complete params = true.
Proof.
  unfold loadable, structurally_complete, thresholds_readable,
    clusters_readable, counters_present.
  rewrite (has_key_subscript params "anomaly_thresholds").
  rewrite (has_key_subscript params "pattern_clusters").
  destruct (has_key "feature_weights" params); [| discriminate].
  destruct (py_subscript params "anomaly_thresholds"); [| discriminate].
  destruct (py_subscript params "pattern_clusters");
    [| rewrite andb_false_r; discriminate].
  cbn [is_ok andb]. intros H. apply andb_prop in H. destruct H as [H ->].
  reflexivity.
Qed.

(** C2, as the code has it. [load_learned_parameters] never raises. It
    returns False for a file that cannot be read, for a record that lacks
    a field, for thresholds that are not a dict of iterable values and for
    clusters that are not a dict of iterable values of what [np.array]
    accepts; the weights and the two counters it takes as they stand, of
    whatever type. On failure nothing is rolled back. The loader assigns
    in the order feature_weights, anomaly_thresholds, pattern_clusters,
    update_count, total_samples: the fields before the first one it cannot
    read hold the record's values, that field's attribute and all later
    ones are as before the call. *)
Theorem load_incomplete_record (params : json) (before : LearnedAttrs) :
  let after := snd (load_learned_parameters (Ok params) before) in
  fst (load_learned_parameters (Ok params) before) = Ok (loadable params) /\
  (structurally_complete params = false -> loadable params = false) /\
  (forall e, load_learned_parameters (Raise e) before = (Ok false, before)) /\
  (has_key "feature_weights" params = false -> after = before) /\
  (forall fw, py_subscript params "feature_weights" = Ok fw ->
     (thresholds_readable params = false ->
      after = mkAttrs fw (attr_anomaly_thresholds before)
                (attr_pattern_clusters before) (attr_update_count before)
                (attr_total_samples before)) /\
     (forall th, read_anomaly_thresholds params = Ok th ->
        (clusters_readable params = false ->
         after = mkAttrs fw th (attr_pattern_clusters before)
                   (attr_update_count before) (attr_total_samples before)) /\
        (forall pc, read_pattern_clusters params = Ok pc ->
           (update_count_present params = false ->
            after = mkAttrs fw th pc (attr_update_count before)
                      (attr_total_samples before)) /\
           (forall metadata uc,
              py_subscript params "metadata" = Ok metadata ->
              py_subscript metadata "update_count" = Ok uc ->
              (has_key "total_samples" metadata = false ->
               after = mkAttrs fw th pc uc (attr_total_samples before)) /\
              (forall ts, py_subscript metadata "total_samples" = Ok ts ->
                          after = mkAttrs fw th pc uc ts))))).
Proof.
  cbv zeta.
  pose proof (thresholds_readable_spec params) as Rth.
  pose proof (clusters_readable_spec params) as Rpc.
  pose proof (loadable_complete params) as Rcomplete.
  unfold loadable, update_count_present, counters_present in *.
  rewrite !has_key_subscript in *.
  unfold load_learned_parameters, try_except, bind, lift, modify, ret,
    read_feature_weights.
  split; [| split; [| split; [reflexivity |]]].
  - destruct (py_subscript params "feature_weights"); cbn; [| reflexivity].
    rewrite <- Rth. destruct (read_anomaly_thresholds params); cbn;
      [| reflexivity].
    rewrite <- Rpc. destruct (read_pattern_clusters params); cbn;
      [| reflexivity].
    destruct (py_subscript params "metadata") as [md |]; cbn; [| reflexivity].
    rewrite !has_key_subscript.
    destruct (py_subscript md "update_count"); cbn; [| reflexivity].
    now destruct (py_subscript md "total_samples").
  - intros Hinc.
    destruct (is_ok (py_subscript params "feature_weights")
              && thresholds_readable params && clusters_readable params
              && match py_subscript params "metadata" with
                 | Ok metadata =>
                     has_key "update_count" metadata
                     && has_key "total_samples" metadata
                 | Raise _ => false
                 end); [| reflexivity].
    rewrite (Rcomplete eq_refl) in Hinc. discriminate.
  - split.
    + destruct (py_subscript params "feature_weights"); [discriminate |].
      reflexivity.
    + intros fw ->. cbn. split.
      * rewrite <- Rth. now destruct (read_anomaly_thresholds params).
      * intros th ->. cbn. split.
        -- rewrite <- Rpc. now destruct (read_pattern_clusters params).
        -- intros pc ->. cbn. split.
           ++ destruct (py_subscript params "metadata") as [md |]; cbn;
                [| reflexivity].
              rewrite has_key_subscript.
              now destruct (py_subscript md "update_count").
           ++ intros md uc -> ->. cbn. split.
              ** rewrite has_key_subscript.
                 now destruct (py_subscript md "total_samples").
              ** now intros ts ->.
Qed.

(** ** What each update step can change *)

Lemma weights_step_preserves {X : Type} (p : World -> X) :
  ignores_weights p -> preserves p _update_feature_weights.
Proof.
  intros Hp. unfold _update_feature_weights.
  apply preserves_bind; auto with frame.
  intros buf. apply preserves_for_each. intros [sid exps] _.
  unfold weights_of_group.
  destruct (Nat.ltb _ 2); auto with frame.
  destruct (mixed_lengths exps); auto with frame.
  destruct exps as [| first rest]; auto with frame.
  destruct (Rgtb _ 0); auto with frame.
  apply preserves_for_each. intros [i name] _. unfold weight_of_feature.
  apply preserves_bind; auto with frame.
  intros x. unfold store_weight. apply preserves_bind; auto with frame.
  intros fw. destruct (dict_get _ fw); intro w; apply Hp.
Qed.

Lemma thresholds_step_preserves {X : Type} (p : World -> X) :
  ignores_thresholds p -> preserves p _update_anomaly_thresholds.
Proof.
  intros Hp. unfold _update_anomaly_thresholds.
  apply preserves_bind; auto with frame.
  intros buf. apply preserves_for_each. intros [sid exps] _.
  unfold thresholds_of_group.
  destruct (Nat.ltb _ 5); auto with frame.
  destruct (mixed_lengths exps); auto with frame.
  destruct exps as [| first rest]; auto with frame.
  apply preserves_for_each. intros [i name] _. unfold threshold_of_feature.
  apply preserves_bind; auto with frame.
  intros m. apply preserves_bind; auto with frame.
  intros sd. unfold store_threshold. apply preserves_bind; auto with frame.
  intros th. destruct (dict_get _ th) as [[lo hi] |]; intro w; apply Hp.
Qed.

Lemma clusters_step_preserves {X : Type} (p : World -> X) (k : nat) :
  ignores_clusters p -> ignores_generator p ->
  preserves p (_update_pattern_clusters k).
Proof.
  intros Hp Hg. unfold _update_pattern_clusters.
  apply preserves_bind; auto with frame.
  intros buf. apply preserves_for_each. intros [sid exps] _.
  unfold clusters_of_group.
  destruct (Nat.ltb _ k); auto with frame.
  destruct (mixed_lengths exps); auto with frame.
  apply preserves_bind; auto with frame.
  intros known. apply preserves_bind.
  - destruct (dict_mem sid known); auto with frame.
    apply preserves_bind.
    + intro w. unfold random_choice.
      destruct (np_random_choice _ _ (np_random w)) as [ix g]. apply Hg.
    + intros ix. apply preserves_bind; auto with frame.
      intros seeds w. apply Hp.
  - intros _. apply preserves_bind; auto with frame.
    intros current. destruct (dict_get sid current); auto with frame.
    apply preserves_bind; auto with frame.
    intros new_clusters w. apply Hp.
Qed.



(** ** When add_experience runs an update pass *)

Lemma add_experience_unfold (now : R) (f : ProcessedFeatures)
  (label : option string) (reward : option R) (w : World) :
  let w1 := recorded now f label reward w in
  let n := List.length (experience_buffer (self w1)) in
  add_experience now f label reward w
  = (if Z.leb (update_threshold (self w)) (Z.of_nat n) && Nat.leb 2 n
     then update_pass w1 else (Ok tt, w1)).
Proof.
  cbv zeta.
  unfold add_experience, bind, update, modify, reads, gets, _incremental_update.
  simpl. fold (recorded now f label reward w).
  destruct (Z.leb _ _); simpl; [| reflexivity].
  unfold bind. simpl.
  destruct (List.length _) as [| [| n]]; reflexivity.
Qed.

(** ** Groups of mixed feature lengths *)

Lemma dict_remove_set_same {A : Type} (k : string) (v : A) (d : dict A) :
  dict_remove k (dict_set k v d) = dict_remove k d.
Proof.
  unfold dict_remove. induction d as [| [k' v'] t IH]; simpl.
  - now rewrite String.eqb_refl.
  - destruct (String.eqb k k') eqn:E; simpl; rewrite ?String.eqb_refl, ?E; simpl.
    + reflexivity.
    + now rewrite IH.
Qed.

Lemma dict_remove_set_other {A : Type} (k k' : string) (v : A) (d : dict A) :
  k <> k' ->
  dict_remove k (dict_set k' v d) = dict_set k' v (dict_remove k d).
Proof.
  intros Hne. unfold dict_remove. induction d as [| [k2 v2] t IH]; simpl.
  - destruct (String.eqb_spec k k'); [contradiction | reflexivity].
  - destruct (String.eqb_spec k' k2) as [-> | Hk2]; simpl.
    + destruct (String.eqb_spec k k2); [contradiction |]. simpl.
      now rewrite String.eqb_refl.
    + destruct (String.eqb_spec k k2); simpl.
      * exact IH.
      * destruct (String.eqb_spec k' k2); [contradiction |]. now rewrite IH.
Qed.

Lemma dict_get_remove_other {A : Type} (k k' : string) (d : dict A) :
  k <> k' -> dict_get k' (dict_remove k d) = dict_get k' d.
Proof.
  intros Hne. unfold dict_remove. induction d as [| [k2 v2] t IH]; simpl.
  - reflexivity.
  - destruct (String.eqb_spec k k2) as [-> | Hk2]; simpl.
    + destruct (String.eqb_spec k' k2); [congruence | exact IH].
    + destruct (String.eqb_spec k' k2); [reflexivity | exact IH].
Qed.

Lemma dict_remove_absent {A : Type} (k : string) (d : dict A) :
  dict_get k d = None -> dict_remove k d = d.
Proof.
  unfold dict_remove. induction d as [| [k2 v2] t IH]; simpl.
  - reflexivity.
  - destruct (String.eqb k k2); [discriminate |].
    intros H. simpl. now rewrite IH.
Qed.

Lemma add_to_group_remove_same (sid : string) (groups : dict (list Experience))
  (e : Experience) :
  exp_sensor_id e = sid ->
  dict_remove sid (add_to_group groups e) = dict_remove sid groups.
Proof.
  intros <-. unfold add_to_group, dict_mem.
  destruct (dict_get (exp_sensor_id e) groups) as [g |] eqn:E.
  - rewrite E. apply dict_remove_set_same.
  - rewrite dict_get_set_same. now rewrite !dict_remove_set_same.
Qed.

Lemma add_to_group_remove_other (sid : string) (groups : dict (list Experience))
  (e : Experience) :
  exp_sensor_id e <> sid ->
  dict_remove sid (add_to_group groups e)
  = add_to_group (dict_remove sid groups) e.
Proof.
  intros Hne. unfold add_to_group, dict_mem.
  assert (Hne' : sid <> exp_sensor_id e) by congruence.
  rewrite (dict_get_remove_other groups Hne').
  destruct (dict_get (exp_sensor_id e) groups) as [g |] eqn:E.
  - rewrite (dict_get_remove_other groups Hne'), E.
    now apply dict_remove_set_other.
  - rewrite !dict_get_set_same.
    rewrite !(dict_remove_set_other _ _ Hne'). reflexivity.
Qed.

Lemma fold_groups_without (sid : string) (buf : list Experience) :
  forall groups,
    fold_left add_to_group (without_sensor sid buf) (dict_remove sid groups)
    = dict_remove sid (fold_left add_to_group buf groups).
Proof.
  induction buf as [| e t IH]; intros groups; simpl.
  - reflexivity.
  - destruct (String.eqb_spec sid (exp_sensor_id e)) as [Heq | Hne]; simpl.
    + rewrite <- IH. now rewrite add_to_group_remove_same.
    + rewrite <- IH. rewrite add_to_group_remove_other by congruence.
      reflexivity.
Qed.

Lemma group_by_sensor_without (sid : string) (buf : list Experience) :
  group_by_sensor (without_sensor sid buf)
  = dict_remove sid (group_by_sensor buf).
Proof.
  unfold group_by_sensor. rewrite <- fold_groups_without. reflexivity.
Qed.

Lemma dict_set_set {A : Type} (k : string) (v v' : A) (d : dict A) :
  dict_set k v (dict_set k v' d) = dict_set k v d.
Proof.
  induction d as [| [k2 v2] t IH]; simpl.
  - now rewrite String.eqb_refl.
  - destruct (String.eqb k k2) eqn:E; simpl; rewrite ?String.eqb_refl, ?E.
    + reflexivity.
    + now rewrite IH.
Qed.

Lemma dict_get_none_keys {A : Type} (k : string) (d : dict A) :
  dict_get k d = None -> ~ In k (map fst d).
Proof.
  clear_unused.
  induction d as [| [k2 v2] t IH]; simpl.
  - tauto.
  - destruct (String.eqb_spec k k2); [discriminate |].
    intros H [Heq | Hin]; [congruence | now apply IH].
Qed.

Lemma dict_get_in {A : Type} (k : string) (v : A) (d : dict A) :
  NoDup (map fst d) -> In (k, v) d -> dict_get k d = Some v.
Proof.
  clear_unused.
  induction d as [| [k2 v2] t IH]; simpl; [tauto |].
  intros Hnd [[= -> ->] | Hin].
  - now rewrite String.eqb_refl.
  - inversion Hnd as [| ? ? Hnotin Hnd']; subst.
    destruct (String.eqb_spec k k2) as [-> | Hne].
    + exfalso. apply Hnotin. now apply (in_map fst) in Hin.
    + now apply IH.
Qed.

Lemma dict_get_some_in {A : Type} (k : string) (v : A) (d : dict A) :
  dict_get k d = Some v -> In (k, v) d.
Proof.
  induction d as [| [k2 v2] t IH]; simpl; [discriminate |].
  destruct (String.eqb_spec k k2) as [-> | Hne].
  - intros [= ->]. now left.
  - intros H. right. now apply IH.
Qed.

Lemma dict_set_keys {A : Type} (k : string) (v : A) (d : dict A) :
  map fst (dict_set k v d)
  = if dict_mem k d then map fst d else map fst d ++ [k].
Proof.
  unfold dict_mem. induction d as [| [k2 v2] t IH]; simpl.
  - reflexivity.
  - destruct (String.eqb_spec k k2) as [-> | Hne]; simpl.
    + reflexivity.
    + rewrite IH. now destruct (dict_get k t).
Qed.

Lemma dict_set_nodup {A : Type} (k : string) (v : A) (d : dict A) :
  NoDup (map fst d) -> NoDup (map fst (dict_set k v d)).
Proof.
  clear_unused.
  intros Hnd. rewrite dict_set_keys. unfold dict_mem.
  destruct (dict_get k d) eqn:E; [exact Hnd |].
  apply NoDup_app; [exact Hnd | repeat constructor; simpl; tauto |].
  intros x Hx [<- | []]. now apply (dict_get_none_keys _ _ E).
Qed.

Lemma add_to_group_eq (groups : dict (list Experience)) (e : Experience) :
  add_to_group groups e
  = dict_set (exp_sensor_id e)
      (match dict_get (exp_sensor_id e) groups with
       | Some g => g ++ [e]
       | None => [e]
       end) groups.
Proof.
  unfold add_to_group, dict_mem.
  destruct (dict_get (exp_sensor_id e) groups) as [g |] eqn:E.
  - now rewrite E.
  - rewrite dict_get_set_same. simpl. apply dict_set_set.
Qed.

Lemma of_sensor_app (k : string) (b1 b2 : list Experience) :
  of_sensor k (b1 ++ b2) = of_sensor k b1 ++ of_sensor k b2.
Proof. apply filter_app. Qed.

Lemma add_to_group_groups_of (buf : list Experience)
  (groups : dict (list Experience)) (e : Experience) :
  groups_of buf groups -> groups_of (buf ++ [e]) (add_to_group groups e).
Proof.
  intros [Hnd Hget]. rewrite add_to_group_eq. split.
  - now apply dict_set_nodup.
  - intros k. rewrite of_sensor_app. unfold of_sensor at 2 4. simpl.
    destruct (String.eqb_spec k (exp_sensor_id e)) as [-> | Hne].
    + rewrite dict_get_set_same. specialize (Hget (exp_sensor_id e)).
      destruct (dict_get (exp_sensor_id e) groups); now rewrite Hget.
    + rewrite (dict_get_set_other _ _ Hne). specialize (Hget k).
      rewrite app_nil_r. exact Hget.
Qed.

Lemma fold_groups_of (buf : list Experience) :
  forall seen groups,
    groups_of seen groups ->
    groups_of (seen ++ buf) (fold_left add_to_group buf groups).
Proof.
  induction buf as [| e t IH]; intros seen groups H; simpl.
  - now rewrite app_nil_r.
  - replace (seen ++ e :: t) with ((seen ++ [e]) ++ t)
      by (rewrite <- app_assoc; reflexivity).
    apply IH. now apply add_to_group_groups_of.
Qed.

Lemma group_by_sensor_groups_of (buf : list Experience) :
  groups_of buf (group_by_sensor buf).
Proof.
  apply (fold_groups_of buf (seen := []) (groups := [])).
  split; [constructor | intros k; reflexivity].
Qed.

Lemma group_by_sensor_entry (buf : list Experience) (k : string)
  (g : list Experience) :
  In (k, g) (group_by_sensor buf) -> g = of_sensor k buf.
Proof.
  intros Hin. destruct (group_by_sensor_groups_of buf) as [Hnd Hget].
  specialize (Hget k). now rewrite (dict_get_in _ _ _ Hnd Hin) in Hget.
Qed.

(** A loop passes over the entries its body skips. *)
Lemma for_each_skip {S A : Type} (keep : A -> bool) (l : list A)
  (body : A -> M S unit) :
  (forall x, In x l -> keep x = false -> forall s, body x s = (Ok tt, s)) ->
  forall s, for_each l body s = for_each (filter keep l) body s.
Proof.
  induction l as [| x t IH]; intros Hskip s; simpl.
  - reflexivity.
  - destruct (keep x) eqn:E; simpl; unfold bind.
    + destruct (body x s) as [[[] | e] s']; [| reflexivity].
      apply IH. intros y Hy. apply Hskip. now right.
    + rewrite (Hskip x (or_introl eq_refl) E s).
      apply IH. intros y Hy. apply Hskip. now right.
Qed.

Lemma mixed_group_skipped (sid : string) (exps : list Experience) (w : World) :
  mixed_lengths exps = true ->
  weights_of_group (sid, exps) w = (Ok tt, w) /\
  thresholds_of_group (sid, exps) w = (Ok tt, w) /\
  forall k, clusters_of_group k (sid, exps) w = (Ok tt, w).
Proof.
  intros Hmixed. unfold weights_of_group, thresholds_of_group, clusters_of_group.
  rewrite Hmixed. repeat split; intros; now destruct (Nat.ltb _ _).
Qed.

(** *** The steps read the buffer once, to group it *)

Lemma blind_ret {A : Type} (a : A) : buffer_blind (ret a).
Proof. intros b w. reflexivity. Qed.

Lemma blind_raise {A : Type} (e : exn) : buffer_blind (@raise World A e).
Proof. intros b w. reflexivity. Qed.

Lemma blind_lift {A : Type} (r : result A) : buffer_blind (@lift World A r).
Proof. intros b w. reflexivity. Qed.

Lemma blind_bind {A B : Type} (m : M World A) (k : A -> M World B) :
  buffer_blind m -> (forall a, buffer_blind (k a)) -> buffer_blind (bind m k).
Proof.
  intros Hm Hk b w. unfold bind. rewrite Hm.
  destruct (m w) as [[a | e] w']; simpl; [apply Hk | reflexivity].
Qed.

Lemma blind_for_each {A : Type} (l : list A) (body : A -> M World unit) :
  (forall x, buffer_blind (body x)) -> buffer_blind (for_each l body).
Proof.
  intros Hbody. induction l as [| x t IH]; simpl.
  - apply blind_ret.
  - apply blind_bind; [apply Hbody | intros _; exact IH].
Qed.

Lemma blind_reads {A : Type} (f : IncrementalLearner -> A) :
  (forall b l, f (with_experience_buffer b l) = f l) -> buffer_blind (reads f).
Proof. intros Hf b w. unfold reads, gets. simpl. now rewrite Hf. Qed.

Lemma blind_update (f : IncrementalLearner -> IncrementalLearner) :
  (forall b l, f (with_experience_buffer b l) = with_experience_buffer b (f l)) ->
  buffer_blind (update f).
Proof.
  intros Hf b w. unfold update, modify, set_buffer. simpl. now rewrite Hf.
Qed.

Lemma blind_random_choice (n k : nat) : buffer_blind (random_choice n k).
Proof.
  intros b w. unfold random_choice, set_buffer. simpl.
  destruct (np_random_choice n k (np_random w)). reflexivity.
Qed.

#[local] Hint Resolve blind_ret blind_raise blind_lift blind_random_choice : frame.

Lemma weights_of_group_blind (g : string * list Experience) :
  buffer_blind (weights_of_group g).
Proof.
  destruct g as [sid exps]. unfold weights_of_group.
  destruct (Nat.ltb _ 2); auto with frame.
  destruct (mixed_lengths exps); auto with frame.
  destruct exps as [| first rest]; auto with frame.
  destruct (Rgtb _ 0); auto with frame.
  apply blind_for_each. intros [i name]. unfold weight_of_feature.
  apply blind_bind; auto with frame.
  intros x. unfold store_weight. apply blind_bind.
  - now apply blind_reads.
  - intros fw. destruct (dict_get _ fw); now apply blind_update.
Qed.

Lemma thresholds_of_group_blind (g : string * list Experience) :
  buffer_blind (thresholds_of_group g).
Proof.
  destruct g as [sid exps]. unfold thresholds_of_group.
  destruct (Nat.ltb _ 5); auto with frame.
  destruct (mixed_lengths exps); auto with frame.
  destruct exps as [| first rest]; auto with frame.
  apply blind_for_each. intros [i name]. unfold threshold_of_feature.
  apply blind_bind; auto with frame.
  intros m. apply blind_bind; auto with frame.
  intros sd. unfold store_threshold. apply blind_bind.
  - now apply blind_reads.
  - intros th. destruct (dict_get _ th) as [[lo hi] |]; now apply blind_update.
Qed.

Lemma clusters_of_group_blind (k : nat) (g : string * list Experience) :
  buffer_blind (clusters_of_group k g).
Proof.
  destruct g as [sid exps]. unfold clusters_of_group.
  destruct (Nat.ltb _ k); auto with frame.
  destruct (mixed_lengths exps); auto with frame.
  apply blind_bind; [now apply blind_reads |].
  intros known. apply blind_bind.
  - destruct (dict_mem sid known); auto with frame.
    apply blind_bind; auto with frame.
    intros ix. apply blind_bind; auto with frame.
    intros seeds. now apply blind_update.
  - intros _. apply blind_bind; [now apply blind_reads |].
    intros current. destruct (dict_get sid current); auto with frame.
    apply blind_bind; auto with frame.
    intros new_clusters. now apply blind_update.
Qed.

(** A step that groups the buffer and whose loop body skips the groups
    of mixed lengths does on the whole buffer what it does on the buffer
    without the experiences of a sensor whose group is mixed. *)
Lemma step_without_mixed (body : string * list Experience -> M World unit) :
  (forall g, buffer_blind (body g)) ->
  (forall sid exps w, mixed_lengths exps = true -> body (sid, exps) w = (Ok tt, w)) ->
  forall sid w,
    mixed_lengths (of_sensor sid (experience_buffer (self w))) = true ->
    let step := buf <- reads experience_buffer ;;
                for_each (group_by_sensor buf) body in
    let rest := without_sensor sid (experience_buffer (self w)) in
    step (set_buffer rest w) = (fst (step w), set_buffer rest (snd (step w))).
Proof.
  intros Hblind Hskip sid w Hmixed. cbv zeta.
  unfold bind, reads, gets. simpl.
  rewrite group_by_sensor_without.
  rewrite (@blind_for_each _ _ body Hblind).
  rewrite (@for_each_skip _ _ (fun kv => negb (String.eqb sid (fst kv)))
             (group_by_sensor (experience_buffer (self w))) body).
  - reflexivity.
  - intros [k g] Hin Hkeep. simpl in Hkeep.
    destruct (String.eqb_spec sid k) as [<- | Hne]; [| discriminate].
    apply group_by_sensor_entry in Hin. subst g.
    intros w'. now apply Hskip.
Qed.

(** C4, as the code has it. When the buffered experiences of a sensor do
    not all have one feature-vector length, each of the three steps of an
    update pass skips that sensor's group whole: none of its experiences
    enters a statistic, whatever their lengths. The step returns or raises
    as it does on the buffer without these experiences, and it leaves the
    same weights, thresholds, clusters and counters; the group raises no
    error of its own. *)
Theorem mixed_group_contributes_nothing (sid : string) (w : World) :
  mixed_lengths (of_sensor sid (experience_buffer (self w))) = true ->
  let rest := without_sensor sid (experience_buffer (self w)) in
  _update_feature_weights (set_buffer rest w)
  = (fst (_update_feature_weights w),
     set_buffer rest (snd (_update_feature_weights w))) /\
  _update_anomaly_thresholds (set_buffer rest w)
  = (fst (_update_anomaly_thresholds w),
     set_buffer rest (snd (_update_anomaly_thresholds w))) /\
  _update_pattern_clusters 5 (set_buffer rest w)
  = (fst (_update_pattern_clusters 5 w),
     set_buffer rest (snd (_update_pattern_clusters 5 w))) /\
  In (sid, of_sensor sid (experience_buffer (self w)))
     (group_by_sensor (experience_buffer (self w))) /\
  forall w',
    weights_of_group (sid, of_sensor sid (experience_buffer (self w))) w'
    = (Ok tt, w') /\
    thresholds_of_group (sid, of_sensor sid (experience_buffer (self w))) w'
    = (Ok tt, w') /\
    clusters_of_group 5 (sid, of_sensor sid (experience_buffer (self w))) w'
    = (Ok tt, w').
Proof.
  intros Hmixed. cbv zeta. repeat apply conj.
  - apply (@step_without_mixed weights_of_group weights_of_group_blind); auto.
    intros s e w' H. now apply mixed_group_skipped.
  - apply (@step_without_mixed thresholds_of_group thresholds_of_group_blind);
      auto.
    intros s e w' H. now apply mixed_group_skipped.
  - apply (@step_without_mixed (clusters_of_group 5) (clusters_of_group_blind 5));
      auto.
    intros s e w' H. now apply mixed_group_skipped.
  - apply dict_get_some_in.
    destruct (group_by_sensor_groups_of (experience_buffer (self w))) as [_ Hget].
    specialize (Hget sid).
    destruct (dict_get sid _); [now subst |].
    rewrite Hget in Hmixed. discriminate.
  - intros w'. destruct (@mixed_group_skipped sid _ w' Hmixed) as (H1 & H2 & H3).
    auto.
Qed.

(** ** Anomaly detection *)

Lemma in_enumerate_from {A : Type} (l : list A) :
  forall start i x,
    In (i, x) (combine (seq start (List.length l)) l) ->
    (start <= i)%nat /\ nth_error l (i - start) = Some x.
Proof.
  clear_unused.
  induction l as [| y t IH]; intros start i x; simpl; [tauto |].
  intros [[= <- <-] | Hin].
  - split; [lia |]. now rewrite Nat.sub_diag.
  - destruct (IH _ _ _ Hin) as [Hle Hnth]. split; [lia |].
    replace (i - start)%nat with (S (i - S start)) by lia. exact Hnth.
Qed.

Lemma in_enumerate {A : Type} (l : list A) (i : nat) (x : A) :
  In (i, x) (enumerate l) -> nth_error l i = Some x.
Proof.
  intros Hin. apply in_enumerate_from in Hin.
  now rewrite Nat.sub_0_r in Hin.
Qed.

Lemma enumerate_in_from {A : Type} (l : list A) :
  forall start i x,
    nth_error l i = Some x ->
    In ((start + i)%nat, x) (combine (seq start (List.length l)) l).
Proof.
  induction l as [| y t IH]; intros start [| i] x; simpl; try discriminate.
  - intros [= ->]. left. now rewrite Nat.add_0_r.
  - intros H. right. replace (start + S i)%nat with (S start + i)%nat by lia.
    now apply IH.
Qed.

Lemma enumerate_in {A : Type} (l : list A) (i : nat) (x : A) :
  nth_error l i = Some x -> In (i, x) (enumerate l).
Proof. intros H. exact (enumerate_in_from l 0 i H). Qed.

Lemma score_feature_run (f : ProcessedFeatures) (w : World) (scores : list R)
  (i : nat) (name : string) :
  (dict_get (feature_key (sensor_id f) name) (anomaly_thresholds (self w)) <> None ->
   (i < List.length (features f))%nat) ->
  score_feature f scores (i, name) w
  = (Ok (scores ++ scores_by feature_score (anomaly_thresholds (self w))
                     (sensor_id f) (features f) [(i, name)]), w).
Proof.
  intros Hidx. unfold score_feature, scores_by, bind, reads, gets, lift, index.
  simpl.
  destruct (dict_get _ (anomaly_thresholds (self w))) as [[lower upper] |].
  - assert (Hi : (i < List.length (features f))%nat) by (apply Hidx; congruence).
    apply nth_error_Some in Hi.
    destruct (nth_error (features f) i) as [value |]; [| congruence].
    unfold triggers.
    destruct (Rltb value lower || Rgtb value upper); simpl;
      now rewrite ?app_nil_r.
  - simpl. now rewrite app_nil_r.
Qed.

(** The loop of [detect_anomaly], unrolled: when every listed position
    with a learned band exists in the feature vector, the loop appends
    the scores of the triggering features and raises nothing. *)
Lemma detect_loop (f : ProcessedFeatures) (w : World) (items : list (nat * string)) :
  (forall i name, In (i, name) items ->
     dict_get (feature_key (sensor_id f) name) (anomaly_thresholds (self w)) <> None ->
     (i < List.length (features f))%nat) ->
  forall scores,
    for_fold items scores (score_feature f) w
    = (Ok (scores ++ scores_by feature_score (anomaly_thresholds (self w))
                       (sensor_id f) (features f) items), w).
Proof.
  induction items as [| [i name] t IH]; intros Hidx scores.
  - simpl. now rewrite app_nil_r.
  - cbn [for_fold]. unfold bind.
    rewrite score_feature_run by (apply Hidx; now left).
    rewrite IH by (intros; eapply Hidx; eauto; now right).
    unfold scores_by. cbn [flat_map]. rewrite app_nil_r, <- app_assoc.
    reflexivity.
Qed.

Lemma detect_anomaly_unrolled (f : ProcessedFeatures) (w : World) :
  (forall i name, nth_error (feature_names f) i = Some name ->
     dict_get (feature_key (sensor_id f) name) (anomaly_thresholds (self w)) <> None ->
     (i < List.length (features f))%nat) ->
  detect_anomaly f w
  = (Ok (match scores_by feature_score (anomaly_thresholds (self w))
                 (sensor_id f) (features f) (enumerate (feature_names f)) with
         | [] => (false, 0)
         | s :: t => (true, np_mean (s :: t))
         end), w).
Proof.
  intros Hidx. unfold detect_anomaly, bind.
  rewrite detect_loop.
  - simpl. now destruct (scores_by _ _ _ _ _).
  - intros i name Hin. apply Hidx. now apply in_enumerate.
Qed.

Lemma feature_score_nearer (lower upper value : R) :
  lower <= upper -> triggers lower upper value = true ->
  feature_score lower upper value = out_of_band_score lower upper value.
Proof.
  intros Hband. unfold triggers, feature_score, out_of_band_score, nearer_bound,
    Rgtb, Rltb.
  destruct (Rlt_dec value lower) as [Hlo | Hlo]; simpl.
  - intros _.
    destruct (Rle_dec _ _) as [Hn | Hn].
    + destruct (Req_dec_T lower 0); [reflexivity |].
      f_equal. rewrite Rabs_left; lra.
    + exfalso. apply Hn. rewrite !Rabs_left by lra. lra.
  - destruct (Rlt_dec upper value) as [Hup | Hup]; [intros _ | discriminate].
    destruct (Rle_dec _ _) as [Hn | Hn].
    + assert (lower = upper).
      { rewrite !Rabs_right in Hn by lra. lra. }
      subst lower. destruct (Req_dec_T upper 0); [reflexivity |].
      f_equal. rewrite Rabs_right; lra.
    + destruct (Req_dec_T upper 0); [reflexivity |].
      f_equal. rewrite Rabs_right; lra.
Qed.

Lemma feature_score_positive (lower upper value : R) :
  triggers lower upper value = true -> 0 < feature_score lower upper value.
Proof.
  unfold triggers, feature_score, Rgtb, Rltb.
  destruct (Rlt_dec value lower) as [Hlo | Hlo]; simpl.
  - intros _. destruct (Req_dec_T lower 0); [lra |].
    apply Rdiv_lt_0_compat; [lra | now apply Rabs_pos_lt].
  - destruct (Rlt_dec upper value) as [Hup | Hup]; [intros _ | discriminate].
    destruct (Req_dec_T upper 0); [lra |].
    apply Rdiv_lt_0_compat; [lra | now apply Rabs_pos_lt].
Qed.

Lemma scores_by_ext (score score' : R -> R -> R -> R) (th : dict (R * R))
  (sid : string) (feats : vec) (items : list (nat * string)) :
  (forall i name lower upper value,
     In (i, name) items ->
     dict_get (feature_key sid name) th = Some (lower, upper) ->
     triggers lower upper value = true ->
     score lower upper value = score' lower upper value) ->
  scores_by score th sid feats items = scores_by score' th sid feats items.
Proof.
  induction items as [| [i name] t IH]; intros Hext; simpl; [reflexivity |].
  rewrite IH
    by (intros i0 n0 lo hi v H1 H2 H3; apply (Hext i0 n0 lo hi v); auto; now right).
  f_equal.
  destruct (dict_get _ th) as [[lower upper] |] eqn:E; [| reflexivity].
  destruct (nth_error feats i) as [value |]; [| reflexivity].
  destruct (triggers lower upper value) eqn:T; [| reflexivity].
  f_equal. eapply Hext; eauto. now left.
Qed.

Lemma scores_by_none (score : R -> R -> R -> R) (th : dict (R * R))
  (sid : string) (feats : vec) (items : list (nat * string)) :
  (forall i name lower upper value,
     In (i, name) items ->
     dict_get (feature_key sid name) th = Some (lower, upper) ->
     nth_error feats i = Some value ->
     triggers lower upper value = false) ->
  scores_by score th sid feats items = [].
Proof.
  induction items as [| [i name] t IH]; intros Hin; simpl; [reflexivity |].
  rewrite IH
    by (intros i0 n0 lo hi v H1 H2 H3; apply (Hin i0 n0 lo hi v); auto; now right).
  rewrite app_nil_r.
  destruct (dict_get _ th) as [[lower upper] |] eqn:E; [| reflexivity].
  destruct (nth_error feats i) as [value |] eqn:N; [| reflexivity].
  now rewrite (Hin i name lower upper value (or_introl eq_refl) E N).
Qed.

Lemma within_band_no_trigger (lower upper value : R) :
  lower <= value <= upper -> triggers lower upper value = false.
Proof.
  intros [H1 H2]. unfold triggers, Rgtb, Rltb.
  destruct (Rlt_dec value lower); [lra |].
  destruct (Rlt_dec upper value); [lra | reflexivity].
Qed.

(** C6. [detect_anomaly] returns (False, 0.0) when no feature of the
    record has a learned threshold, and when every feature that has one
    lies within its band. When features trigger, the record is anomalous
    and the score is the mean of the triggered scores, each the distance
    beyond the nearer bound over that bound's absolute value, or 1 when
    that bound is zero. The record's name list is parallel to its vector,
    and a band has its lower bound at or below its upper bound. *)
Theorem detect_anomaly_scores (f : ProcessedFeatures) (w : World) :
  let th := anomaly_thresholds (self w) in
  ((forall name, In name (feature_names f) ->
      dict_get (feature_key (sensor_id f) name) th = None) ->
   detect_anomaly f w = (Ok (false, 0), w)) /\
  (List.length (feature_names f) = List.length (features f) ->
   (forall i name lower upper value,
      nth_error (feature_names f) i = Some name ->
      dict_get (feature_key (sensor_id f) name) th = Some (lower, upper) ->
      nth_error (features f) i = Some value ->
      lower <= value <= upper) ->
   detect_anomaly f w = (Ok (false, 0), w)) /\
  (List.length (feature_names f) = List.length (features f) ->
   (forall name lower upper,
      In name (feature_names f) ->
      dict_get (feature_key (sensor_id f) name) th = Some (lower, upper) ->
      lower <= upper) ->
   triggered_scores th f <> [] ->
   detect_anomaly f w = (Ok (true, np_mean (triggered_scores th f)), w)).
Proof.
  cbv zeta.
  assert (Hpar : List.length (feature_names f) = List.length (features f) ->
                 forall i name, nth_error (feature_names f) i = Some name ->
                   dict_get (feature_key (sensor_id f) name)
                     (anomaly_thresholds (self w)) <> None ->
                   (i < List.length (features f))%nat).
  { intros Hlen i name Hn _. rewrite <- Hlen. apply nth_error_Some. congruence. }
  repeat apply conj.
  - intros Hnone. rewrite detect_anomaly_unrolled.
    + rewrite scores_by_none; [reflexivity |].
      intros i name lower upper value Hin Hget.
      apply in_enumerate, nth_error_In in Hin.
      rewrite (Hnone name Hin) in Hget. discriminate.
    + intros i name Hn Hget. apply nth_error_In in Hn.
      now rewrite (Hnone name Hn) in Hget.
  - intros Hlen Hin. rewrite detect_anomaly_unrolled by (apply Hpar; exact Hlen).
    rewrite scores_by_none; [reflexivity |].
    intros i name lower upper value Hi Hget Hv.
    apply within_band_no_trigger. apply in_enumerate in Hi. eauto.
  - intros Hlen Hband Hsome. rewrite detect_anomaly_unrolled by (apply Hpar; exact Hlen).
    unfold triggered_scores in *.
    rewrite (@scores_by_ext feature_score out_of_band_score).
    + destruct (scores_by out_of_band_score _ _ _ _); [congruence | reflexivity].
    + intros i name lower upper value Hi Hget Ht.
      apply feature_score_nearer; [| exact Ht].
      apply in_enumerate, nth_error_In in Hi. eauto.
Qed.

(** ** Constant features *)





Lemma np_mean_positive (l : list R) :
  l <> [] -> Forall (fun x => 0 < x) l -> 0 < np_mean l.
Proof.
  intros Hne Hpos. unfold np_mean.
  apply Rdiv_lt_0_compat.
  - destruct l as [| x t]; [congruence |]. clear Hne.
    inversion Hpos as [| ? ? Hx Ht]; subst. clear Hpos.
    change (0 < x + np_sum t).
    assert (0 <= np_sum t).
    { induction Ht as [| y t' Hy _ IH]; simpl; lra. }
    lra.
  - destruct l; [congruence |]. apply lt_0_INR. simpl. lia.
Qed.




Lemma scores_by_positive (th : dict (R * R)) (sid : string) (feats : vec)
  (items : list (nat * string)) :
  Forall (fun x => 0 < x) (scores_by feature_score th sid feats items).
Proof.
  unfold scores_by. induction items as [| [i name] t IH]; simpl.
  - constructor.
  - apply Forall_app. split; [| exact IH].
    destruct (dict_get _ th) as [[lower upper] |]; [| constructor].
    destruct (nth_error feats i) as [value |]; [| constructor].
    destruct (triggers lower upper value) eqn:T; [| constructor].
    repeat constructor. now apply feature_score_positive.
Qed.







Section ConstantFeature.

Variable key : string.
Variable v : R.

(** [np.mean] and [np.std] of a column as the library computes them. *)
Variables mean_of std_of : list R -> R.








End ConstantFeature.

(** ** An update pass reads the whole buffer *)

Unset Implicit Arguments.

Lemma add_to_group_same (sid : string) (g : list Experience) (e : Experience) :
  exp_sensor_id e = sid -> add_to_group [(sid, g)] e = [(sid, g ++ [e])].
Proof.
  clear_unused.
  intros <-. unfold add_to_group, dict_mem. cbn.
  rewrite String.eqb_refl. cbn. now rewrite String.eqb_refl.
Qed.

Lemma group_by_sensor_single (sid : string) (first : Experience)
  (rest : list Experience) :
  (forall e, In e (first :: rest) -> exp_sensor_id e = sid) ->
  group_by_sensor (first :: rest) = [(sid, first :: rest)].
Proof.
  clear_unused.
  intros Hsid. unfold group_by_sensor. cbn [fold_left].
  assert (Hfirst : add_to_group [] first = [(sid, [first])]).
  { unfold add_to_group, dict_mem. cbn.
    rewrite (Hsid first (or_introl eq_refl)). now rewrite String.eqb_refl. }
  rewrite Hfirst.
  assert (Hfold : forall t g,
            (forall e, In e t -> exp_sensor_id e = sid) ->
            fold_left add_to_group t [(sid, g)] = [(sid, g ++ t)]).
  { induction t as [| e t IH]; intros g Ht; cbn [fold_left].
    - now rewrite app_nil_r.
    - rewrite add_to_group_same by (apply Ht; now left).
      rewrite IH by (intros e' He'; apply Ht; now right).
      now rewrite <- app_assoc. }
  apply (Hfold rest [first]). intros e He. apply Hsid. now right.
Qed.

Lemma nodup_constant (a : nat) (l : list nat) :
  (forall x, In x l -> x = a) -> (List.length (nodup Nat.eq_dec l) <= 1)%nat.
Proof.
  clear_unused.
  induction l as [| x t IH]; intros Hall; cbn [nodup]; [cbn; lia |].
  destruct (in_dec Nat.eq_dec x t) as [Hin | Hout].
  - apply IH. intros y Hy. apply Hall. now right.
  - destruct t as [| y t']; [cbn; lia |]. exfalso. apply Hout.
    rewrite (Hall x (or_introl eq_refl)).
    rewrite <- (Hall y (or_intror (or_introl eq_refl))). now left.
Qed.

Lemma mixed_lengths_uniform (k : nat) (exps : list Experience) :
  (forall e, In e exps -> List.length (exp_features e) = k) ->
  mixed_lengths exps = false.
Proof.
  clear_unused.
  intros Hall. unfold mixed_lengths. apply Nat.ltb_ge.
  apply (nodup_constant k). intros x Hx. apply in_map_iff in Hx.
  destruct Hx as (e & <- & He). now apply Hall.
Qed.

(** A loop whose rounds all return is the fold of their effects. *)
Lemma for_each_fold {S A : Type} (step : S -> A -> S) (l : list A)
  (body : A -> M S unit) :
  (forall x s, In x l -> body x s = (Ok tt, step s x)) ->
  forall s, for_each l body s = (Ok tt, fold_left step l s).
Proof.
  induction l as [| x t IH]; intros Hbody s; cbn [for_each fold_left].
  - reflexivity.
  - unfold bind. rewrite (Hbody x s (or_introl eq_refl)).
    apply IH. intros y s' Hy. apply Hbody. now right.
Qed.

(** Writes under pairwise distinct keys: each key ends with the value
    made of what it held at the start, the other keys with what they
    held. *)
Lemma dict_writes_other {V X : Type} (f : option V -> X -> V) (key : X -> string)
  (items : list X) :
  forall (d : dict V) (k : string),
    ~ In k (map key items) ->
    dict_get k (fold_left (fun d x => dict_set (key x) (f (dict_get (key x) d) x) d)
                  items d)
    = dict_get k d.
Proof.
  clear_unused.
  induction items as [| x t IH]; intros d k Hout; cbn [fold_left];
    [reflexivity |].
  rewrite IH by (intros H; apply Hout; now right).
  apply dict_get_set_other. intros ->. apply Hout. now left.
Qed.

Lemma dict_writes_distinct {V X : Type} (f : option V -> X -> V) (key : X -> string)
  (items : list X) :
  NoDup (map key items) ->
  forall (d : dict V) (x : X),
    In x items ->
    dict_get (key x)
      (fold_left (fun d x => dict_set (key x) (f (dict_get (key x) d) x) d)
         items d)
    = Some (f (dict_get (key x) d) x).
Proof.
  clear_unused.
  induction items as [| y t IH]; intros Hnd d x Hin; [contradiction |].
  cbn [map] in Hnd. inversion Hnd as [| ? ? Hy Ht]; subst.
  cbn [fold_left]. destruct Hin as [<- | Hin].
  - rewrite dict_writes_other by exact Hy. apply dict_get_set_same.
  - rewrite (IH Ht _ x Hin). f_equal. f_equal.
    apply dict_get_set_other. intros Heq. apply Hy. rewrite <- Heq.
    now apply in_map.
Qed.

Lemma feature_key_injective (sid name name' : string) :
  feature_key sid name = feature_key sid name' -> name = name'.
Proof.
  clear_unused.
  unfold feature_key. induction sid as [| c sid IH]; cbn.
  - now intros [= ->].
  - intros [= H]. now apply IH.
Qed.

Lemma enumerate_keys_distinct (sid : string) (names : list string) :
  NoDup names ->
  NoDup (map (fun ix : nat * string => feature_key sid (snd ix)) (enumerate names)).
Proof.
  clear_unused.
  intros Hnd. unfold enumerate.
  assert (Hmap : forall start,
            map (fun ix : nat * string => feature_key sid (snd ix))
              (combine (seq start (List.length names)) names)
            = map (feature_key sid) names).
  { induction names as [| n t IH]; intros start; cbn; [reflexivity |].
    f_equal. apply IH. now inversion Hnd. }
  rewrite Hmap. clear Hmap.
  induction Hnd as [| n t Hn Ht IH]; cbn; constructor; [| exact IH].
  intros Hin. apply in_map_iff in Hin. destruct Hin as (n' & Heq & Hn').
  apply feature_key_injective in Heq. now subst.
Qed.

Lemma index_axis0_column (f : list R -> R) (m : list vec) (i : nat) :
  (i < ncols m)%nat -> index (axis0 f m) i = Ok (f (column i m)).
Proof.
  clear_unused.
  intros Hi. unfold index, axis0.
  rewrite nth_error_map, nth_error_seq.
  destruct (Nat.ltb_spec i (ncols m)); [reflexivity | lia].
Qed.

Lemma exact_thresholds_step :
  _update_anomaly_thresholds_with np_mean np_std = _update_anomaly_thresholds.
Proof. reflexivity. Qed.

Lemma exact_update_pass : update_pass_with np_mean np_std = update_pass.
Proof. reflexivity. Qed.

Lemma exact_incremental_update :
  _incremental_update_with np_mean np_std = _incremental_update.
Proof. reflexivity. Qed.

(** *** The weights step *)

Lemma store_weight_run (key : string) (x : R) (s : World) :
  store_weight key x s
  = (Ok tt,
     mkWorld (with_feature_weights
                (dict_set key
                   (blended_weight (dict_get key (feature_weights (self s))) x)
                   (feature_weights (self s)))
                (self s))
       (np_random s)).
Proof.
  unfold store_weight, bind, reads, gets, update, modify. cbn [fst snd].
  destruct (dict_get key (feature_weights (self s))); reflexivity.
Qed.

Lemma fold_weights_world (sid : string) (share : nat -> R)
  (items : list (nat * string)) :
  forall s : World,
    fold_left (fun s ix =>
                 mkWorld (with_feature_weights
                            (write_weight sid share (feature_weights (self s)) ix)
                            (self s))
                   (np_random s)) items s
    = mkWorld (with_feature_weights
                 (fold_left (write_weight sid share) items
                    (feature_weights (self s)))
                 (self s))
        (np_random s).
Proof.
  induction items as [| ix t IH]; intros s; cbn [fold_left].
  - now destruct s as [[] g].
  - rewrite IH. reflexivity.
Qed.

Lemma weights_step_single (sid : string) (names : list string) (w : World) :
  one_sensor sid names (experience_buffer (self w)) ->
  (2 <= List.length (experience_buffer (self w)))%nat ->
  let matrix := map exp_features (experience_buffer (self w)) in
  let total := total_variance matrix (List.length names) in
  _update_feature_weights w
  = (Ok tt,
     if Rlt_dec 0 total
     then mkWorld (with_feature_weights
                     (fold_left
                        (write_weight sid
                           (fun i => np_var (column i matrix) / total))
                        (enumerate names) (feature_weights (self w)))
                     (self w))
            (np_random w)
     else w).
Proof.
  intros (Hall & Hnd & Hfirst) Hlen. cbv zeta.
  unfold _update_feature_weights, bind, reads, gets. cbn [fst snd].
  destruct (experience_buffer (self w)) as [| first rest] eqn:Ebuf;
    [contradiction |].
  rewrite (group_by_sensor_single sid first rest)
    by (intros e He; now apply Hall).
  cbn [for_each]. unfold bind.
  assert (Hbody :
    weights_of_group (sid, first :: rest) w
    = (Ok tt,
       if Rlt_dec 0 (total_variance (map exp_features (first :: rest))
                       (List.length names))
       then mkWorld (with_feature_weights
                       (fold_left
                          (write_weight sid
                             (fun i =>
                                np_var (column i (map exp_features (first :: rest)))
                                / total_variance (map exp_features (first :: rest))
                                    (List.length names)))
                          (enumerate names) (feature_weights (self w)))
                       (self w))
              (np_random w)
       else w)).
  { unfold weights_of_group.
    destruct (Nat.ltb_spec (List.length (first :: rest)) 2) as [Hlt | _]; [lia |].
    rewrite (mixed_lengths_uniform (List.length names))
      by (intros e He; now apply Hall).
    set (matrix := map exp_features (first :: rest)).
    assert (Hcols : ncols matrix = List.length names).
    { unfold ncols, matrix. cbn [map hd]. apply Hall. now left. }
    assert (Htotal : np_sum (axis0 np_var matrix)
                     = total_variance matrix (List.length names)).
    { unfold axis0, total_variance. now rewrite Hcols. }
    rewrite Htotal, Hfirst. unfold Rgtb, Rltb.
    destruct (Rlt_dec 0 (total_variance matrix (List.length names)));
      [| reflexivity].
    set (total := total_variance matrix (List.length names)).
    assert (Hweights : map (fun v => v / total) (axis0 np_var matrix)
                       = axis0 (fun col => np_var col / total) matrix).
    { unfold axis0. now rewrite map_map. }
    rewrite Hweights.
    rewrite (for_each_fold
               (fun s ix =>
                  mkWorld (with_feature_weights
                             (write_weight sid
                                (fun i => np_var (column i matrix) / total)
                                (feature_weights (self s)) ix)
                             (self s))
                    (np_random s))).
    - now rewrite fold_weights_world.
    - intros [i name] s Hin. unfold weight_of_feature, bind, lift.
      cbn [fst snd].
      rewrite index_axis0_column.
      + apply store_weight_run.
      + rewrite Hcols. apply in_enumerate in Hin.
        apply nth_error_Some. congruence. }
  rewrite Hbody. reflexivity.
Qed.

(** *** The thresholds step *)

Lemma store_threshold_run (key : string) (lower upper : R) (s : World) :
  store_threshold key lower upper s
  = (Ok tt,
     mkWorld (with_anomaly_thresholds
                (dict_set key
                   (blended_band (dict_get key (anomaly_thresholds (self s)))
                      lower upper)
                   (anomaly_thresholds (self s)))
                (self s))
       (np_random s)).
Proof.
  unfold store_threshold, bind, reads, gets, update, modify. cbn [fst snd].
  destruct (dict_get key (anomaly_thresholds (self s))) as [[lo hi] |];
    reflexivity.
Qed.

Lemma fold_bands_world (sid : string) (lower upper : nat -> R)
  (items : list (nat * string)) :
  forall s : World,
    fold_left (fun s ix =>
                 mkWorld (with_anomaly_thresholds
                            (write_band sid lower upper
                               (anomaly_thresholds (self s)) ix)
                            (self s))
                   (np_random s)) items s
    = mkWorld (with_anomaly_thresholds
                 (fold_left (write_band sid lower upper) items
                    (anomaly_thresholds (self s)))
                 (self s))
        (np_random s).
Proof.
  induction items as [| ix t IH]; intros s; cbn [fold_left].
  - now destruct s as [[] g].
  - rewrite IH. reflexivity.
Qed.

Lemma thresholds_step_single (mean_of std_of : list R -> R) (sid : string)
  (names : list string) (w : World) :
  one_sensor sid names (experience_buffer (self w)) ->
  (5 <= List.length (experience_buffer (self w)))%nat ->
  let matrix := map exp_features (experience_buffer (self w)) in
  _update_anomaly_thresholds_with mean_of std_of w
  = (Ok tt,
     mkWorld (with_anomaly_thresholds
                (fold_left
                   (write_band sid
                      (fun i => mean_of (column i matrix)
                                - 3 * std_of (column i matrix))
                      (fun i => mean_of (column i matrix)
                                + 3 * std_of (column i matrix)))
                   (enumerate names) (anomaly_thresholds (self w)))
                (self w))
       (np_random w)).
Proof.
  intros (Hall & Hnd & Hfirst) Hlen. cbv zeta.
  unfold _update_anomaly_thresholds_with, bind, reads, gets. cbn [fst snd].
  destruct (experience_buffer (self w)) as [| first rest] eqn:Ebuf;
    [contradiction |].
  rewrite (group_by_sensor_single sid first rest)
    by (intros e He; now apply Hall).
  cbn [for_each]. unfold bind.
  unfold thresholds_of_group_with.
  destruct (Nat.ltb_spec (List.length (first :: rest)) 5) as [Hlt | _]; [lia |].
  rewrite (mixed_lengths_uniform (List.length names))
    by (intros e He; now apply Hall).
  set (matrix := map exp_features (first :: rest)).
  assert (Hcols : ncols matrix = List.length names).
  { unfold ncols, matrix. cbn [map hd]. apply Hall. now left. }
  rewrite Hfirst.
  rewrite (for_each_fold
             (fun s ix =>
                mkWorld (with_anomaly_thresholds
                           (write_band sid
                              (fun i => mean_of (column i matrix)
                                        - 3 * std_of (column i matrix))
                              (fun i => mean_of (column i matrix)
                                        + 3 * std_of (column i matrix))
                              (anomaly_thresholds (self s)) ix)
                           (self s))
                  (np_random s))).
  - now rewrite fold_bands_world.
  - intros [i name] s Hin. unfold threshold_of_feature, bind, lift.
    cbn [fst snd].
    assert (Hi : (i < ncols matrix)%nat).
    { rewrite Hcols. apply in_enumerate in Hin. apply nth_error_Some.
      congruence. }
    rewrite !index_axis0_column by exact Hi.
    apply store_threshold_run.
Qed.

(** *** The clusters step *)

Lemma combine_map2 {A B C D : Type} (g : A -> C) (h : B -> D) (a : list A) :
  forall b : list B,
    combine (map g a) (map h b)
    = map (fun xy => (g (fst xy), h (snd xy))) (combine a b).
Proof.
  induction a as [| x t IH]; intros [| y u]; cbn; try reflexivity.
  now rewrite IH.
Qed.

Lemma filter_rows_length (k : nat) (matrix : list vec) (distances : list R)
  (keep : vec * R -> bool) :
  (forall row, In row matrix -> List.length row = k) ->
  forall row, In row (map fst (filter keep (combine matrix distances))) ->
              List.length row = k.
Proof.
  intros Hrows row Hin. apply in_map_iff in Hin.
  destruct Hin as ([r d] & <- & Hin). apply filter_In in Hin.
  destruct Hin as [Hin _]. apply in_combine_l in Hin. now apply Hrows.
Qed.

Lemma recenter_rows (k : nat) (matrix : list vec) (center : vec) :
  (forall row, In row matrix -> List.length row = k) ->
  List.length center = k ->
  recenter matrix center = Ok (recentred matrix center).
Proof.
  intros Hrows Hcenter. unfold recenter, recentred.
  assert (Hdiffs :
    rmap_list (fun row => broadcast2 Rminus row center) matrix
    = Ok (map (fun row => map (fun xy => fst xy - snd xy) (combine row center))
            matrix)).
  { induction matrix as [| row t IH]; cbn [rmap_list map]; [reflexivity |].
    unfold broadcast2 at 1.
    rewrite (Hrows row (or_introl eq_refl)), Hcenter, Nat.eqb_refl.
    cbn [rbind]. rewrite IH by (intros r Hr; apply Hrows; now right).
    reflexivity. }
  rewrite Hdiffs. cbn [rbind]. rewrite map_map.
  change (map (fun row => np_norm (map (fun xy => fst xy - snd xy)
                                     (combine row center))) matrix)
    with (map (fun row => euclidean row center) matrix).
  unfold close_points.
  set (distances := map (fun row => euclidean row center) matrix).
  pose proof (filter_rows_length k matrix distances
                (fun rd => Rltb (snd rd) (np_median distances)) Hrows) as Hclose.
  destruct (map fst (filter _ (combine matrix distances)))
    as [| near others] eqn:Eclose; [reflexivity |].
  cbn [List.length Nat.ltb Nat.leb].
  unfold broadcast2.
  assert (Hmeans : axis0 np_mean (near :: others)
                   = map (fun j => np_mean (column j (near :: others)))
                       (seq 0 (List.length center))).
  { unfold axis0, ncols. cbn [hd].
    now rewrite (Hclose near (or_introl eq_refl)), Hcenter. }
  rewrite Hmeans, !length_map, length_seq, Nat.eqb_refl.
  rewrite combine_map2, map_map. reflexivity.
Qed.

Lemma rmap_list_all {A B : Type} (f : A -> result B) (g : A -> B) (l : list A) :
  (forall x, In x l -> f x = Ok (g x)) -> rmap_list f l = Ok (map g l).
Proof.
  induction l as [| x t IH]; intros Hall; cbn [rmap_list map]; [reflexivity |].
  rewrite (Hall x (or_introl eq_refl)). cbn [rbind].
  rewrite IH by (intros y Hy; apply Hall; now right). reflexivity.
Qed.

Lemma clusters_step_single (sid : string) (names : list string) (w : World) :
  one_sensor sid names (experience_buffer (self w)) ->
  (5 <= List.length (experience_buffer (self w)))%nat ->
  dict_get sid (pattern_clusters (self w)) = None ->
  let matrix := map exp_features (experience_buffer (self w)) in
  let n := List.length (experience_buffer (self w)) in
  let drawn := np_random_choice n (Nat.min 5 n) (np_random w) in
  Forall (fun i => (i < n)%nat) (fst drawn) ->
  _update_pattern_clusters 5 w
  = (Ok tt,
     mkWorld (with_pattern_clusters
                (dict_set sid
                   (map (fun i => recentred matrix (nth i matrix [])) (fst drawn))
                   (pattern_clusters (self w)))
                (self w))
       (snd drawn)).
Proof.
  intros (Hall & Hnd & Hfirst) Hlen Hfresh. cbv zeta. intros Hrange.
  unfold _update_pattern_clusters, bind, reads, gets. cbn [fst snd].
  destruct (experience_buffer (self w)) as [| first rest] eqn:Ebuf;
    [contradiction |].
  rewrite (group_by_sensor_single sid first rest)
    by (intros e He; now apply Hall).
  cbn [for_each]. unfold bind.
  unfold clusters_of_group.
  destruct (Nat.ltb_spec (List.length (first :: rest)) 5) as [Hlt | _]; [lia |].
  rewrite (mixed_lengths_uniform (List.length names))
    by (intros e He; now apply Hall).
  set (matrix := map exp_features (first :: rest)) in *.
  assert (Hrows : forall row, In row matrix -> List.length row = List.length names).
  { intros row Hrow. apply in_map_iff in Hrow.
    destruct Hrow as (e & <- & He). now apply Hall. }
  assert (Hn : List.length matrix = List.length (first :: rest))
    by apply length_map.
  rewrite Hn in *.
  unfold bind, reads, gets, random_choice, lift, update, modify, dict_mem.
  cbn [fst snd self np_random]. rewrite Hfresh.
  destruct (np_random_choice (List.length (first :: rest))
              (Nat.min 5 (List.length (first :: rest))) (np_random w))
    as [indices g] eqn:Edraw.
  cbn [fst snd] in *.
  assert (Hseeds : rmap_list (index matrix) indices
                   = Ok (map (fun i => nth i matrix []) indices)).
  { apply rmap_list_all. intros i Hi. unfold index.
    rewrite Forall_forall in Hrange. specialize (Hrange i Hi).
    rewrite (nth_error_nth' matrix []) by (rewrite Hn; exact Hrange).
    reflexivity. }
  rewrite Hseeds. cbn [fst snd self np_random pattern_clusters
                         with_pattern_clusters].
  rewrite dict_get_set_same.
  assert (Hcentres :
    rmap_list (recenter matrix) (map (fun i => nth i matrix []) indices)
    = Ok (map (recentred matrix) (map (fun i => nth i matrix []) indices))).
  { apply rmap_list_all. intros c Hc. apply in_map_iff in Hc.
    destruct Hc as (i & <- & Hi).
    apply (recenter_rows (List.length names)); [exact Hrows |].
    apply Hrows. apply nth_In. rewrite Hn.
    rewrite Forall_forall in Hrange. now apply Hrange. }
  rewrite Hcentres. cbn [fst snd self np_random pattern_clusters
                           with_pattern_clusters].
  rewrite dict_set_set, map_map. reflexivity.
Qed.

(** *** The pass *)

Lemma written_band (sid : string) (lower upper : nat -> R) (names : list string)
  (d : dict (R * R)) (i : nat) (name : string) :
  NoDup names ->
  nth_error names i = Some name ->
  dict_get (feature_key sid name)
    (fold_left (write_band sid lower upper) (enumerate names) d)
  = Some (blended_band (dict_get (feature_key sid name) d) (lower i) (upper i)).
Proof.
  intros Hnd Hname.
  exact (dict_writes_distinct
           (fun old (ix : nat * string) =>
              blended_band old (lower (fst ix)) (upper (fst ix)))
           (fun ix => feature_key sid (snd ix))
           (enumerate names) (enumerate_keys_distinct sid names Hnd) d
           (i, name) (@enumerate_in _ names i name Hname)).
Qed.

Lemma written_weight (sid : string) (share : nat -> R) (names : list string)
  (d : dict R) (i : nat) (name : string) :
  NoDup names ->
  nth_error names i = Some name ->
  dict_get (feature_key sid name)
    (fold_left (write_weight sid share) (enumerate names) d)
  = Some (blended_weight (dict_get (feature_key sid name) d) (share i)).
Proof.
  intros Hnd Hname.
  exact (dict_writes_distinct
           (fun old (ix : nat * string) => blended_weight old (share (fst ix)))
           (fun ix => feature_key sid (snd ix))
           (enumerate names) (enumerate_keys_distinct sid names Hnd) d
           (i, name) (@enumerate_in _ names i name Hname)).
Qed.

(** The learner after the weights step and the thresholds step of a pass
    over the buffer of one sensor. *)
Lemma update_pass_single (sid : string) (names : list string) (w : World) :
  one_sensor sid names (experience_buffer (self w)) ->
  (5 <= List.length (experience_buffer (self w)))%nat ->
  let matrix := map exp_features (experience_buffer (self w)) in
  let total := total_variance matrix (List.length names) in
  let weights :=
    if Rlt_dec 0 total
    then fold_left (write_weight sid (fun i => np_var (column i matrix) / total))
           (enumerate names) (feature_weights (self w))
    else feature_weights (self w) in
  let bands :=
    fold_left
      (write_band sid
         (fun i => np_mean (column i matrix) - 3 * np_std (column i matrix))
         (fun i => np_mean (column i matrix) + 3 * np_std (column i matrix)))
      (enumerate names) (anomaly_thresholds (self w)) in
  update_pass w
  = (_update_pattern_clusters 5 ;;
     update (fun l => with_update_count (update_count l + 1)%Z l))
      (mkWorld (with_anomaly_thresholds bands
                  (with_feature_weights weights (self w)))
         (np_random w)).
Proof.
  intros Hone Hlen. cbv zeta.
  unfold update_pass. unfold bind at 1.
  rewrite (weights_step_single sid names w Hone) by lia. cbv zeta.
  set (total := total_variance _ _).
  set (wA := if Rlt_dec 0 total then _ else w).
  assert (HA : experience_buffer (self wA) = experience_buffer (self w) /\
               anomaly_thresholds (self wA) = anomaly_thresholds (self w) /\
               np_random wA = np_random w /\
               mkWorld (with_feature_weights (feature_weights (self wA)) (self w))
                 (np_random w) = wA).
  { unfold wA. destruct (Rlt_dec 0 total); [now repeat split |].
    repeat split. now destruct w as [[] g]. }
  destruct HA as (Abuf & Ath & Agen & Aeq).
  unfold bind at 1. rewrite <- exact_thresholds_step.
  rewrite (thresholds_step_single np_mean np_std sid names wA)
    by (rewrite Abuf; assumption).
  cbv zeta. rewrite Abuf, Ath, Agen.
  assert (Hweights : feature_weights (self wA)
                     = if Rlt_dec 0 total
                       then fold_left
                              (write_weight sid
                                 (fun i =>
                                    np_var (column i (map exp_features
                                                        (experience_buffer (self w))))
                                    / total))
                              (enumerate names) (feature_weights (self w))
                       else feature_weights (self w)).
  { unfold wA. now destruct (Rlt_dec 0 total). }
  rewrite <- Hweights. rewrite <- Aeq at 1. reflexivity.
Qed.

(** What one pass makes of the buffer of one sensor: the buffer stays,
    every named feature gets the band and the weight of its whole column
    blended into what it had, and a sensor without centroids gets the
    drawn rows, each moved towards the rows near it. *)
Lemma update_pass_of_one_sensor (w1 : World) (sid : string)
  (names : list string) :
  let buf := experience_buffer (self w1) in
  let n := List.length buf in
  one_sensor sid names buf ->
  (5 <= n)%nat ->
  let matrix := map exp_features buf in
  let total := total_variance matrix (List.length names) in
  let after := self (snd (update_pass w1)) in
  experience_buffer after = buf /\
  (forall (i : nat) (name : string),
     nth_error names i = Some name ->
     dict_get (feature_key sid name) (anomaly_thresholds after)
     = Some (blended_band
               (dict_get (feature_key sid name) (anomaly_thresholds (self w1)))
               (np_mean (column i matrix) - 3 * np_std (column i matrix))
               (np_mean (column i matrix) + 3 * np_std (column i matrix))) /\
     dict_get (feature_key sid name) (feature_weights after)
     = if Rlt_dec 0 total
       then Some (blended_weight
                    (dict_get (feature_key sid name) (feature_weights (self w1)))
                    (np_var (column i matrix) / total))
       else dict_get (feature_key sid name) (feature_weights (self w1))) /\
  (dict_get sid (pattern_clusters (self w1)) = None ->
   let drawn := np_random_choice n (Nat.min 5 n) (np_random w1) in
   Forall (fun i => (i < n)%nat) (fst drawn) ->
   fst (update_pass w1) = Ok tt /\
   np_random (snd (update_pass w1)) = snd drawn /\
   dict_get sid (pattern_clusters after)
   = Some (map (fun i => recentred matrix (nth i matrix [])) (fst drawn)) /\
   update_count after = (update_count (self w1) + 1)%Z).
Proof.
  cbv zeta. intros Hone Hlen.
  rewrite (update_pass_single sid names w1 Hone Hlen). cbv zeta.
  set (total := total_variance _ _).
  set (weights := if Rlt_dec 0 total then _ else _).
  set (bands := fold_left _ _ _).
  set (wB := mkWorld (with_anomaly_thresholds bands
                        (with_feature_weights weights (self w1)))
               (np_random w1)).
  assert (Hframe :
    preserves (fun s : World => (experience_buffer (self s),
                                 feature_weights (self s),
                                 anomaly_thresholds (self s)))
      (_update_pattern_clusters 5 ;;
       update (fun l => with_update_count (update_count l + 1)%Z l))).
  { apply preserves_bind.
    - apply clusters_step_preserves; intros s v; reflexivity.
    - intros _ s. reflexivity. }
  specialize (Hframe wB). cbn [wB self experience_buffer feature_weights
                                anomaly_thresholds with_anomaly_thresholds
                                with_feature_weights] in Hframe.
  injection Hframe as Fbuf Fweights Fbands.
  split; [exact Fbuf | split].
  - intros i name Hname. rewrite Fbands, Fweights. split.
    + destruct Hone as (_ & Hnd & _). unfold bands.
      exact (written_band sid _ _ names _ i name Hnd Hname).
    + destruct Hone as (_ & Hnd & _). unfold weights.
      destruct (Rlt_dec 0 total); [| reflexivity].
      exact (written_weight sid _ names _ i name Hnd Hname).
  - intros Hfresh Hrange.
    pose proof (clusters_step_single sid names wB Hone Hlen Hfresh) as Hstep.
    cbv zeta in Hstep. specialize (Hstep Hrange).
    unfold bind at 1 2 3 4. rewrite Hstep.
    unfold update, modify. cbn [fst snd self np_random pattern_clusters
                                  update_count with_update_count
                                  with_pattern_clusters].
    repeat split. apply dict_get_set_same.
Qed.


Set Implicit Arguments.

(** ** The preprocessor *)

(** C7, on the code. For the batch of the single reading [reading_22]
    and a fresh preprocessor with a window of ten, applying
    [process_reading] once per item leaves one sample in the window of
    "t1" and yields the one feature temperature_current. [process_batch]
    calls [process_reading] twice on the reading: it leaves two samples in
    the window and yields the features of the second call, which
    include temperature_delta. *)
Theorem process_batch_processes_twice :
  let p0 := new_preprocessor 10 true in
  let context := [("raw_value", Plain (JFloat 22)); ("unit", Plain (JStr "C"))] in
  process_each_once [reading_22] p0
  = (Ok [Some (mkFeatures [(22 - 22) / 5] ["temperature_current"] 0 "t1" context)],
     mkPreprocessor 10 true [("t1", [Scalar 22])]) /\
  process_batch [reading_22] p0
  = (Ok [Some (mkFeatures [(22 - 22) / 5; 22 - 22]
                 ["temperature_current"; "temperature_delta"] 0 "t1" context)],
     mkPreprocessor 10 true [("t1", [Scalar 22; Scalar 22])]) /\
  process_batch [reading_22] p0 <> process_each_once [reading_22] p0.
Proof.
  cbv zeta.
  assert (H1 : process_each_once [reading_22] (new_preprocessor 10 true)
               = (Ok [Some (mkFeatures [(22 - 22) / 5] ["temperature_current"] 0
                              "t1" [("raw_value", Plain (JFloat 22));
                                    ("unit", Plain (JStr "C"))])],
                  mkPreprocessor 10 true [("t1", [Scalar 22])]))
    by reflexivity.
  assert (H2 : process_batch [reading_22] (new_preprocessor 10 true)
               = (Ok [Some (mkFeatures [(22 - 22) / 5; 22 - 22]
                              ["temperature_current"; "temperature_delta"] 0
                              "t1" [("raw_value", Plain (JFloat 22));
                                    ("unit", Plain (JStr "C"))])],
                  mkPreprocessor 10 true [("t1", [Scalar 22; Scalar 22])]))
    by reflexivity.
  split; [exact H1 | split; [exact H2 |]].
  rewrite H1, H2. intros H. discriminate H.
Qed.

(** C8, on the code. A camera reading whose value is not a frame and an
    accelerometer reading whose value is not a dict give no result, and
    the preprocessor only gains the sensor's empty window. A temperature
    reading whose value is None, a list or a dict gives no result either:
    [float(value)] raises TypeError, which [process_reading] lets through. *)
Theorem temperature_shape_mismatch_raises (sid unit : string) (ts conf : R)
  (md : option (dict json)) (p : SensorPreprocessor) :
  let opened :=
    if dict_mem sid (feature_windows p) then p
    else with_feature_windows (dict_set sid [] (feature_windows p)) p in
  (forall j, process_reading (mkReading sid CAMERA ts (Plain j) unit conf md) p
             = (Ok None, opened)) /\
  (forall j, (forall d, j <> JDict d) ->
             process_reading (mkReading sid ACCELEROMETER ts (Plain j) unit conf md) p
             = (Ok None, opened)) /\
  process_reading (mkReading sid TEMPERATURE ts (Plain JNull) unit conf md) p
  = (Raise TypeError, opened) /\
  (forall l, process_reading (mkReading sid TEMPERATURE ts (Plain (JList l))
                                unit conf md) p
             = (Raise TypeError, opened)) /\
  (forall d, process_reading (mkReading sid TEMPERATURE ts (Plain (JDict d))
                                unit conf md) p
             = (Raise TypeError, opened)).
Proof.
  cbv zeta. unfold process_reading, bind, gets. simpl.
  repeat split; intros.
  - destruct (dict_mem sid (feature_windows p)); reflexivity.
  - destruct (dict_mem sid (feature_windows p)); simpl;
      destruct j; try reflexivity; now destruct (H d).
  - destruct (dict_mem sid (feature_windows p)); reflexivity.
  - destruct (dict_mem sid (feature_windows p)); reflexivity.
  - destruct (dict_mem sid (feature_windows p)); reflexivity.
Qed.

(** * Further properties *)

(** ** The monad: what a computation keeps *)

Lemma keeps_ret {S A : Type} (P : S -> Prop) (a : A) : keeps P (ret a).
Proof. intros s H. exact H. Qed.

Lemma keeps_raise {S A : Type} (P : S -> Prop) (e : exn) : keeps P (@raise S A e).
Proof. intros s H. exact H. Qed.

Lemma keeps_lift {S A : Type} (P : S -> Prop) (r : result A) :
  keeps P (@lift S A r).
Proof. intros s H. exact H. Qed.

Lemma keeps_gets {S A : Type} (P : S -> Prop) (f : S -> A) : keeps P (gets f).
Proof. intros s H. exact H. Qed.

Lemma keeps_reads {A : Type} (P : World -> Prop) (f : IncrementalLearner -> A) :
  keeps P (reads f).
Proof. intros s H. exact H. Qed.

Lemma keeps_bind {S A B : Type} (P : S -> Prop) (m : M S A) (k : A -> M S B) :
  keeps P m -> (forall a, keeps P (k a)) -> keeps P (bind m k).
Proof.
  intros Hm Hk s Hs. unfold bind. specialize (Hm s Hs).
  destruct (m s) as [[a | e] s']; simpl in *; [now apply Hk | exact Hm].
Qed.

Lemma keeps_for_each {S A : Type} (P : S -> Prop) (l : list A)
  (body : A -> M S unit) :
  (forall x, In x l -> keeps P (body x)) -> keeps P (for_each l body).
Proof.
  induction l as [| x t IH]; intros Hbody; simpl.
  - apply keeps_ret.
  - apply keeps_bind.
    + apply Hbody. now left.
    + intros _. apply IH. intros y Hy. apply Hbody. now right.
Qed.

(** A computation that leaves [p] alone keeps what depends on [p] only. *)
Lemma keeps_of_preserves {S X A : Type} (p : S -> X) (Q : X -> Prop) (m : M S A) :
  preserves p m -> keeps (fun s => Q (p s)) m.
Proof. intros Hp s Hs. now rewrite Hp. Qed.

#[local] Hint Resolve keeps_ret keeps_raise keeps_lift keeps_gets keeps_reads
  : frame.

(** ** add_experience: what is recorded *)

Lemma deque_append_length {A : Type} (n : nat) (x : A) (q : list A) :
  (List.length q <= n)%nat ->
  List.length (deque_append n x q) = Nat.min (S (List.length q)) n.
Proof.
  intros Hle. unfold deque_append.
  destruct (Nat.eqb_spec n 0) as [-> | Hn]; [cbn [List.length]; lia |].
  destruct (Nat.ltb_spec (List.length q) n) as [Hlt | Hge].
  - rewrite length_app. cbn [List.length]. lia.
  - rewrite length_app. destruct q as [| y t]; cbn [List.length tl] in *; lia.
Qed.

Lemma update_pass_frame :
  preserves (fun w => (experience_buffer (self w), total_samples (self w),
                       memory_size (self w), update_threshold (self w),
                       learning_rate (self w)))
            update_pass.
Proof.
  unfold update_pass.
  apply preserves_bind; [now apply weights_step_preserves |].
  intros _. apply preserves_bind; [now apply thresholds_step_preserves |].
  intros _. apply preserves_bind; [now apply clusters_step_preserves |].
  intros _ w. reflexivity.
Qed.

Lemma update_pass_count (w : World) :
  update_count (self (snd (update_pass w))) = update_count (self w) \/
  update_count (self (snd (update_pass w))) = (update_count (self w) + 1)%Z.
Proof.
  unfold update_pass, bind.
  pose (p := fun w : World => update_count (self w)).
  pose proof (@weights_step_preserves _ p (fun w v => eq_refl) w) as F1.
  destruct (_update_feature_weights w) as [[[] | e1] w1]; [| now left].
  pose proof (@thresholds_step_preserves _ p (fun w v => eq_refl) w1) as F2.
  destruct (_update_anomaly_thresholds w1) as [[[] | e2] w2];
    [| left; simpl in *; unfold p in *; congruence].
  pose proof (@clusters_step_preserves _ p 5 (fun w v => eq_refl)
                (fun w v => eq_refl) w2) as F3.
  destruct (_update_pattern_clusters 5 w2) as [[[] | e3] w3];
    simpl in *; unfold p in *; [right | left]; simpl; congruence.
Qed.

(** X1. Whether [add_experience] returns or an update step raises, the
    experience is in the buffer and counted: the buffer is the old one
    with the experience appended (the oldest entry gone if it was full),
    [total_samples] is one more, the three settings are as before, and
    [update_count] is as before or one more. *)
Theorem add_experience_records (now : R) (f : ProcessedFeatures)
  (label : option string) (reward : option R) (w : World) :
  let after := self (snd (add_experience now f label reward w)) in
  experience_buffer after
  = deque_append (memory_size (self w)) (experience_of now f label reward)
      (experience_buffer (self w)) /\
  total_samples after = (total_samples (self w) + 1)%Z /\
  memory_size after = memory_size (self w) /\
  update_threshold after = update_threshold (self w) /\
  learning_rate after = learning_rate (self w) /\
  (update_count after = update_count (self w) \/
   update_count after = (update_count (self w) + 1)%Z).
Proof.
  cbv zeta. rewrite add_experience_unfold. cbv zeta.
  set (w1 := recorded now f label reward w).
  destruct (_ && _).
  - pose proof (update_pass_frame w1) as F. simpl in F.
    injection F as F1 F2 F3 F4 F5.
    rewrite F1, F2, F3, F4, F5.
    repeat split. exact (update_pass_count w1).
  - simpl. repeat split. now left.
Qed.

Lemma add_experience_buffer (now : R) (f : ProcessedFeatures)
  (label : option string) (reward : option R) (w : World) :
  let after := self (snd (add_experience now f label reward w)) in
  experience_buffer after
  = deque_append (memory_size (self w)) (experience_of now f label reward)
      (experience_buffer (self w)) /\
  memory_size after = memory_size (self w).
Proof.
  cbv zeta. rewrite add_experience_unfold. cbv zeta.
  set (w1 := recorded now f label reward w).
  destruct (_ && _).
  - pose proof (update_pass_frame w1) as F. simpl in F.
    injection F as F1 F2 F3 F4 F5.
    rewrite ?F1, ?F2, ?F3, ?F4, ?F5. split; reflexivity.
  - simpl. split; reflexivity.
Qed.

(** X2. A buffer within its capacity stays within it: after
    [add_experience] it holds one entry more, up to [memory_size]; with a
    capacity above zero the new experience is its last entry, and a buffer
    that was full has lost its first entry and nothing else. *)
Theorem add_experience_bounded_fifo (now : R) (f : ProcessedFeatures)
  (label : option string) (reward : option R) (w : World) :
  buffer_within_capacity w ->
  let before := experience_buffer (self w) in
  let after := experience_buffer (self (snd (add_experience now f label reward w))) in
  buffer_within_capacity (snd (add_experience now f label reward w)) /\
  List.length after = Nat.min (S (List.length before)) (memory_size (self w)) /\
  ((0 < memory_size (self w))%nat ->
   last after (experience_of now f label reward)
   = experience_of now f label reward /\
   exists kept, after = kept ++ [experience_of now f label reward] /\
                kept = if Nat.ltb (List.length before) (memory_size (self w))
                       then before else tl before).
Proof.
  intros Hcap. cbv zeta.
  destruct (add_experience_buffer now f label reward w) as (Hbuf & Hmem).
  unfold buffer_within_capacity in *. rewrite Hbuf, Hmem.
  rewrite (deque_append_length _ _ Hcap).
  split; [lia |]. split; [reflexivity |].
  intros Hpos. unfold deque_append.
  destruct (Nat.eqb_spec (memory_size (self w)) 0) as [H0 | _]; [lia |].
  destruct (Nat.ltb (List.length (experience_buffer (self w)))
              (memory_size (self w)));
    (split; [apply last_last | eexists; split; reflexivity]).
Qed.

(** ** Invariants of the learned state *)

Unset Implicit Arguments.

Lemma update_pass_keeps (P : World -> Prop) :
  keeps P _update_feature_weights ->
  keeps P _update_anomaly_thresholds ->
  keeps P (_update_pattern_clusters 5) ->
  (forall w n, P w -> P (mkWorld (with_update_count n (self w)) (np_random w))) ->
  keeps P update_pass.
Proof.
  intros H1 H2 H3 H4. unfold update_pass.
  apply keeps_bind; [exact H1 | intros _].
  apply keeps_bind; [exact H2 | intros _].
  apply keeps_bind; [exact H3 | intros _].
  intros w Hw. apply H4. exact Hw.
Qed.

Lemma add_experience_keeps (P : World -> Prop) :
  (forall w b, P w -> P (mkWorld (with_experience_buffer b (self w)) (np_random w))) ->
  (forall w n, P w -> P (mkWorld (with_total_samples n (self w)) (np_random w))) ->
  keeps P update_pass ->
  forall now f label reward, keeps P (add_experience now f label reward).
Proof.
  intros Hbuf Htot Hpass now f label reward w Hw.
  rewrite add_experience_unfold. cbv zeta.
  assert (H1 : P (recorded now f label reward w)).
  { unfold recorded.
    apply (Htot (mkWorld (with_experience_buffer _ (self w)) (np_random w))).
    now apply Hbuf. }
  destruct (_ && _); [now apply Hpass | exact H1].
Qed.




Lemma np_sum_nonneg (l : list R) : (forall x, In x l -> 0 <= x) -> 0 <= np_sum l.
Proof.
  induction l as [| y t IH]; intros Hall; simpl; [lra |].
  pose proof (Hall y (or_introl eq_refl)).
  assert (0 <= np_sum t) by (apply IH; intros; apply Hall; now right).
  lra.
Qed.


Lemma np_mean_nonneg (l : list R) : (forall x, In x l -> 0 <= x) -> 0 <= np_mean l.
Proof.
  intros Hall. unfold np_mean. destruct l as [| y t].
  - simpl. unfold Rdiv. rewrite Rmult_0_l. lra.
  - apply Rmult_le_pos; [now apply np_sum_nonneg |].
    apply Rlt_le, Rinv_0_lt_compat, lt_0_INR. simpl. lia.
Qed.

Lemma np_var_nonneg (l : list R) : 0 <= np_var l.
Proof.
  unfold np_var. apply np_mean_nonneg.
  intros y Hy. apply in_map_iff in Hy. destruct Hy as (x & <- & _).
  generalize (x - np_mean l). intros t. nra.
Qed.






Lemma rmap_list_length {A B : Type} (f : A -> result B) (l : list A) (l' : list B) :
  rmap_list f l = Ok l' -> List.length l' = List.length l.
Proof.
  revert l'. induction l as [| x t IH]; intros l'; simpl.
  - now intros [= <-].
  - destruct (f x) as [y | e]; [| discriminate]. simpl.
    destruct (rmap_list f t) as [ys | e]; [| discriminate]. simpl.
    intros [= <-]. simpl. f_equal. now apply IH.
Qed.

Lemma dict_set_at_most {A : Type} (k : nat) (key : string) (v : list A)
  (d : dict (list A)) :
  (forall sid cs, dict_get sid d = Some cs -> (List.length cs <= k)%nat) ->
  (List.length v <= k)%nat ->
  forall sid cs, dict_get sid (dict_set key v d) = Some cs ->
                 (List.length cs <= k)%nat.
Proof.
  intros Hd Hv sid cs. destruct (String.eqb_spec sid key) as [-> | Hne].
  - rewrite dict_get_set_same. now intros [= <-].
  - rewrite (dict_get_set_other _ _ Hne). apply Hd.
Qed.

Lemma clusters_of_group_keeps_count (k : nat) (g : string * list Experience) :
  (forall n m gen, List.length (fst (np_random_choice n m gen)) = m) ->
  keeps (clusters_at_most k) (clusters_of_group k g).
Proof.
  intros Hchoice w Hw. destruct g as [sid exps]. unfold clusters_of_group.
  destruct (Nat.ltb _ k); [exact Hw |].
  destruct (mixed_lengths exps); [exact Hw |].
  unfold bind at 1. unfold reads at 1, gets. cbn [fst snd].
  set (matrix := map exp_features exps).
  assert (Hseed :
    forall r w1,
      (if dict_mem sid (pattern_clusters (self w)) then ret tt
       else indices <- random_choice (List.length matrix)
                         (Nat.min k (List.length matrix)) ;;
            seeds <- lift (rmap_list (index matrix) indices) ;;
            update (with_pattern_clusters
                      (dict_set sid seeds (pattern_clusters (self w))))) w
      = (r, w1) ->
      clusters_at_most k w1).
  { intros r w1. destruct (dict_mem sid _).
    - intros [= <- <-]. exact Hw.
    - unfold bind, random_choice, lift, update, modify.
      pose proof (Hchoice (List.length matrix)
                    (Nat.min k (List.length matrix)) (np_random w)) as Hlen.
      destruct (np_random_choice _ _ (np_random w)) as [indices gen].
      cbn [fst snd self np_random] in *.
      destruct (rmap_list (index matrix) indices) as [seeds | e] eqn:Eseeds.
      + intros [= <- <-]. unfold clusters_at_most. cbn [self pattern_clusters
          with_pattern_clusters].
        apply dict_set_at_most; [exact Hw |].
        apply rmap_list_length in Eseeds. lia.
      + intros [= <- <-]. exact Hw. }
  unfold bind at 1.
  destruct ((if dict_mem sid (pattern_clusters (self w)) then ret tt else _) w)
    as [[[] | e] w1] eqn:E1; cbn [fst snd].
  2:{ exact (Hseed _ _ eq_refl). }
  pose proof (Hseed _ _ eq_refl) as Hw1.
  unfold bind, reads, gets, lift, update, modify, raise. cbn [fst snd].
  destruct (dict_get sid (pattern_clusters (self w1))) as [clusters |] eqn:Eget;
    [| exact Hw1].
  destruct (rmap_list (recenter matrix) clusters) as [new_clusters | e] eqn:Enew;
    [| exact Hw1].
  unfold clusters_at_most. cbn [fst snd self pattern_clusters with_pattern_clusters].
  apply dict_set_at_most; [exact Hw1 |].
  apply rmap_list_length in Enew. rewrite Enew. exact (Hw1 _ _ Eget).
Qed.

(** X5. When [np.random.choice(n, k, replace=False)] hands back [k]
    indices, as it does, [add_experience] keeps every sensor at five
    centroids or fewer, whether it returns or raises: a new sensor is
    seeded with at most five, and re-centring changes no count. *)
Theorem add_experience_keeps_five_clusters (now : R) (f : ProcessedFeatures)
  (label : option string) (reward : option R) (w : World) :
  (forall n m gen, List.length (fst (np_random_choice n m gen)) = m) ->
  clusters_at_most 5 w ->
  clusters_at_most 5 (snd (add_experience now f label reward w)).
Proof.
  intros Hchoice. revert w. apply add_experience_keeps.
  - intros w b Hw. exact Hw.
  - intros w n Hw. exact Hw.
  - apply update_pass_keeps.
    + apply (@keeps_of_preserves World _ unit
               (fun w : World => pattern_clusters (self w))
               (fun pc => forall sid cs, dict_get sid pc = Some cs ->
                                         (List.length cs <= 5)%nat)).
      now apply weights_step_preserves.
    + apply (@keeps_of_preserves World _ unit
               (fun w : World => pattern_clusters (self w))
               (fun pc => forall sid cs, dict_get sid pc = Some cs ->
                                         (List.length cs <= 5)%nat)).
      now apply thresholds_step_preserves.
    + unfold _update_pattern_clusters.
      apply keeps_bind; auto with frame.
      intros buf. apply keeps_for_each. intros g _.
      now apply clusters_of_group_keeps_count.
    + intros w n Hw. exact Hw.
Qed.

(** ** predict_pattern *)





(** ** detect_anomaly: its outcomes *)

Lemma score_feature_missing (f : ProcessedFeatures) (w : World) (scores : list R)
  (i : nat) (name : string) :
  dict_get (feature_key (sensor_id f) name) (anomaly_thresholds (self w)) <> None ->
  (List.length (features f) <= i)%nat ->
  score_feature f scores (i, name) w = (Raise IndexError, w).
Proof.
  intros Hth Hlen. unfold score_feature, bind, reads, gets, lift, index.
  cbn [fst snd].
  destruct (dict_get _ (anomaly_thresholds (self w))) as [[lower upper] |];
    [| congruence].
  apply nth_error_None in Hlen. rewrite Hlen. reflexivity.
Qed.

(** The loop of [detect_anomaly] either runs through, every listed
    feature with a band having a value, or raises IndexError at a listed
    feature with a band and no value. *)
Lemma detect_loop_cases (f : ProcessedFeatures) (w : World)
  (items : list (nat * string)) :
  forall scores,
    (for_fold items scores (score_feature f) w
     = (Ok (scores ++ scores_by feature_score (anomaly_thresholds (self w))
                        (sensor_id f) (features f) items), w) /\
     forall i name, In (i, name) items ->
       dict_get (feature_key (sensor_id f) name) (anomaly_thresholds (self w))
       <> None ->
       (i < List.length (features f))%nat)
    \/
    (for_fold items scores (score_feature f) w = (Raise IndexError, w) /\
     exists i name, In (i, name) items /\
       dict_get (feature_key (sensor_id f) name) (anomaly_thresholds (self w))
       <> None /\
       (List.length (features f) <= i)%nat).
Proof.
  clear_unused.
  induction items as [| [i name] t IH]; intros scores.
  - left. split; [apply detect_loop; intros ? ? [] | intros ? ? []].
  - assert (Hhead :
      (dict_get (feature_key (sensor_id f) name) (anomaly_thresholds (self w))
       <> None /\ (List.length (features f) <= i)%nat) \/
      (dict_get (feature_key (sensor_id f) name) (anomaly_thresholds (self w))
       <> None -> (i < List.length (features f))%nat)).
    { destruct (dict_get _ (anomaly_thresholds (self w))) as [band |].
      - destruct (Nat.le_gt_cases (List.length (features f)) i) as [Hle | Hgt].
        + left. split; [discriminate | exact Hle].
        + right. intros _. exact Hgt.
      - right. intros H. congruence. }
    destruct Hhead as [[Hth Hlen] | Hok].
    + right. split.
      * cbn [for_fold]. unfold bind.
        now rewrite (score_feature_missing f w scores i name Hth Hlen).
      * exists i, name. repeat split; auto. now left.
    + cbn [for_fold]. unfold bind.
      rewrite (@score_feature_run f w scores i name Hok).
      destruct (IH (scores ++ scores_by feature_score (anomaly_thresholds (self w))
                                (sensor_id f) (features f) [(i, name)]))
        as [[Hrun Hall] | [Hrun (j & n & Hin & Hth & Hlen)]].
      * left. split.
        -- rewrite Hrun. unfold scores_by. cbn [flat_map].
           rewrite app_nil_r, <- app_assoc. reflexivity.
        -- intros j n [[= <- <-] | Hin]; [exact Hok | now apply Hall].
      * right. split; [exact Hrun |].
        exists j, n. repeat split; auto. now right.
Qed.

(** X7. Whenever [detect_anomaly] returns, its two results agree: it
    answers (True, score) with a score above zero, or (False, 0.0);
    whatever the bands are, a feature outside its band never brings a zero
    or negative score. *)
Theorem detect_anomaly_score_sign (f : ProcessedFeatures) (w : World)
  (is_anomaly : bool) (score : R) :
  fst (detect_anomaly f w) = Ok (is_anomaly, score) ->
  (is_anomaly = true /\ 0 < score) \/ (is_anomaly = false /\ score = 0).
Proof.
  unfold detect_anomaly, bind.
  destruct (detect_loop_cases f w (enumerate (feature_names f)) [])
    as [[Hrun _] | [Hrun _]]; rewrite Hrun; [| discriminate].
  cbn [app fst snd].
  pose proof (scores_by_positive (anomaly_thresholds (self w)) (sensor_id f)
                (features f) (enumerate (feature_names f))) as Hpos.
  destruct (scores_by _ _ _ _ _) as [| s t]; cbn [fst ret].
  - intros [= <- <-]. now right.
  - intros [= <- <-]. left. split; [reflexivity |].
    apply np_mean_positive; [discriminate | exact Hpos].
Qed.

(** X8. [detect_anomaly] raises exactly when some named feature has a
    learned band and no value, its position lying beyond the end of the
    feature vector; what it then raises is IndexError, and nothing else is
    ever raised. *)
Theorem detect_anomaly_index_error (f : ProcessedFeatures) (w : World) :
  (fst (detect_anomaly f w) = Raise IndexError <->
   exists i name,
     nth_error (feature_names f) i = Some name /\
     dict_get (feature_key (sensor_id f) name) (anomaly_thresholds (self w))
     <> None /\
     (List.length (features f) <= i)%nat) /\
  (forall e, fst (detect_anomaly f w) = Raise e -> e = IndexError).
Proof.
  unfold detect_anomaly, bind.
  destruct (detect_loop_cases f w (enumerate (feature_names f)) [])
    as [[Hrun Hall] | [Hrun (i & name & Hin & Hth & Hlen)]]; rewrite Hrun.
  - cbn [app fst snd]. repeat split.
    + destruct (scores_by _ _ _ _ _); discriminate.
    + intros (i & name & Hname & Hth & Hlen). exfalso.
      apply enumerate_in in Hname. pose proof (Hall i name Hname Hth). lia.
    + destruct (scores_by _ _ _ _ _); discriminate.
  - cbn [fst]. repeat split.
    + intros _. exists i, name. apply in_enumerate in Hin. auto.
    + now intros e [= <-].
Qed.

(** ** load_learned_parameters: its outcomes *)

(** X9. [load_learned_parameters] never raises. It returns True exactly
    when the file is read and the five reads succeed, and then the five
    attributes are the values read, whatever they held before; the
    weights and the two counters are taken as they stand in the record,
    of whatever JSON type. A load that returns True had a structurally
    complete record. *)
Theorem load_outcome (file : result json) (before : LearnedAttrs) :
  (exists b, fst (load_learned_parameters file before) = Ok b) /\
  (forall params fw th pc metadata uc ts,
     file = Ok params ->
     py_subscript params "feature_weights" = Ok fw ->
     read_anomaly_thresholds params = Ok th ->
     read_pattern_clusters params = Ok pc ->
     py_subscript params "metadata" = Ok metadata ->
     py_subscript metadata "update_count" = Ok uc ->
     py_subscript metadata "total_samples" = Ok ts ->
     load_learned_parameters file before = (Ok true, mkAttrs fw th pc uc ts)) /\
  (fst (load_learned_parameters file before) = Ok true ->
   exists params,
     file = Ok params /\
     structurally_complete params = true /\
     forall before',
       load_learned_parameters file before'
       = (Ok true, snd (load_learned_parameters file before))).
Proof.
  clear_unused.
  repeat apply conj.
  - run_load. destruct file as [params | e]; cbn; [| eauto].
    destruct (py_subscript params "feature_weights"); cbn; [| eauto].
    destruct (rbind (py_subscript params "anomaly_thresholds") _); cbn; [| eauto].
    destruct (rbind (py_subscript params "pattern_clusters") _); cbn; [| eauto].
    destruct (py_subscript params "metadata") as [md |]; cbn; [| eauto].
    destruct (py_subscript md "update_count"); cbn; [| eauto].
    destruct (py_subscript md "total_samples"); cbn; eauto.
  - intros params fw th pc metadata uc ts -> H1 H2 H3 H4 H5 H6.
    unfold load_learned_parameters, try_except, bind, lift, modify, ret,
      read_feature_weights.
    rewrite H1. cbn. rewrite H2. cbn. rewrite H3. cbn. rewrite H4. cbn.
    rewrite H5. cbn. rewrite H6. reflexivity.
  - destruct file as [params | e]; [| discriminate].
    unfold load_learned_parameters, try_except, bind, lift, modify, ret,
      read_feature_weights.
    cbn [fst snd].
    destruct (py_subscript params "feature_weights") as [fw |] eqn:E1; cbn;
      [| discriminate].
    destruct (read_anomaly_thresholds params) as [th |] eqn:E2; cbn;
      [| discriminate].
    destruct (read_pattern_clusters params) as [pc |] eqn:E3; cbn;
      [| discriminate].
    destruct (py_subscript params "metadata") as [md |] eqn:E4; cbn;
      [| discriminate].
    destruct (py_subscript md "update_count") as [uc |] eqn:E5; cbn;
      [| discriminate].
    destruct (py_subscript md "total_samples") as [ts |] eqn:E6; cbn;
      [| discriminate].
    intros _. exists params. repeat split.
    unfold structurally_complete. rewrite E4.
    rewrite (py_subscript_raises_has_key _ _ E1).
    rewrite (py_subscript_raises_has_key _ _ E5).
    rewrite (py_subscript_raises_has_key _ _ E6).
    unfold read_anomaly_thresholds in E2. unfold read_pattern_clusters in E3.
    destruct (py_subscript params "anomaly_thresholds") as [o2 |] eqn:K2;
      [| discriminate].
    destruct (py_subscript params "pattern_clusters") as [o3 |] eqn:K3;
      [| discriminate].
    rewrite (py_subscript_raises_has_key _ _ K2).
    rewrite (py_subscript_raises_has_key _ _ K3). reflexivity.
Qed.

(** ** get_learning_summary *)

(** X10. [get_learning_summary] raises ZeroDivisionError for a learner
    built with [memory_size] 0. For any other learner it reports the
    counters and the sizes of the three tables, and for a buffer within
    its capacity a [buffer_utilization] between 0 and 1. *)
Theorem learning_summary_utilization (l : IncrementalLearner) :
  (memory_size l = 0%nat -> get_learning_summary l = inl ZeroDivisionError) /\
  ((0 < memory_size l)%nat ->
   exists s,
     get_learning_summary l = inr s /\
     summary_total_samples s = total_samples l /\
     summary_update_count s = update_count l /\
     features_tracked s = List.length (feature_weights l) /\
     anomaly_thresholds_learned s = List.length (anomaly_thresholds l) /\
     (forall sid cs, dict_get sid (pattern_clusters l) = Some cs ->
                     dict_get sid (clusters_per_sensor s) = Some (List.length cs)) /\
     ((List.length (experience_buffer l) <= memory_size l)%nat ->
      0 <= buffer_utilization s <= 1)).
Proof.
  clear_unused.
  unfold get_learning_summary. split.
  - intros ->. reflexivity.
  - intros Hpos. destruct (Nat.eqb_spec (memory_size l) 0) as [H0 | _]; [lia |].
    eexists. split; [reflexivity |]. cbn. repeat split.
    + intros sid cs. induction (pattern_clusters l) as [| [k v] t IH]; cbn;
        [discriminate |].
      destruct (String.eqb sid k); [now intros [= ->] | exact IH].
    + apply Rmult_le_pos; [apply pos_INR |].
      apply Rlt_le, Rinv_0_lt_compat, lt_0_INR. exact Hpos.
    + apply le_INR in H. apply lt_0_INR in Hpos.
      apply Rmult_le_reg_r with (INR (memory_size l)); [exact Hpos |].
      unfold Rdiv. rewrite Rmult_assoc, Rinv_l by lra. lra.
Qed.

(** ** The preprocessor: windows and results *)

Lemma deque_append_bound {A : Type} (n : nat) (x : A) (q : list A) :
  (List.length q <= n)%nat -> (List.length (deque_append n x q) <= n)%nat.
Proof. intros H. rewrite deque_append_length by exact H. lia. Qed.

Lemma append_to_window_keeps (n : nat) (sid : string) (item : sample) :
  keeps (windows_sized n) (append_to_window sid item).
Proof.
  clear_unused.
  intros p [Hn Hp]. unfold append_to_window, bind, gets, modify, ret, raise.
  cbn [fst snd].
  destruct (dict_get sid (feature_windows p)) as [window |] eqn:E;
    [| now split].
  cbn [fst snd]. split; [exact Hn |].
  intros sid' window'. cbn [feature_windows window_size with_feature_windows].
  destruct (String.eqb_spec sid' sid) as [-> | Hne].
  - rewrite dict_get_set_same. intros [= <-].
    apply deque_append_bound. exact (Hp _ _ E).
  - rewrite (dict_get_set_other _ _ Hne). apply Hp.
Qed.

Lemma process_handlers_keep (n : nat) (reading : SensorReading) :
  keeps (windows_sized n) (_process_temperature reading) /\
  keeps (windows_sized n) (_process_motion reading) /\
  keeps (windows_sized n) (_process_camera reading) /\
  keeps (windows_sized n) (_process_accelerometer reading) /\
  keeps (windows_sized n) (_process_generic reading).
Proof.
  repeat apply conj.
  - unfold _process_temperature.
    apply keeps_bind; auto with frame. intros value.
    apply keeps_bind; [apply append_to_window_keeps |]. intros window.
    apply keeps_bind; auto with frame. intros window_array.
    apply keeps_bind; auto with frame. intros norm.
    apply keeps_bind; auto with frame. intros size.
    apply keeps_bind; auto with frame.
  - unfold _process_motion.
    apply keeps_bind; auto with frame. intros moving.
    apply keeps_bind; [apply append_to_window_keeps |]. intros window.
    apply keeps_bind; auto with frame. intros window_array.
    apply keeps_bind; auto with frame. intros size.
    apply keeps_bind; auto with frame.
  - unfold _process_camera.
    destruct (reading_value reading); auto with frame.
    apply keeps_bind; auto with frame. intros stats.
    destruct (reading_metadata reading); auto with frame.
  - unfold _process_accelerometer.
    destruct (reading_value reading) as [[] |]; auto with frame.
    apply keeps_bind; auto with frame. intros x.
    apply keeps_bind; auto with frame. intros y.
    apply keeps_bind; auto with frame. intros z.
    apply keeps_bind; [apply append_to_window_keeps |]. intros window.
    apply keeps_bind; auto with frame.
  - unfold _process_generic.
    apply keeps_bind; auto with frame.
Qed.

Lemma append_to_window_run (sid : string) (item : sample)
  (p : SensorPreprocessor) (window : list sample) :
  dict_get sid (feature_windows p) = Some window ->
  append_to_window sid item p
  = (Ok (deque_append (window_size p) item window),
     with_feature_windows
       (dict_set sid (deque_append (window_size p) item window)
          (feature_windows p)) p).
Proof.
  intros Hget. unfold append_to_window, bind, gets, modify, ret.
  cbn [fst snd]. now rewrite Hget.
Qed.

(** What [process_reading] does before it dispatches: a sensor seen for
    the first time gets an empty window. *)
Lemma process_reading_opens (reading : SensorReading) (p : SensorPreprocessor) :
  let opened :=
    if dict_mem (reading_sensor_id reading) (feature_windows p) then p
    else with_feature_windows
           (dict_set (reading_sensor_id reading) [] (feature_windows p)) p in
  process_reading reading p
  = match reading_sensor_type reading with
    | TEMPERATURE => _process_temperature reading
    | MOTION => _process_motion reading
    | CAMERA => _process_camera reading
    | ACCELEROMETER => _process_accelerometer reading
    | _ => _process_generic reading
    end opened.
Proof.
  cbv zeta. unfold process_reading, bind, gets, modify, ret. cbn [fst snd].
  destruct (dict_mem _ _); reflexivity.
Qed.

(** X11. [process_reading] keeps every temporal window within
    [window_size], and [window_size] as it is, whether it returns a
    record, returns nothing or raises: a sensor seen for the first time
    gets an empty window, and an append to a full window drops its oldest
    entry. *)
Theorem process_reading_keeps_windows (reading : SensorReading)
  (p : SensorPreprocessor) :
  windows_within_capacity p ->
  windows_within_capacity (snd (process_reading reading p)) /\
  window_size (snd (process_reading reading p)) = window_size p.
Proof.
  intros Hp.
  destruct (process_handlers_keep (window_size p) reading)
    as (Ht & Hm & Hc & Ha & Hg).
  rewrite process_reading_opens. cbv zeta.
  set (opened := if dict_mem _ _ then p else _).
  assert (Hopen : windows_sized (window_size p) opened).
  { unfold opened, dict_mem.
    destruct (dict_get (reading_sensor_id reading) (feature_windows p)) eqn:E.
    - now split.
    - split; [reflexivity |]. intros sid window. cbn.
      destruct (String.eqb_spec sid (reading_sensor_id reading)) as [-> | Hne].
      + rewrite dict_get_set_same. intros [= <-]. cbn. lia.
      + rewrite (dict_get_set_other _ _ Hne). apply Hp. }
  assert (Hall : windows_sized (window_size p)
                   (snd (match reading_sensor_type reading with
                         | TEMPERATURE => _process_temperature reading
                         | MOTION => _process_motion reading
                         | CAMERA => _process_camera reading
                         | ACCELEROMETER => _process_accelerometer reading
                         | _ => _process_generic reading
                         end opened))).
  { destruct (reading_sensor_type reading); auto. }
  destruct Hall as [H1 H2]. split; assumption.
Qed.

(** Runs a handler step by step; a step that raises ends the case. *)
Ltac run_handler :=
  repeat (unfold bind at 1;
          match goal with
          | |- context [match ?m ?s with (_, _) => _ end] =>
              destruct (m s) as [[? | ?] ?]; cbn [fst snd]; try exact I
          end).

Lemma process_temperature_result (reading : SensorReading) (p : SensorPreprocessor) :
  match fst (_process_temperature reading p) with
  | Ok (Some f) => parallel f
  | Ok None => False
  | Raise _ => True
  end.
Proof.
  unfold _process_temperature. run_handler.
  unfold ret, parallel. cbn. now rewrite !length_map.
Qed.

Lemma process_motion_result (reading : SensorReading) (p : SensorPreprocessor) :
  match fst (_process_motion reading p) with
  | Ok (Some f) => parallel f
  | Ok None => False
  | Raise _ => True
  end.
Proof.
  unfold _process_motion. run_handler.
  unfold ret, parallel. cbn. now rewrite !length_map.
Qed.

Lemma process_generic_result (reading : SensorReading) (p : SensorPreprocessor) :
  match fst (_process_generic reading p) with
  | Ok (Some f) => parallel f
  | Ok None => False
  | Raise _ => True
  end.
Proof.
  unfold _process_generic. run_handler. reflexivity.
Qed.

Lemma process_accelerometer_result (reading : SensorReading)
  (p : SensorPreprocessor) :
  match fst (_process_accelerometer reading p) with
  | Ok (Some f) => parallel f
  | Ok None => unprocessable
                 (mkReading (reading_sensor_id reading) ACCELEROMETER
                    (reading_timestamp reading) (reading_value reading)
                    (reading_unit reading) (reading_confidence reading)
                    (reading_metadata reading)) = true
  | Raise _ => True
  end.
Proof.
  unfold _process_accelerometer.
  destruct (reading_value reading) as [[] |]; try reflexivity.
  run_handler. unfold ret, parallel. cbn. now rewrite !length_map.
Qed.

Lemma process_camera_result (reading : SensorReading) (p : SensorPreprocessor) :
  match fst (_process_camera reading p) with
  | Ok (Some f) =>
      List.length (feature_names f) = 6%nat /\
      exists frame, reading_value reading = Image frame /\
                    camera_statistics frame = Ok (features f)
  | Ok None => exists j, reading_value reading = Plain j
  | Raise _ => True
  end.
Proof.
  unfold _process_camera.
  destruct (reading_value reading) as [j | frame]; [cbn; eauto |].
  unfold bind, lift.
  destruct (camera_statistics frame) as [stats | e] eqn:E; [| exact I].
  destruct (reading_metadata reading); cbn; [| exact I].
  split; [reflexivity | eauto].
Qed.

Lemma process_reading_none_cases (reading : SensorReading)
  (p : SensorPreprocessor) :
  (fst (process_reading reading p) = Ok None <-> unprocessable reading = true) /\
  (unprocessable reading = true ->
   process_reading reading p
   = (Ok None,
      if dict_mem (reading_sensor_id reading) (feature_windows p) then p
      else with_feature_windows
             (dict_set (reading_sensor_id reading) [] (feature_windows p)) p)).
Proof.
  rewrite process_reading_opens. cbv zeta.
  set (opened := if dict_mem _ _ then p else _).
  pose proof (process_temperature_result reading opened) as Ht.
  pose proof (process_motion_result reading opened) as Hm.
  pose proof (process_generic_result reading opened) as Hg.
  pose proof (process_accelerometer_result reading opened) as Ha.
  pose proof (process_camera_result reading opened) as Hc.
  unfold unprocessable in *. cbn [reading_sensor_type reading_value] in Ha.
  assert (Hcam : forall j, reading_value reading = Plain j ->
                           _process_camera reading opened = (Ok None, opened)).
  { intros j Hj. unfold _process_camera. now rewrite Hj. }
  assert (Hacc : (match reading_value reading with
                  | Plain (JDict _) => false
                  | _ => true
                  end) = true ->
                 _process_accelerometer reading opened = (Ok None, opened)).
  { unfold _process_accelerometer.
    destruct (reading_value reading) as [[] |]; try reflexivity; discriminate. }
  destruct (reading_sensor_type reading).
  - destruct (fst (_process_temperature reading opened)) as [[f |] | e];
      repeat split; try discriminate; try contradiction;
      destruct (reading_value reading); discriminate.
  - destruct (fst (_process_motion reading opened)) as [[f |] | e];
      repeat split; try discriminate; try contradiction;
      destruct (reading_value reading); discriminate.
  - destruct (reading_value reading) as [j | frame] eqn:Ev.
    + rewrite (Hcam j eq_refl). repeat split.
    + destruct (fst (_process_camera reading opened)) as [[f |] | e];
        repeat split; try discriminate.
      destruct Hc as (j & Hj). discriminate.
  - destruct (fst (_process_generic reading opened)) as [[f |] | e];
      repeat split; try discriminate; try contradiction;
      destruct (reading_value reading); discriminate.
  - destruct (fst (_process_generic reading opened)) as [[f |] | e];
      repeat split; try discriminate; try contradiction;
      destruct (reading_value reading); discriminate.
  - destruct (fst (_process_generic reading opened)) as [[f |] | e];
      repeat split; try discriminate; try contradiction;
      destruct (reading_value reading); discriminate.
  - destruct (match reading_value reading with
              | Plain (JDict _) => false
              | _ => true
              end) eqn:Eshape.
    + rewrite (Hacc eq_refl). repeat split.
    + destruct (fst (_process_accelerometer reading opened)) as [[f |] | e];
        repeat split; try discriminate.
  - destruct (fst (_process_generic reading opened)) as [[f |] | e];
      repeat split; try discriminate; try contradiction;
      destruct (reading_value reading); discriminate.
Qed.

(** X12. [process_reading] gives no result exactly for a camera reading
    whose value is not a frame and an accelerometer reading whose value is
    not a dict, whatever the preprocessor holds; it then raises nothing
    and touches no window but the sensor's own, created empty if new. Every
    other reading gives a record or raises. *)
Theorem process_reading_no_result (reading : SensorReading)
  (p : SensorPreprocessor) :
  (fst (process_reading reading p) = Ok None <-> unprocessable reading = true) /\
  (unprocessable reading = true ->
   process_reading reading p
   = (Ok None,
      if dict_mem (reading_sensor_id reading) (feature_windows p) then p
      else with_feature_windows
             (dict_set (reading_sensor_id reading) [] (feature_windows p)) p)) /\
  (unprocessable reading = false ->
   (exists f, fst (process_reading reading p) = Ok (Some f)) \/
   (exists e, fst (process_reading reading p) = Raise e)).
Proof.
  destruct (process_reading_none_cases reading p) as [Hiff Hnone].
  split; [exact Hiff | split; [exact Hnone |]].
  intros Hother.
  destruct (fst (process_reading reading p)) as [[f |] | e] eqn:Erun.
  - left. now exists f.
  - destruct Hiff as [Hto _]. rewrite (Hto eq_refl) in Hother. discriminate.
  - right. now exists e.
Qed.

Lemma process_reading_record_shape (reading : SensorReading)
  (p p' : SensorPreprocessor) (f : ProcessedFeatures) :
  process_reading reading p = (Ok (Some f), p') ->
  parallel f \/
  (List.length (feature_names f) = 6%nat /\
   exists frame, camera_statistics frame = Ok (features f)).
Proof.
  rewrite process_reading_opens. cbv zeta.
  set (opened := if dict_mem _ _ then p else _).
  pose proof (process_temperature_result reading opened) as Ht.
  pose proof (process_motion_result reading opened) as Hm.
  pose proof (process_generic_result reading opened) as Hg.
  pose proof (process_accelerometer_result reading opened) as Ha.
  pose proof (process_camera_result reading opened) as Hc.
  intros Hrun.
  destruct (reading_sensor_type reading); rewrite Hrun in *; cbn [fst] in *;
    try (left; assumption).
  destruct Hc as (Hnames & frame & _ & Hstats).
  right. split; [exact Hnames | now exists frame].
Qed.

(** X13. In every record [process_reading] returns the name list and
    the feature vector have one length, provided the camera statistics
    come as the six values the six camera names stand for. *)
Theorem process_reading_parallel (reading : SensorReading)
  (p p' : SensorPreprocessor) (f : ProcessedFeatures) :
  (forall frame stats, camera_statistics frame = Ok stats ->
                       List.length stats = 6%nat) ->
  process_reading reading p = (Ok (Some f), p') ->
  parallel f.
Proof.
  intros Hsix Hrun.
  destruct (process_reading_record_shape reading p p' f Hrun)
    as [Hpar | (Hnames & frame & Hstats)]; [exact Hpar |].
  unfold parallel. rewrite Hnames. exact (Hsix _ _ Hstats).
Qed.

(** X14. [process_batch], when it returns, returns no empty entry, and
    one entry for each reading of the list that [process_reading] has a
    result for: the camera readings without a frame and the accelerometer
    readings without a dict are the ones left out. *)
Theorem process_batch_entries (readings : list SensorReading) :
  forall (p p' : SensorPreprocessor) (entries : list (option ProcessedFeatures)),
    process_batch readings p = (Ok entries, p') ->
    Forall (fun entry => entry <> None) entries /\
    List.length entries
    = List.length (filter (fun r => negb (unprocessable r)) readings).
Proof.
  induction readings as [| r rest IH]; intros p p' entries.
  - cbn. intros [= <- <-]. split; [constructor | reflexivity].
  - cbn [process_batch filter]. unfold bind at 1.
    destruct (process_reading_none_cases r p) as [Hiff Hnone].
    destruct (process_reading r p) as [[[c |] | e] p1] eqn:E1; cbn [fst snd] in *.
    + assert (Hr : unprocessable r = false).
      { destruct (unprocessable r); [| reflexivity].
        destruct Hiff as [_ Hback]. discriminate (Hback eq_refl). }
      rewrite Hr. cbn [negb]. unfold bind at 1.
      destruct (process_reading_none_cases r p1) as [Hiff1 _].
      destruct (process_reading r p1) as [[element | e] p2] eqn:E2;
        cbn [fst snd] in *; [| discriminate].
      unfold bind at 1.
      destruct (process_batch rest p2) as [[others | e] p3] eqn:E3;
        cbn [fst snd]; [| discriminate].
      intros [= <- <-]. destruct (IH _ _ _ E3) as [Hall Hlen].
      split.
      * constructor; [| exact Hall].
        intros ->. destruct Hiff1 as [Hfwd _]. rewrite (Hfwd eq_refl) in Hr.
        discriminate.
      * cbn [List.length]. now rewrite Hlen.
    + destruct Hiff as [Hfwd _]. rewrite (Hfwd eq_refl). cbn [negb].
      apply IH.
    + discriminate.
Qed.

(** ** Rolling statistics *)








Lemma as_vector_scalars (l : list R) : as_vector (map Scalar l) = Ok l.
Proof.
  unfold as_vector. induction l as [| x t IH]; cbn; [reflexivity |].
  now rewrite IH.
Qed.

Lemma deque_append_map {A B : Type} (g : A -> B) (n : nat) (x : A) (q : list A) :
  deque_append n (g x) (map g q) = map g (deque_append n x q).
Proof.
  unfold deque_append. rewrite length_map.
  destruct (Nat.eqb n 0); [reflexivity |].
  destruct (Nat.ltb _ n).
  - now rewrite map_app.
  - rewrite map_app. now destruct q.
Qed.



(** ** Recent entries of a window or a buffer *)

Lemma py_suffix_positive {A : Type} (n : Z) (l : list A) :
  (0 < n)%Z ->
  py_suffix n l = skipn (List.length l - Z.to_nat n) l /\
  List.length (py_suffix n l) = Nat.min (Z.to_nat n) (List.length l).
Proof.
  intros Hn. unfold py_suffix.
  destruct (Z.ltb_spec (- n) 0) as [_ | H]; [| lia].
  replace (Z.to_nat (Z.max 0 (Z.of_nat (List.length l) - n)))
    with (List.length l - Z.to_nat n)%nat by lia.
  split; [reflexivity |]. rewrite length_skipn. lia.
Qed.

Lemma py_suffix_zero {A : Type} (l : list A) : py_suffix 0 l = l.
Proof.
  unfold py_suffix. cbn [Z.opp Z.ltb Z.compare].
  rewrite Z.min_r by lia. reflexivity.
Qed.

Lemma py_suffix_negative {A : Type} (n : Z) (l : list A) :
  (n < 0)%Z -> py_suffix n l = skipn (Z.to_nat (- n)) l.
Proof.
  intros Hn. unfold py_suffix.
  destruct (Z.ltb_spec (- n) 0) as [H | _]; [lia |].
  destruct (Z.le_gt_cases (- n) (Z.of_nat (List.length l))) as [Hle | Hgt].
  - now rewrite Z.min_r by lia.
  - rewrite Z.min_l by lia. rewrite Nat2Z.id.
    rewrite skipn_all. symmetry. apply skipn_all2. lia.
Qed.

(** X16. [get_recent_data] answers with the empty list for a sensor
    without a buffer. For [n] above zero it answers with the last [n]
    readings of the buffer, all of them when there are fewer. For [n] zero
    it answers with the whole buffer, not with none; for [n] below zero it
    leaves out the first [-n] readings. *)
Theorem get_recent_data_window (data_buffers : dict (list SensorReading))
  (sid : string) (n : Z) :
  (dict_get sid data_buffers = None ->
   get_recent_data data_buffers sid n = []) /\
  (forall buffer,
     dict_get sid data_buffers = Some buffer ->
     ((0 < n)%Z ->
      get_recent_data data_buffers sid n
      = skipn (List.length buffer - Z.to_nat n) buffer /\
      List.length (get_recent_data data_buffers sid n)
      = Nat.min (Z.to_nat n) (List.length buffer) /\
      buffer = firstn (List.length buffer - Z.to_nat n) buffer
               ++ get_recent_data data_buffers sid n) /\
     (n = 0%Z -> get_recent_data data_buffers sid n = buffer) /\
     ((n < 0)%Z ->
      get_recent_data data_buffers sid n = skipn (Z.to_nat (- n)) buffer)).
Proof.
  clear_unused.
  unfold get_recent_data. split.
  - intros ->. reflexivity.
  - intros buffer ->. split; [| split].
    + intros Hn. destruct (py_suffix_positive n buffer Hn) as [Hlast Hlen].
      split; [exact Hlast | split; [exact Hlen |]].
      rewrite Hlast. symmetry. apply firstn_skipn.
    + intros ->. apply py_suffix_zero.
    + intros Hn. now apply py_suffix_negative.
Qed.



(** ** A window as a sequence *)

(** X18. [create_temporal_embedding] answers None for a sensor without
    a window and never changes the preprocessor. For a window of numbers
    and a [sequence_length] above zero it answers with exactly
    [sequence_length] values: the window behind as many leading zeros as
    it is short of, or the last [sequence_length] entries of a longer
    window. For [sequence_length] zero it answers with the whole window. *)
Theorem temporal_embedding_length (sid : string) (sequence_length : Z)
  (p : SensorPreprocessor) :
  snd (create_temporal_embedding sid sequence_length p) = p /\
  (dict_get sid (feature_windows p) = None ->
   fst (create_temporal_embedding sid sequence_length p) = Ok None) /\
  (forall window,
     dict_get sid (feature_windows p) = Some (map Scalar window) ->
     ((0 < sequence_length)%Z ->
      exists values,
        fst (create_temporal_embedding sid sequence_length p)
        = Ok (Some (Vector values)) /\
        List.length values = Z.to_nat sequence_length /\
        values = repeat 0 (Z.to_nat sequence_length - List.length window)
                 ++ skipn (List.length window - Z.to_nat sequence_length) window) /\
     (sequence_length = 0%Z ->
      fst (create_temporal_embedding sid sequence_length p)
      = Ok (Some (Vector window)))).
Proof.
  clear_unused.
  assert (Harray : forall l, np_array_samples (map Scalar l) = Ok (Vector l)).
  { intros [| x t]; [reflexivity |].
    change (np_array_samples (map Scalar (x :: t)))
      with (rbind (as_vector (map Scalar (x :: t)))
              (fun values => Ok (Vector values))).
    now rewrite as_vector_scalars. }
  unfold create_temporal_embedding, bind, gets, lift, ret. cbn [fst snd].
  split; [| split].
  - destruct (dict_get sid (feature_windows p)); [| reflexivity].
    now destruct (np_array_samples _).
  - intros ->. reflexivity.
  - intros window ->. rewrite length_map. split.
    + intros Hn.
      exists (repeat 0 (Z.to_nat sequence_length - List.length window)
              ++ skipn (List.length window - Z.to_nat sequence_length) window).
      destruct (Z.ltb_spec (Z.of_nat (List.length window)) sequence_length)
        as [Hshort | Hlong].
      * replace (skipn (List.length window - Z.to_nat sequence_length) window)
          with window by (replace (_ - _)%nat with 0%nat by lia; reflexivity).
        replace (Z.to_nat (sequence_length - Z.of_nat (List.length window)))
          with (Z.to_nat sequence_length - List.length window)%nat by lia.
        replace (repeat (Scalar 0) (Z.to_nat sequence_length - List.length window)
                 ++ map Scalar window)
          with (map Scalar (repeat 0 (Z.to_nat sequence_length - List.length window)
                            ++ window)).
        2:{ rewrite map_app. f_equal. induction (_ - _)%nat; cbn; congruence. }
        rewrite Harray. cbn [fst]. repeat split.
        rewrite length_app, repeat_length. lia.
      * replace (Z.to_nat sequence_length - List.length window)%nat with 0%nat
          by lia.
        cbn [repeat app].
        destruct (py_suffix_positive sequence_length (map Scalar window) Hn)
          as [-> _].
        rewrite length_map, skipn_map, Harray. cbn [fst]. repeat split.
        rewrite length_skipn. lia.
    + intros ->.
      destruct (Z.ltb_spec (Z.of_nat (List.length window)) 0); [lia |].
      rewrite py_suffix_zero, Harray. reflexivity.
Qed.

(** ** The preprocessor feeding the learner *)

Lemma detect_anomaly_parallel (f : ProcessedFeatures) (w : World) :
  parallel f -> exists verdict, detect_anomaly f w = (Ok verdict, w).
Proof.
  clear_unused.
  intros Hpar. eexists. apply detect_anomaly_unrolled.
  intros i name Hname _. unfold parallel in Hpar. rewrite Hpar.
  apply nth_error_Some. congruence.
Qed.

(** X19. What [_on_sensor_data] does with a reading, provided the camera
    statistics come as six values: a reading the preprocessor has no
    result for leaves the learner as it was; a reading it fails on raises
    and leaves the learner as it was; every other reading is handed to
    [add_experience] exactly once, with no label and no reward, and the
    anomaly check before it neither raises nor changes the learner, so the
    outcome is the same with the check on or off. *)
Theorem on_sensor_data_effect (anomaly_detection : bool) (now : R)
  (reading : SensorReading) (s : EdgeAISystem) :
  (forall frame stats, camera_statistics frame = Ok stats ->
                       List.length stats = 6%nat) ->
  let processed := process_reading reading (preprocessor s) in
  _on_sensor_data anomaly_detection now reading s
  = match fst processed with
    | Ok (Some f) =>
        (fst (add_experience now f None None (learner s)),
         mkSystem (snd processed)
           (snd (add_experience now f None None (learner s))))
    | Ok None => (Ok tt, mkSystem (snd processed) (learner s))
    | Raise e => (Raise e, mkSystem (snd processed) (learner s))
    end.
Proof.
  intros Hsix. cbv zeta.
  unfold _on_sensor_data, bind at 1, on_preprocessor.
  destruct (process_reading reading (preprocessor s)) as [[[f |] | e] p'] eqn:Erun;
    cbn [fst snd]; try reflexivity.
  assert (Hpar : parallel f).
  { destruct (process_reading_record_shape reading (preprocessor s) p' f Erun)
      as [Hpar | (Hnames & frame & Hstats)]; [exact Hpar |].
    unfold parallel. rewrite Hnames. exact (Hsix _ _ Hstats). }
  assert (Hcheck : forall s0 : EdgeAISystem,
            (if anomaly_detection
             then bind (on_learner (detect_anomaly f)) (fun _ => ret tt)
             else ret tt) s0 = (Ok tt, s0)).
  { intros [p0 w0]. destruct anomaly_detection; [| reflexivity].
    unfold bind, on_learner, ret. cbn [learner preprocessor].
    destruct (detect_anomaly_parallel f w0 Hpar) as [verdict ->]. reflexivity. }
  unfold bind. rewrite Hcheck. unfold on_learner. cbn [learner preprocessor].
  destruct (add_experience now f None None (learner s)). reflexivity.
Qed.

(** ** Motion, generic and camera readings *)

(** The preprocessor once the window of the reading's sensor exists. *)
Lemma opened_window (sid : string) (p : SensorPreprocessor)
  (window : list sample) :
  dict_get_default sid [] (feature_windows p) = window ->
  let opened :=
    if dict_mem sid (feature_windows p) then p
    else with_feature_windows (dict_set sid [] (feature_windows p)) p in
  dict_get sid (feature_windows opened) = Some window /\
  window_size opened = window_size p /\
  normalize opened = normalize p /\
  forall entries,
    with_feature_windows (dict_set sid entries (feature_windows opened)) opened
    = with_feature_windows (dict_set sid entries (feature_windows p)) p.
Proof.
  clear_unused.
  intros Hwindow. cbv zeta. unfold dict_mem, dict_get_default in *.
  destruct (dict_get sid (feature_windows p)) eqn:Ew.
  - subst. now repeat split.
  - cbn. rewrite dict_get_set_same, <- Hwindow. repeat split.
    intros entries. unfold with_feature_windows. cbn.
    now rewrite dict_set_set.
Qed.



Lemma as_matrix_rows (l : list vec) : as_matrix (map Row l) = Ok l.
Proof.
  unfold as_matrix. induction l as [| x t IH]; cbn; [reflexivity |].
  now rewrite IH.
Qed.

Lemma narrow_axis_number (j : json) (x : R) :
  narrow_axis j x -> axis_number j = Ok x.
Proof.
  clear_unused.
  destruct j as [| b | n | v | s | l | d]; cbn -[pow Z.pow];
    try contradiction.
  - now intros ->.
  - now intros [-> _].
  - intros [-> Hsize].
    assert (Hpow : 0 < 2 ^ 511) by (apply pow_lt; lra).
    change (2 ^ 512) with (2 * 2 ^ 511).
    destruct (Rle_dec (2 * 2 ^ 511) (Rabs v)); [lra | reflexivity].
Qed.

(** X21. An accelerometer reading whose dict holds narrow numbers on its
    axes (a missing axis counts as 0), on a window of rows of four, gives
    a record and is appended to its window as the row x, y, z, magnitude.
    The record starts with these four, the magnitude at or above zero.
    From the third row of the window on it also holds the jerk magnitude
    and the variance of each axis, none of them below zero. *)
Theorem accelerometer_features_by_fill (reading : SensorReading)
  (p : SensorPreprocessor) (accel_data : dict json) (x y z : R)
  (rows : list vec) :
  reading_sensor_type reading = ACCELEROMETER ->
  reading_value reading = Plain (JDict accel_data) ->
  narrow_axis (dict_get_default "x" (JInt 0) accel_data) x ->
  narrow_axis (dict_get_default "y" (JInt 0) accel_data) y ->
  narrow_axis (dict_get_default "z" (JInt 0) accel_data) z ->
  dict_get_default (reading_sensor_id reading) [] (feature_windows p)
  = map Row rows ->
  (forall row, In row rows -> List.length row = 4%nat) ->
  let magnitude := sqrt (x * x + y * y + z * z) in
  let filled := deque_append (window_size p) [x; y; z; magnitude] rows in
  exists f,
    process_reading reading p
    = (Ok (Some f),
       with_feature_windows
         (dict_set (reading_sensor_id reading) (map Row filled)
            (feature_windows p)) p) /\
    0 <= magnitude /\
    ((List.length filled < 3)%nat ->
     features f = [x; y; z; magnitude] /\
     feature_names f = ["accel_x"; "accel_y"; "accel_z"; "accel_magnitude"]) /\
    ((3 <= List.length filled)%nat ->
     exists jerk vx vy vz,
       features f = [x; y; z; magnitude; jerk; vx; vy; vz] /\
       feature_names f
       = ["accel_x"; "accel_y"; "accel_z"; "accel_magnitude"; "jerk_magnitude";
          "accel_x_variance"; "accel_y_variance"; "accel_z_variance"] /\
       0 <= jerk /\
       vx = np_var (column 0 filled) /\ 0 <= vx /\
       vy = np_var (column 1 filled) /\ 0 <= vy /\
       vz = np_var (column 2 filled) /\ 0 <= vz).
Proof.
  intros Htype Hvalue Hx Hy Hz Hwindow Hfour. cbv zeta.
  apply narrow_axis_number in Hx. apply narrow_axis_number in Hy.
  apply narrow_axis_number in Hz.
  set (magnitude := sqrt (x * x + y * y + z * z)).
  set (filled := deque_append (window_size p) [x; y; z; magnitude] rows).
  assert (Hmag : 0 <= magnitude) by apply sqrt_pos.
  rewrite process_reading_opens. cbv zeta. rewrite Htype.
  set (opened := if dict_mem _ _ then p else _).
  destruct (opened_window (reading_sensor_id reading) p (map Row rows)
              Hwindow) as (O1 & O2 & O3 & O4).
  fold opened in O1, O2, O3, O4.
  unfold _process_accelerometer. rewrite Hvalue.
  unfold bind, lift. rewrite Hx, Hy, Hz. cbn [fst snd].
  rewrite (append_to_window_run _ _ _ _ O1). cbn [fst snd].
  rewrite O2, O4. fold magnitude.
  rewrite (deque_append_map Row), length_map.
  change (deque_append (window_size p) [x; y; z; magnitude] rows) with filled.
  destruct (Nat.leb 3 _) eqn:Elong;
    [apply Nat.leb_le in Elong | apply Nat.leb_gt in Elong].
  - rewrite as_matrix_rows. cbn [rbind fst snd]. unfold ret.
    eexists. split; [reflexivity |]. split; [exact Hmag |].
    split; [intros; unfold vec in *; lia |]. intros _.
    do 4 eexists. cbn [features feature_names map fst snd].
    split; [reflexivity |]. split; [reflexivity |].
    repeat split; try apply np_var_nonneg.
    apply np_mean_nonneg. intros d Hd. apply in_map_iff in Hd.
    destruct Hd as (v & <- & _). apply sqrt_pos.
  - cbn [fst snd]. unfold ret.
    eexists. split; [reflexivity |]. split; [exact Hmag |].
    split; [| intros; unfold vec in *; lia]. intros _. split; reflexivity.
Qed.

Lemma float_of_int_exact (n : Z) :
  (Z.abs n <= 2 ^ 53)%Z -> float_of_int n = Ok (IZR n).
Proof.
  clear_unused.
  intros Hsize. unfold float_of_int.
  destruct (Z.leb_spec (2 ^ 1024 - 2 ^ 970) (Z.abs n)) as [Hbig | _].
  { exfalso. assert (2 ^ 53 < 2 ^ 1024 - 2 ^ 970)%Z by reflexivity. lia. }
  do 2 f_equal. unfold nearest_binary64.
  destruct (Z.eq_dec (Z.abs n) (2 ^ 53)) as [Htop | Hbelow].
  - destruct (Z.abs_eq_or_opp n) as [E | E]; rewrite E in Htop.
    + subst n. reflexivity.
    + assert (n = (- 2 ^ 53)%Z) as -> by lia. reflexivity.
  - destruct (Z.leb_spec (Z.log2 (Z.abs n) - 52) 0) as [_ | Hlog];
      [reflexivity |].
    exfalso.
    assert (Hpos : (0 < Z.abs n)%Z).
    { destruct (Z.eq_dec (Z.abs n) 0) as [E | E]; [| lia].
      rewrite E in Hlog. cbn in Hlog. lia. }
    assert (Hlt : (Z.abs n < 2 ^ 53)%Z) by lia.
    apply (Z.log2_lt_pow2 _ _ Hpos) in Hlt. lia.
Qed.

(** An int half way between two floats goes to the one with the even
    significand. *)
Lemma nearest_binary64_ties_to_even :
  nearest_binary64 (2 ^ 53 + 1) = (2 ^ 53)%Z /\
  nearest_binary64 (2 ^ 53 + 3) = (2 ^ 53 + 4)%Z.
Proof. clear_unused. split; reflexivity. Qed.

(** X22. A reading of any other sensor type gives a record of one
    feature under the name of the type: a float is taken as it is,
    whatever [normalize] says, a bool as 1.0 or 0.0, an int as the float
    nearest to it, which is the int itself up to the size [2^53]; an int
    from [2^1024 - 2^970] on raises OverflowError. Every value that is no
    number counts as 0.0 under the name unknown. The window of the sensor
    is created and nothing is ever appended to it. *)
Theorem generic_reading_single_feature (reading : SensorReading)
  (p : SensorPreprocessor) :
  reading_sensor_type reading = HUMIDITY \/
  reading_sensor_type reading = LIGHT \/
  reading_sensor_type reading = PRESSURE \/
  reading_sensor_type reading = GPS ->
  let opened :=
    if dict_mem (reading_sensor_id reading) (feature_windows p) then p
    else with_feature_windows
           (dict_set (reading_sensor_id reading) [] (feature_windows p)) p in
  let named :=
    (sensor_type_value (reading_sensor_type reading) ++ "_value")%string in
  let record (x : R) (name : string) :=
    Ok (Some (mkFeatures [x] [name] (reading_timestamp reading)
                (reading_sensor_id reading)
                [("raw_value", reading_value reading)])) in
  match reading_value reading with
  | Plain (JFloat v) => process_reading reading p = (record v named, opened)
  | Plain (JBool b) =>
      process_reading reading p
      = (record (if b then 1 else 0) named, opened)
  | Plain (JInt n) =>
      process_reading reading p
      = (match float_of_int n with
         | Ok v => record v named
         | Raise e => Raise e
         end, opened) /\
      ((Z.abs n <= 2 ^ 53)%Z -> float_of_int n = Ok (IZR n)) /\
      ((Z.abs n < 2 ^ 1024 - 2 ^ 970)%Z ->
       float_of_int n = Ok (IZR (nearest_binary64 n))) /\
      ((2 ^ 1024 - 2 ^ 970 <= Z.abs n)%Z ->
       float_of_int n = Raise OverflowError)
  | _ => process_reading reading p = (record 0 "unknown", opened)
  end.
Proof.
  intros Htype. cbv zeta. rewrite process_reading_opens. cbv zeta.
  set (opened := if dict_mem _ _ then p else _).
  assert (Hgeneric :
    match reading_sensor_type reading with
    | TEMPERATURE => _process_temperature reading
    | MOTION => _process_motion reading
    | CAMERA => _process_camera reading
    | ACCELEROMETER => _process_accelerometer reading
    | _ => _process_generic reading
    end = _process_generic reading).
  { destruct Htype as [-> | [-> | [-> | ->]]]; reflexivity. }
  rewrite Hgeneric. unfold _process_generic, bind, lift, ret. cbv zeta.
  destruct (reading_value reading) as [[| b | n | v | s | l | d] | frame];
    try reflexivity.
  split; [| split; [apply float_of_int_exact | split]].
  - cbn [py_float rbind]. now destruct (float_of_int n).
  - intros Hsize. unfold float_of_int.
    destruct (Z.leb_spec (2 ^ 1024 - 2 ^ 970) (Z.abs n)); [lia | reflexivity].
  - intros Hsize. unfold float_of_int.
    destruct (Z.leb_spec (2 ^ 1024 - 2 ^ 970) (Z.abs n)); [reflexivity | lia].
Qed.

(** X23. A camera reading with a frame never appends to its window,
    which is created and stays as it is. When the statistics of the frame
    fail their error is raised; when they succeed a reading without
    metadata raises AttributeError, and one with metadata gives the
    statistics under the six camera names. *)
Theorem camera_reading_outcome (reading : SensorReading)
  (p : SensorPreprocessor) (frame : Frame) :
  reading_sensor_type reading = CAMERA ->
  reading_value reading = Image frame ->
  snd (process_reading reading p)
  = (if dict_mem (reading_sensor_id reading) (feature_windows p) then p
     else with_feature_windows
            (dict_set (reading_sensor_id reading) [] (feature_windows p)) p) /\
  match camera_statistics frame, reading_metadata reading with
  | Raise e, _ => fst (process_reading reading p) = Raise e
  | Ok _, None => fst (process_reading reading p) = Raise AttributeError
  | Ok stats, Some md =>
      exists f, fst (process_reading reading p) = Ok (Some f) /\
                features f = stats /\
                feature_names f
                = ["brightness_r"; "brightness_g"; "brightness_b";
                   "brightness_overall"; "contrast"; "edge_density"] /\
                dict_get "objects_detected" (context f)
                = Some (Plain (dict_get_default "objects_detected" (JInt 0) md))
  end.
Proof.
  intros Htype Hvalue. rewrite process_reading_opens. cbv zeta.
  rewrite Htype. unfold _process_camera. rewrite Hvalue.
  unfold bind, lift, raise, ret.
  destruct (camera_statistics frame) as [stats | e]; cbn [fst snd].
  - destruct (reading_metadata reading) as [md |]; cbn [fst snd].
    + split; [reflexivity |]. eexists. repeat split.
    + split; reflexivity.
  - split; reflexivity.
Qed.

End Pipeline.

(** * Runs on the sample data *)

(** ** Persistence *)

Lemma load_incomplete_record_run :
  let before := @attrs_of json constant_learner in
  let after := snd (load_learned_parameters array_as_list
                      (Ok weights_only_record) before) in
  fst (load_learned_parameters array_as_list (Ok weights_only_record) before)
  = Ok false /\
  attr_feature_weights after = JDict [("s_a", JFloat 1)] /\
  attr_feature_weights before = JDict [] /\
  attr_anomaly_thresholds after = attr_anomaly_thresholds before.
Proof.
  cbv zeta.
  pose proof (@load_incomplete_record json array_as_list weights_only_record
                (@attrs_of json constant_learner)) as H.
  cbv zeta in H. destruct H as (Hresult & _ & _ & _ & Hstages).
  destruct (Hstages _ eq_refl) as [Hafter _].
  split; [exact Hresult |].
  rewrite (Hafter eq_refl). repeat split.
Defined.

(** The claim C2 as it is worded fails twice. The record
    [weights_only_record] lacks the thresholds: the load reports failure,
    and the weights of the learner are by then those of the record. The
    record [junk_weights_record] holds a string where the weights belong:
    the load reports success. *)
Lemma load_failure_keeps_loaded_weights :
  ~ (forall (params : json) (before : LearnedAttrs json),
       record_wellformed params = false ->
       snd (load_learned_parameters array_as_list (Ok params) before) = before) /\
  ~ (forall (params : json) (before : LearnedAttrs json),
       record_wellformed params = false ->
       fst (load_learned_parameters array_as_list (Ok params) before) = Ok false).
Proof.
  split; intros H.
  - specialize (H weights_only_record (@attrs_of json constant_learner) eq_refl).
    apply (f_equal (@attr_feature_weights json)) in H.
    simpl in H. discriminate H.
  - specialize (H junk_weights_record (@attrs_of json constant_learner) eq_refl).
    discriminate H.
Qed.

(** ** The update trigger *)

Lemma five_and_one_of_sensor :
  one_sensor "s" ["a"]
    (five_short ++ [experience_of 0 deviating_features None None]).
Proof.
  split; [| split].
  - intros e He. simpl in He. decompose [or] He; subst; try contradiction;
      split; reflexivity.
  - constructor; [intros [] | constructor].
  - reflexivity.
Qed.



(** ** Groups of mixed lengths *)

Lemma mixed_group_contributes_nothing_run :
  _update_anomaly_thresholds (set_buffer [] (mkWorld mixed_learner tt))
  = (fst (_update_anomaly_thresholds (mkWorld mixed_learner tt)),
     set_buffer [] (snd (_update_anomaly_thresholds (mkWorld mixed_learner tt)))).
Proof.
  exact (proj1 (proj2 (@mixed_group_contributes_nothing unit first_indices "s"
                         (mkWorld mixed_learner tt) eq_refl))).
Defined.

(** The claim C4 as it is worded fails: of the six experiences of "s"
    five have one feature, and a step that first discarded the sixth would
    learn a band for "s_a"; the code learns none. *)
Lemma minority_not_discarded :
  ~ (forall (sid : string) (exps : list Experience) (w : World unit),
       mixed_lengths exps = true ->
       thresholds_of_group (sid, exps) w
       = thresholds_of_group (sid, discard_minority exps) w).
Proof.
  intros H.
  specialize (H "s" (five_short ++ [long_experience]) (mkWorld mixed_learner tt)
                eq_refl).
  rewrite (proj1 (proj2 (@mixed_group_skipped unit first_indices "s"
                           (five_short ++ [long_experience])
                           (mkWorld mixed_learner tt) eq_refl))) in H.
  apply (f_equal (fun r => anomaly_thresholds (self (snd r)))) in H.
  simpl in H. discriminate H.
Qed.

(** ** Constant features and detection *)


(** Five samples of 1.0 do have the computed mean 1.0 and the computed
    deviation 0: their band in binary64 is degenerate. *)
Lemma constant_band_of_ones_in_binary64 :
  F64.mean (repeat PrimFloat.one 5) = PrimFloat.one /\
  F64.std (repeat PrimFloat.one 5) = PrimFloat.zero /\
  F64.band (repeat PrimFloat.one 5) = (PrimFloat.one, PrimFloat.one).
Proof. repeat split; vm_compute; reflexivity. Qed.


Lemma detect_anomaly_scores_run :
  detect_anomaly deviating_features (mkWorld trained_learner tt)
  = (Ok (true, np_mean (triggered_scores (anomaly_thresholds trained_learner)
                          deviating_features)),
     mkWorld trained_learner tt).
Proof.
  apply (proj2 (proj2 (@detect_anomaly_scores unit deviating_features
                         (mkWorld trained_learner tt)))).
  - reflexivity.
  - intros name lower upper [<- | []] Hget. simpl in Hget.
    injection Hget as <- <-. lra.
  - unfold triggered_scores, scores_by, triggers, Rgtb, Rltb. simpl.
    destruct (Rlt_dec 3 1); [lra |].
    destruct (Rlt_dec 2 3); [discriminate | lra].
Defined.

Lemma weight_blend_between_run :
  dict_get "s_a"
    (feature_weights
       (self (snd (store_weight "s_a" 0 (mkWorld trained_learner tt)))))
  = Some (ema_weight 1 0) /\
  Rmin 1 0 <= ema_weight 1 0 <= Rmax 1 0.
Proof.
  destruct (@weight_blend_between unit 1 0) as (Hbound & _ & _ & _).
  destruct (@weight_blend_between unit 1 0) as (_ & Hstore & Heq & _).
  split; [| exact Hbound].
  rewrite Heq, Hstore. reflexivity.
Defined.

(** The claim C9 as it is worded fails in binary64: the blend of 0.1
    with 0.1 is evaluated to 0.09999999999999999, below both. *)
Lemma blend_below_both_in_binary64 :
  ~ (forall old sample : PrimFloat.float,
       PrimFloat.leb (F64.smaller old sample) (F64.blend old sample) = true /\
       PrimFloat.leb (F64.blend old sample) (F64.larger old sample) = true).
Proof.
  intros H. destruct (H F64.tenth F64.tenth) as [Hlow _].
  vm_compute in Hlow. discriminate Hlow.
Qed.


(** * Runs of the further statements *)

(** ** The buffer and the learned state *)

Lemma add_experience_bounded_fifo_run :
  buffer_within_capacity (mkWorld reached_learner tt) /\
  List.length
    (experience_buffer
       (self (snd (add_experience first_indices 0 bare_features None None
                     (mkWorld reached_learner tt)))))
  = 3%nat.
Proof.
  assert (H : buffer_within_capacity (mkWorld reached_learner tt))
    by (unfold buffer_within_capacity; simpl; lia).
  split; [exact H |].
  exact (proj1 (proj2 (@add_experience_bounded_fifo unit first_indices 0
                         bare_features None None
                         (mkWorld reached_learner tt) H))).
Defined.

Lemma ready_buffer :
  experience_buffer
    (self (recorded 0 deviating_features None None (mkWorld ready_learner tt)))
  = five_short ++ [experience_of 0 deviating_features None None].
Proof. reflexivity. Qed.

Lemma ready_variance :
  0 < total_variance
        (map exp_features
           (five_short ++ [experience_of 0 deviating_features None None])) 1.
Proof.
  unfold total_variance, np_var, np_mean, np_sum, column. simpl. lra.
Qed.

(** What the call makes of [ready_learner]: a pass runs, and rewrites
    the band and the weight of the feature and seeds five centroids. *)
Lemma ready_learner_pass :
  let w := mkWorld ready_learner tt in
  let result := add_experience first_indices 0 deviating_features None None w in
  let after := self (snd result) in
  let matrix := [[1]; [1]; [1]; [1]; [1]; [3]] in
  let values := [1; 1; 1; 1; 1; 3] in
  result
  = update_pass first_indices (recorded 0 deviating_features None None w) /\
  fst result = Ok tt /\
  update_count after = 6%Z /\
  dict_get "s_a" (anomaly_thresholds after)
  = Some (ema_threshold 1 (np_mean values - 3 * np_std values),
          ema_threshold 2 (np_mean values + 3 * np_std values)) /\
  dict_get "s_a" (feature_weights after)
  = Some (ema_weight 1 (np_var values / total_variance matrix 1)) /\
  dict_get "s" (pattern_clusters after)
  = Some (map (fun i => recentred matrix (nth i matrix []))
            [0; 1; 2; 3; 4]%nat).
Proof.
  cbv zeta.
  set (w1 := recorded 0 deviating_features None None (mkWorld ready_learner tt)).
  assert (Hrun : add_experience first_indices 0 deviating_features None None
                   (mkWorld ready_learner tt)
                 = update_pass first_indices w1).
  { rewrite add_experience_unfold. reflexivity. }
  rewrite Hrun. split; [reflexivity |].
  pose proof (@update_pass_of_one_sensor unit first_indices w1 "s" ["a"]) as H.
  cbv zeta in H.
  specialize (H five_and_one_of_sensor ltac:(simpl; lia)).
  destruct H as (_ & Hfeature & Hclusters).
  destruct (Hfeature 0%nat "a" eq_refl) as [Hband Hweight].
  destruct (Hclusters eq_refl) as (Hok & _ & Hseeds & Hcount).
  { simpl. repeat constructor. }
  split; [exact Hok |]. split; [exact Hcount |].
  split; [exact Hband |]. split; [| exact Hseeds].
  pose proof ready_variance as Hpositive.
  destruct (Rlt_dec 0 _) as [_ | Hnot] in Hweight; [exact Hweight |].
  exfalso. exact (Hnot Hpositive).
Qed.





Lemma first_indices_length (n m : nat) (gen : unit) :
  List.length (fst (first_indices n m gen)) = m.
Proof. apply length_seq. Qed.

Lemma ready_clusters_at_most : clusters_at_most 5 (mkWorld ready_learner tt).
Proof.
  intros sid cs. simpl.
  destruct (String.eqb sid "t"); [| discriminate].
  intros [= <-]. simpl. lia.
Qed.

Lemma add_experience_keeps_five_clusters_run :
  let w := mkWorld ready_learner tt in
  let result := add_experience first_indices 0 deviating_features None None w in
  let matrix := [[1]; [1]; [1]; [1]; [1]; [3]] in
  result
  = update_pass first_indices (recorded 0 deviating_features None None w) /\
  dict_get "s" (pattern_clusters (self w)) = None /\
  dict_get "s" (pattern_clusters (self (snd result)))
  = Some (map (fun i => recentred matrix (nth i matrix []))
            [0; 1; 2; 3; 4]%nat) /\
  clusters_at_most 5 w /\
  clusters_at_most 5 (snd result).
Proof.
  cbv zeta.
  destruct ready_learner_pass as (Hrun & _ & _ & _ & _ & Hseeds).
  split; [exact Hrun |]. split; [reflexivity |]. split; [exact Hseeds |].
  split; [exact ready_clusters_at_most |].
  exact (@add_experience_keeps_five_clusters unit first_indices 0
           deviating_features None None (mkWorld ready_learner tt)
           first_indices_length ready_clusters_at_most).
Defined.

(** ** Detection *)

Lemma deviating_detected :
  fst (detect_anomaly deviating_features (mkWorld trained_learner tt))
  = Ok (true, np_mean [feature_score 1 2 3]).
Proof.
  rewrite detect_anomaly_unrolled.
  - unfold scores_by, triggers, Rgtb, Rltb. simpl.
    destruct (Rlt_dec 3 1); [lra |].
    destruct (Rlt_dec 2 3); [reflexivity | lra].
  - intros [| i] name; simpl; [lia |].
    destruct i; discriminate.
Qed.

Lemma detect_anomaly_score_sign_run :
  fst (detect_anomaly deviating_features (mkWorld trained_learner tt))
  = Ok (true, np_mean [feature_score 1 2 3]) /\
  ((true = true /\ 0 < np_mean [feature_score 1 2 3]) \/
   (true = false /\ np_mean [feature_score 1 2 3] = 0)).
Proof.
  split; [exact deviating_detected |].
  exact (@detect_anomaly_score_sign unit deviating_features
           (mkWorld trained_learner tt) true (np_mean [feature_score 1 2 3])
           deviating_detected).
Defined.

(** ** The preprocessor *)

Lemma fresh_windows_within_capacity :
  windows_within_capacity (new_preprocessor 10 true).
Proof. intros sid window. discriminate. Qed.

Lemma process_reading_keeps_windows_run :
  windows_within_capacity (new_preprocessor 10 true) /\
  windows_within_capacity
    (snd (process_reading no_float flat_statistics reading_22
            (new_preprocessor 10 true))).
Proof.
  split; [exact fresh_windows_within_capacity |].
  exact (proj1 (@process_reading_keeps_windows no_float flat_statistics
                  reading_22 (new_preprocessor 10 true)
                  fresh_windows_within_capacity)).
Defined.

Lemma flat_statistics_six (frame : Frame) (stats : vec) :
  flat_statistics frame = Ok stats -> List.length stats = 6%nat.
Proof. intros [= <-]. reflexivity. Qed.

Lemma process_reading_parallel_run :
  exists f p',
    process_reading no_float flat_statistics reading_22 warm_preprocessor
    = (Ok (Some f), p') /\
    parallel f.
Proof.
  eexists. eexists.
  refine ((fun Hrun => conj Hrun
             (@process_reading_parallel no_float flat_statistics reading_22
                warm_preprocessor _ _ flat_statistics_six Hrun)) _).
  reflexivity.
Defined.

Lemma process_batch_entries_run :
  exists entries p',
    process_batch no_float flat_statistics [blind_reading; reading_22]
      warm_preprocessor
    = (Ok entries, p') /\
    List.length entries = 1%nat.
Proof.
  eexists. eexists.
  refine ((fun Hrun => conj Hrun
             (proj2 (@process_batch_entries no_float flat_statistics
                       [blind_reading; reading_22] warm_preprocessor _ _ Hrun)))
            _).
  reflexivity.
Defined.


(** ** The preprocessor feeding the learner *)

Lemma on_sensor_data_effect_run :
  _on_sensor_data first_indices no_float flat_statistics true 0 reading_22
    (mkSystem warm_preprocessor (mkWorld trained_learner tt))
  = _on_sensor_data first_indices no_float flat_statistics false 0 reading_22
      (mkSystem warm_preprocessor (mkWorld trained_learner tt)).
Proof.
  exact (eq_trans
           (@on_sensor_data_effect unit first_indices no_float flat_statistics
              true 0 reading_22
              (mkSystem warm_preprocessor (mkWorld trained_learner tt))
              flat_statistics_six)
           (eq_sym
              (@on_sensor_data_effect unit first_indices no_float
                 flat_statistics false 0 reading_22
                 (mkSystem warm_preprocessor (mkWorld trained_learner tt))
                 flat_statistics_six))).
Defined.

(** ** Motion, accelerometer, generic and camera readings *)



Lemma no_rows_of_four (row : vec) : In row [] -> List.length row = 4%nat.
Proof. intros []. Qed.

Lemma short_of_three : (1 < 3)%nat.
Proof. lia. Qed.

Lemma small_float_narrow (v : R) : Rabs v <= 4 -> narrow_axis (JFloat v) v.
Proof.
  intros Hsmall. unfold narrow_axis. split; [reflexivity |].
  change (2 ^ 511) with (2 * (2 * 2 ^ 509)).
  pose proof (pow_R1_Rle 2 509 ltac:(lra)). lra.
Qed.

Lemma absent_axis_narrow : narrow_axis (JInt 0) 0.
Proof. unfold narrow_axis. split; [reflexivity | discriminate]. Qed.

Lemma accelerometer_features_by_fill_run :
  exists f,
    process_reading no_float flat_statistics accel_reading
      (new_preprocessor 10 true)
    = (Ok (Some f),
       mkPreprocessor 10 true
         [("a1", [Row [3; 4; 0; sqrt (3 * 3 + 4 * 4 + 0 * 0)]])]) /\
    features f = [3; 4; 0; sqrt (3 * 3 + 4 * 4 + 0 * 0)].
Proof.
  assert (H3 : Rabs 3 <= 4) by (rewrite Rabs_right; lra).
  assert (H4 : Rabs 4 <= 4) by (rewrite Rabs_right; lra).
  destruct (@accelerometer_features_by_fill no_float flat_statistics
              accel_reading (new_preprocessor 10 true)
              [("x", JFloat 3); ("y", JFloat 4)] 3 4 0 [] eq_refl eq_refl
              (small_float_narrow 3 H3) (small_float_narrow 4 H4)
              absent_axis_narrow eq_refl no_rows_of_four)
    as (f & Hrun & _ & Hshort & _).
  exists f. split.
  - rewrite Hrun. reflexivity.
  - exact (proj1 (Hshort short_of_three)).
Defined.

Lemma generic_reading_single_feature_run :
  process_reading no_float flat_statistics humidity_reading
    (new_preprocessor 10 true)
  = (Ok (Some (mkFeatures [40] ["humidity_value"] 0 "h1"
                 [("raw_value", Plain (JFloat 40))])),
     mkPreprocessor 10 true [("h1", [])]).
Proof.
  exact (@generic_reading_single_feature no_float flat_statistics
           humidity_reading (new_preprocessor 10 true) (or_introl eq_refl)).
Defined.

Lemma camera_reading_outcome_run :
  fst (process_reading no_float flat_statistics frame_reading
         (new_preprocessor 10 true))
  = Raise AttributeError.
Proof.
  exact (proj2 (@camera_reading_outcome no_float flat_statistics frame_reading
                  (new_preprocessor 10 true) (mkFrame [64; 64; 3]%nat [])
                  eq_refl eq_refl)).
Defined.
